(** * HeroAgent: the job scheduler, its execution ledger and the request registry

    A shallow embedding of the scheduling layer of the backend
    ([job_scheduler.py], [job_execution_tracker.py], [request_utils.py] and the
    start-up and shut-down code of [main.py]) together with the properties the
    specification states about it.

    Conventions of the embedding.
    - Python values that reach the scheduler through JSON are [pyval]s; a
      [job_config] is a dictionary from strings to such values.
    - A raised exception is the [Raised] outcome; code that can raise while it
      has already changed the process state lives in the monad [M], which
      keeps the state reached when the exception left.
    - The table of execution records is a finite map keyed by
      (PartitionKey, RowKey); the storage service is taken to be reliable, so
      [get_entity] fails exactly when the row is absent.
    - Time stamps are kept as [datetime] records; the ISO strings stored by
      the code are their image under an order-preserving injection.
    - The thread pool is run sequentially, in submission order.  Flags that
      other threads set are read from an explicit environment. *)

From Stdlib Require Import ZArith Lia Ascii Permutation Sorted.
From stdpp Require Import gmap strings list fin_maps pretty sorting.

Local Open Scope Z_scope.

(** ** Python values *)

Module Py.

Inductive pyval :=
| PNone
| PBool (b : bool)
| PInt (n : Z)
| PStr (s : string)
| PList (l : list string).

(** [bool(v)] *)
Definition truthy (v : pyval) : bool :=
  match v with
  | PNone => false
  | PBool b => b
  | PInt n => negb (n =? 0)
  | PStr s => negb (bool_decide (s = ""))
  | PList l => match l with [] => false | _ => true end
  end.

(** [v == s] for a string [s] *)
Definition eq_str (v : pyval) (s : string) : bool :=
  match v with
  | PStr s' => bool_decide (s' = s)
  | _ => false
  end.

Inductive outcome (A : Type) :=
| Returned (a : A)
| Raised (e : string).
Arguments Returned {A} a.
Arguments Raised {A} e.

Definition obind {A B} (x : outcome A) (f : A -> outcome B) : outcome B :=
  match x with
  | Returned a => f a
  | Raised e => Raised e
  end.

(** *** [int(...)]

    The model reads the digits 0 to 9 and strips the blanks space, tab,
    line feed, vertical tab, form feed and carriage return.  Python's
    [int] also reads the decimal digits of other scripts and strips
    further blank characters: on such a string the model raises where
    Python converts.  Where the model returns a number, Python returns
    the same. *)

Definition digit_of (c : ascii) : option Z :=
  Z.of_nat <$> Ascii.is_nat c.

Fixpoint lstrip (s : string) : string :=
  match s with
  | String c s' => if Ascii.is_space c then lstrip s' else s
  | EmptyString => EmptyString
  end.

Definition strip (s : string) : string :=
  String.rev (lstrip (String.rev (lstrip s))).

(** Digits with single underscores between them; [acc] is the value read so
    far and [after_digit] tells whether the previous character was a digit. *)
Fixpoint int_digits (s : string) (acc : Z) (after_digit : bool) : option Z :=
  match s with
  | EmptyString => if after_digit then Some acc else None
  | String c s' =>
      match digit_of c with
      | Some d => int_digits s' (10 * acc + d) true
      | None =>
          if (bool_decide (c = "_"%char) && after_digit)%bool
          then int_digits s' acc false
          else None
      end
  end.

Definition int_of_str (s : string) : option Z :=
  match strip s with
  | String "-" s' => Z.opp <$> int_digits s' 0 false
  | String "+" s' => int_digits s' 0 false
  | s' => int_digits s' 0 false
  end.

Definition int (v : pyval) : outcome Z :=
  match v with
  | PNone => Raised "TypeError"
  | PBool b => Returned (if b then 1 else 0)
  | PInt n => Returned n
  | PStr s =>
      match int_of_str s with
      | Some n => Returned n
      | None => Raised "ValueError"
      end
  | PList _ => Raised "TypeError"
  end.

(** [d.get(k)] and [d.get(k, default)] *)
Definition get (d : gmap string pyval) (k : string) : pyval :=
  default PNone (d !! k).

Definition get_or (d : gmap string pyval) (k : string) (dflt : pyval) : pyval :=
  default dflt (d !! k).

End Py.

Import Py.

Example int_of_str_2 : int (PStr "2") = Returned 2.
Proof. reflexivity. Qed.

Example int_of_str_padded : int (PStr " 00 ") = Returned 0.
Proof. reflexivity. Qed.

Example int_of_str_bad : int (PStr "2h") = Raised "ValueError".
Proof. reflexivity. Qed.

Example int_of_none : int PNone = Raised "TypeError".
Proof. reflexivity. Qed.

(** ** Wall-clock time

    [get_china_now()] yields an aware [datetime] in the fixed zone UTC+8; all
    the date-times the scheduler handles live in that zone, so a value is
    its civil fields.  The calendar functions follow the proleptic Gregorian
    ordinal of the Python library. *)

Module DT.

Record datetime := mk_datetime {
  year : Z; month : Z; day : Z;
  hour : Z; minute : Z; second : Z; microsecond : Z
}.

#[global] Instance datetime_eq_dec : EqDecision datetime.
Proof. solve_decision. Defined.

Definition is_leap (y : Z) : bool :=
  (y mod 4 =? 0) && (negb (y mod 100 =? 0) || (y mod 400 =? 0)).

Definition days_before_year (y : Z) : Z :=
  let p := y - 1 in p * 365 + p / 4 - p / 100 + p / 400.

Definition days_in_month (y m : Z) : Z :=
  if (m =? 2) && is_leap y then 29
  else nth (Z.to_nat m) [0; 31; 28; 31; 30; 31; 30; 31; 31; 30; 31; 30; 31] 0.

Definition days_before_month (y m : Z) : Z :=
  nth (Z.to_nat m) [0; 0; 31; 59; 90; 120; 151; 181; 212; 243; 273; 304; 334] 0
  + (if (2 <? m) && is_leap y then 1 else 0).

Definition toordinal (t : datetime) : Z :=
  days_before_year (year t) + days_before_month (year t) (month t) + day t.

(** Monday is 0 and Sunday is 6. *)
Definition weekday (t : datetime) : Z := (toordinal t + 6) mod 7.

(** Microseconds since the start of the calendar; differences of these are
    the [timedelta]s of the code and their order is the order of instants. *)
Definition timestamp (t : datetime) : Z :=
  (((toordinal t * 24 + hour t) * 60 + minute t) * 60 + second t) * 1000000
  + microsecond t.

Definition lt (a b : datetime) : Prop := timestamp a < timestamp b.
Definition ltb (a b : datetime) : bool := timestamp a <? timestamp b.

(** [(a - b).total_seconds() / 3600 > h], on exact integers *)
Definition hours_apart_gt (a b : datetime) (h : Z) : bool :=
  h * 3600 * 1000000 <? timestamp a - timestamp b.

(** [t.replace(hour=.., minute=.., second=.., microsecond=..)]: a keyword that
    is not given keeps the field; a value out of range raises [ValueError]. *)
Definition replace (t : datetime) (h m s us : option Z) : outcome datetime :=
  let h' := default (hour t) h in
  let m' := default (minute t) m in
  let s' := default (second t) s in
  let us' := default (microsecond t) us in
  if negb ((0 <=? h') && (h' <=? 23)) then Raised "ValueError"
  else if negb ((0 <=? m') && (m' <=? 59)) then Raised "ValueError"
  else if negb ((0 <=? s') && (s' <=? 59)) then Raised "ValueError"
  else if negb ((0 <=? us') && (us' <=? 999999)) then Raised "ValueError"
  else Returned (mk_datetime (year t) (month t) (day t) h' m' s' us').

(** [t + timedelta(days=1)] *)
Definition plus_one_day (t : datetime) : datetime :=
  if day t <? days_in_month (year t) (month t)
  then mk_datetime (year t) (month t) (day t + 1)
         (hour t) (minute t) (second t) (microsecond t)
  else if month t <? 12
  then mk_datetime (year t) (month t + 1) 1
         (hour t) (minute t) (second t) (microsecond t)
  else mk_datetime (year t + 1) 1 1
         (hour t) (minute t) (second t) (microsecond t).

(** *** [strftime] with zero-padded decimal fields *)

Definition digit (n : Z) : ascii :=
  ascii_of_nat (48 + Z.to_nat (n mod 10)).

Definition pad2 (n : Z) : string :=
  String (digit (n / 10)) (String (digit n) "").

Definition pad4 (n : Z) : string :=
  String (digit (n / 1000)) (String (digit (n / 100)) (pad2 n)).

(** [t.strftime('%Y-%m-%d')] *)
Definition date_str (t : datetime) : string :=
  pad4 (year t) +:+ "-" +:+ pad2 (month t) +:+ "-" +:+ pad2 (day t).

(** [t.strftime('%H:%M:%S')] *)
Definition time_str (t : datetime) : string :=
  pad2 (hour t) +:+ ":" +:+ pad2 (minute t) +:+ ":" +:+ pad2 (second t).

(** Start of the day of [t]: [t.replace(hour=0, minute=0, second=0, microsecond=0)] *)
Definition midnight (t : datetime) : datetime :=
  mk_datetime (year t) (month t) (day t) 0 0 0 0.

End DT.

Import DT.

Definition wed_2026_11_04 : datetime := mk_datetime 2026 11 4 2 0 17 250000.

Example weekday_wednesday : weekday wed_2026_11_04 = 2.
Proof. reflexivity. Qed.

Example weekday_epoch_thursday : weekday (mk_datetime 1970 1 1 0 0 0 0) = 3.
Proof. reflexivity. Qed.

Example date_str_ex : date_str wed_2026_11_04 = "2026-11-04".
Proof. reflexivity. Qed.

Example time_str_ex : time_str wed_2026_11_04 = "02:00:17".
Proof. reflexivity. Qed.

Example plus_one_day_leap :
  plus_one_day (mk_datetime 2028 2 28 23 5 0 0) = mk_datetime 2028 2 29 23 5 0 0.
Proof. reflexivity. Qed.

Example plus_one_day_year_end :
  plus_one_day (mk_datetime 2026 12 31 23 5 0 0) = mk_datetime 2027 1 1 23 5 0 0.
Proof. reflexivity. Qed.

Example replace_out_of_range :
  replace wed_2026_11_04 (Some 2) (Some 75) None None = Raised "ValueError".
Proof. reflexivity. Qed.

(** ** Process state *)

(** A user's job settings entry: the JSON object stored under a job id. *)
Abbreviation job_config := (gmap string pyval).

(** A registered executor: called with [(username, job_config)], it returns
    or raises; the scheduler does not look at a returned value. *)
Definition callable := string -> job_config -> outcome unit.

(** One row of the table [herojobexecutions]; its [PartitionKey] (the user
    name) and [RowKey] (the execution id) are the key it is stored under. *)
Record entity := mk_entity {
  e_job_id : string;
  e_job_type : string;
  e_scheduled_time : option datetime;
  e_execution_start_time : option datetime;
  e_execution_end_time : option datetime;
  e_status : string;
  e_error_message : option string
}.

Abbreviation row_key := (string * string)%type.
Abbreviation rows := (gmap (string * string) entity).

(** An entry of the in-memory map [active_jobs], keyed by execution id. *)
Record active_job := mk_active_job {
  aj_username : string;
  aj_job_id : string;
  aj_start_time : datetime
}.

(** An executor invocation, with the arguments of the pass that made it. *)
Record call := mk_call {
  c_job_id : string;
  c_username : string;
  c_job_config : job_config;
  c_job_type : string;
  c_execution_id : string;
  c_china_now : datetime
}.

(** Observable effects, in the order in which they happen. *)
Inductive event :=
| EvStatus (username execution_id status : string)
| EvActiveAdd (execution_id : string)
| EvActiveDel (execution_id : string)
| EvCall (c : call).

Record world := mk_world {
  (** [job_execution_tracker._job_executions_table]: [None] until
      [initialize_job_executions_table] has run *)
  _job_executions_table : option rows;
  (** [JobScheduler.executor_manager.executors] *)
  executors : gmap string (callable * string);
  (** [JobScheduler.job_execution_tracker] *)
  job_execution_tracker : gmap (string * string * string) datetime;
  (** [job_scheduler.active_jobs]: [None] until [set_shutdown_globals] *)
  active_jobs : option (gmap string active_job);
  trace : list event
}.

Definition set_table (w : world) (t : option rows) : world :=
  mk_world t (executors w) (job_execution_tracker w) (active_jobs w) (trace w).

Definition set_tracker (w : world) (t : gmap (string * string * string) datetime) : world :=
  mk_world (_job_executions_table w) (executors w) t (active_jobs w) (trace w).

Definition set_active_jobs (w : world) (a : option (gmap string active_job)) : world :=
  mk_world (_job_executions_table w) (executors w) (job_execution_tracker w) a (trace w).

Definition emit (w : world) (ev : event) : world :=
  mk_world (_job_executions_table w) (executors w) (job_execution_tracker w)
           (active_jobs w) (trace w ++ [ev]).

(** The executor invocations of a trace. *)
Definition calls (t : list event) : list call :=
  omap (fun ev => match ev with EvCall c => Some c | _ => None end) t.

(** *** Computations that may raise after changing the state *)

Definition M (A : Type) : Type := world -> outcome A * world.

Definition ret {A} (a : A) : M A := fun w => (Returned a, w).

Definition raise {A} (e : string) : M A := fun w => (Raised e, w).

Definition bind {A B} (c : M A) (k : A -> M B) : M B :=
  fun w =>
    match c w with
    | (Returned a, w') => k a w'
    | (Raised e, w') => (Raised e, w')
    end.

(** An expression that raises or yields a value without touching the state *)
Definition lift {A} (x : outcome A) : M A := fun w => (x, w).

(** Reading the state *)
Definition with_world {A} (k : world -> M A) : M A := fun w => k w w.

(** A state change that cannot raise *)
Definition step (f : world -> world) : M unit := fun w => (Returned tt, f w).

(** [try: c  except Exception as e: h e] *)
Definition try_except {A} (c : M A) (h : string -> M A) : M A :=
  fun w =>
    match c w with
    | (Returned a, w') => (Returned a, w')
    | (Raised e, w') => h e w'
    end.

#[global] Instance M_ret : MRet M := @ret.
#[global] Instance M_bind : MBind M := fun A B k c => bind c k.

(** Unfolding of the monad operations. *)
Ltac m_unfold :=
  unfold mbind, M_bind, bind, lift, with_world, mret, M_ret, ret, step, raise,
    try_except in *.

(** [for x in l: body x], left to right, leaving at the first exception *)
Fixpoint for_each {A} (l : list A) (body : A -> M unit) : M unit :=
  match l with
  | [] => ret tt
  | x :: l' => body x;; for_each l' body
  end.

(** ** The execution ledger ([job_execution_tracker.py]) *)

Module Ledger.

(** [initialize_job_executions_table]: binds the module global to the
    service's table, whose present rows are [storage], unless already bound. *)
Definition initialize_job_executions_table (storage : rows) (w : world) : world :=
  match _job_executions_table w with
  | None => set_table w (Some storage)
  | Some _ => w
  end.

Definition generate_execution_id (job_id : string) (scheduled_time : datetime) : string :=
  job_id +:+ "_" +:+ date_str scheduled_time +:+ "_" +:+ time_str scheduled_time.

(** [_job_executions_table.get_entity(...)] inside [try/except]: any failure,
    an unbound table included, reads as "no such record". *)
Definition record_exists (w : world) (username execution_id : string) : bool :=
  match _job_executions_table w with
  | Some t => bool_decide (is_Some (t !! (username, execution_id)))
  | None => false
  end.

(** The row that [upsert_entity(entity)] leaves.  The default mode of the
    call merges, and a property that [entity] holds as [None] is not
    sent: a row that is already there keeps its value for it. *)
Definition merged (old : option entity) (e : entity) : entity :=
  match old with
  | None => e
  | Some o =>
      let sent {A} (new kept : option A) : option A :=
        match new with
        | Some x => Some x
        | None => kept
        end in
      mk_entity (e_job_id e) (e_job_type e)
        (sent (e_scheduled_time e) (e_scheduled_time o))
        (sent (e_execution_start_time e) (e_execution_start_time o))
        (sent (e_execution_end_time e) (e_execution_end_time o))
        (e_status e)
        (sent (e_error_message e) (e_error_message o))
  end.

(** [_job_executions_table.upsert_entity(entity)] *)
Definition upsert_entity (username execution_id : string) (e : entity) : M unit :=
  fun w =>
    match _job_executions_table w with
    | Some t =>
        (Returned tt,
         set_table w
           (Some (<[(username, execution_id) := merged (t !! (username, execution_id)) e]>
                    t)))
    | None => (Raised "AttributeError", w)
    end.

Definition create_job_execution_record
    (username job_id job_type : string) (scheduled_time : datetime)
    (w : world) : option string * world :=
  match _job_executions_table w with
  | None => (None, w)
  | Some t =>
      let execution_id := generate_execution_id job_id scheduled_time in
      let entity :=
        mk_entity job_id job_type (Some scheduled_time) None None "pending" None in
      (Some execution_id,
       set_table w
         (Some (<[(username, execution_id) := merged (t !! (username, execution_id)) entity]>
                  t)))
  end.

(** The field updates of [update_job_execution_status] on the fetched
    entity; [now] is the reading of [get_china_now()]. *)
Definition updated_entity (now : datetime) (status : string)
    (error_message : option string) (e : entity) : entity :=
  if bool_decide (status = "running") then
    mk_entity (e_job_id e) (e_job_type e) (e_scheduled_time e)
      (match e_execution_start_time e with
       | None => Some now
       | Some t => Some t
       end)
      (e_execution_end_time e) status (e_error_message e)
  else if bool_decide (status = "completed" \/ status = "failed") then
    mk_entity (e_job_id e) (e_job_type e) (e_scheduled_time e)
      (e_execution_start_time e) (Some now) status
      (match error_message with
       | Some msg => if bool_decide (msg = "") then e_error_message e else Some msg
       | None => e_error_message e
       end)
  else
    mk_entity (e_job_id e) (e_job_type e) (e_scheduled_time e)
      (e_execution_start_time e) (e_execution_end_time e) status
      (e_error_message e).

Definition update_job_execution_status (now : datetime)
    (username execution_id status : string) (error_message : option string)
    (w : world) : world :=
  match _job_executions_table w with
  | None => w
  | Some t =>
      match t !! (username, execution_id) with
      | None => w
      | Some e =>
          emit
            (set_table w
               (Some (<[(username, execution_id) :=
                         updated_entity now status error_message e]> t)))
            (EvStatus username execution_id status)
      end
  end.

(** The rows [get_missed_jobs] returns: status pending or running, and a
    scheduled time before [china_now]. *)
Definition is_missed (china_now : datetime) (e : entity) : bool :=
  bool_decide (e_status e = "pending" \/ e_status e = "running")
  && match e_scheduled_time e with
     | Some t => ltb t china_now
     | None => false
     end.

Definition get_missed_jobs (china_now : datetime) (w : world) : list (row_key * entity) :=
  match _job_executions_table w with
  | None => []
  | Some t => filter (fun kv => is_missed china_now kv.2 = true) (map_to_list t)
  end.

(** The query [scheduled_time lt before_date]: rows without the property do
    not match. *)
Definition scheduled_before (before_date : datetime) (e : entity) : bool :=
  match e_scheduled_time e with
  | Some t => ltb t before_date
  | None => false
  end.

Definition cleanup_old_job_records (now : datetime) (before_date : option datetime)
    (w : world) : world :=
  match _job_executions_table w with
  | None => w
  | Some t =>
      let before := default (midnight now) before_date in
      set_table w
        (Some (filter (fun kv => scheduled_before before kv.2 = false) t))
  end.

(** The query [scheduled_time ge start_of_day and scheduled_time lt end_of_day] *)
Definition scheduled_on (target_date : datetime) (e : entity) : bool :=
  match e_scheduled_time e with
  | Some t =>
      negb (ltb t (midnight target_date))
      && ltb t (plus_one_day (midnight target_date))
  | None => false
  end.

Definition check_job_records_exist_for_date (target_date : datetime) (w : world) : bool :=
  match _job_executions_table w with
  | None => false
  | Some t => existsb (fun kv => scheduled_on target_date kv.2) (map_to_list t)
  end.

End Ledger.

Import Ledger.

Example generate_execution_id_ex :
  generate_execution_id "auto_challenge" (mk_datetime 2026 11 4 2 0 0 0)
  = "auto_challenge_2026-11-04_02:00:00".
Proof. reflexivity. Qed.

(** ** User settings *)

(** What the scheduler reads from a row of [herousers].  [job_settings] is
    the dictionary obtained from the JSON column of that name, in its own
    order, and is empty when the column is absent, empty or not JSON. *)
Record user_settings_data := mk_user_settings {
  user_type : option string;
  job_scheduling_enabled : option pyval;
  job_settings : list (string * job_config)
}.

(** [user_settings_data.get('user_type', 'player') == 'admin'] *)
Definition is_admin (u : user_settings_data) : bool :=
  bool_decide (default "player" (user_type u) = "admin").

(** [user_settings_data.get('job_scheduling_enabled', True)] *)
Definition scheduling_enabled (u : user_settings_data) : bool :=
  truthy (default (PBool true) (job_scheduling_enabled u)).

(** [job_config.get('enabled', False)] *)
Definition enabled (job_config : job_config) : bool :=
  truthy (get_or job_config "enabled" (PBool false)).

Module Init.

(** The entity written for a daily or weekly job: completed, with both
    execution times at the scheduled time, when that time has passed. *)
Definition day_entity (china_now : datetime) (job_id job_type : string)
    (scheduled_time : datetime) : entity :=
  if ltb scheduled_time china_now then
    mk_entity job_id job_type (Some scheduled_time)
      (Some scheduled_time) (Some scheduled_time) "completed" None
  else
    mk_entity job_id job_type (Some scheduled_time) None None "pending" None.

(** Check for an existing record, then write unless one was found. *)
Definition create_unless_exists (username execution_id : string) (e : entity) : M unit :=
  fun w =>
    if record_exists w username execution_id then (Returned tt, w)
    else upsert_entity username execution_id e w.

Definition init_daily (china_now target_date : datetime)
    (username job_id : string) (job_config : job_config) : M unit :=
  scheduled_hour ← lift (int (get_or job_config "hour" (PInt 0)));
  scheduled_minute ← lift (int (get_or job_config "minute" (PInt 0)));
  scheduled_time ← lift (replace target_date (Some scheduled_hour)
                           (Some scheduled_minute) (Some 0) (Some 0));
  create_unless_exists username (generate_execution_id job_id scheduled_time)
    (day_entity china_now job_id "daily" scheduled_time).

Definition init_hourly (china_now target_date : datetime)
    (username job_id : string) (job_config : job_config) : M unit :=
  scheduled_minute ← lift (int (get_or job_config "minute" (PInt 0)));
  next_scheduled_time ← lift (
    if scheduled_minute <=? minute china_now then
      let next_hour := hour china_now + 1 in
      if 24 <=? next_hour then
        replace (plus_one_day target_date) (Some 0) (Some scheduled_minute)
          (Some 0) (Some 0)
      else
        replace target_date (Some next_hour) (Some scheduled_minute)
          (Some 0) (Some 0)
    else
      replace target_date (Some (hour china_now)) (Some scheduled_minute)
        (Some 0) (Some 0));
  create_unless_exists username (generate_execution_id job_id next_scheduled_time)
    (mk_entity job_id "hourly" (Some next_scheduled_time) None None "pending" None).

Definition init_weekly (china_now target_date : datetime)
    (username job_id : string) (job_config : job_config) : M unit :=
  day_of_week ← lift (int (get_or job_config "day_of_week" (PInt 0)));
  scheduled_hour ← lift (int (get_or job_config "hour" (PInt 0)));
  scheduled_minute ← lift (int (get_or job_config "minute" (PInt 0)));
  if bool_decide (weekday target_date = day_of_week) then
    scheduled_time ← lift (replace target_date (Some scheduled_hour)
                             (Some scheduled_minute) (Some 0) (Some 0));
    create_unless_exists username (generate_execution_id job_id scheduled_time)
      (day_entity china_now job_id "weekly" scheduled_time)
  else mret tt.

(** The body of the loop over a user's job settings. *)
Definition init_job (china_now target_date : datetime) (username : string)
    (job : string * job_config) : M unit :=
  let '(job_id, job_config) := job in
  if negb (enabled job_config) then mret tt
  else
    let job_type := get job_config "type" in
    if eq_str job_type "daily" then
      init_daily china_now target_date username job_id job_config
    else if eq_str job_type "hourly" then
      init_hourly china_now target_date username job_id job_config
    else if eq_str job_type "weekly" then
      init_weekly china_now target_date username job_id job_config
    else mret tt.

(** The body of the loop over the users. *)
Definition init_user (china_now target_date : datetime)
    (user : string * user_settings_data) : M unit :=
  let '(username, user_settings_data) := user in
  if is_admin user_settings_data then mret tt
  else if negb (scheduling_enabled user_settings_data) then mret tt
  else for_each (job_settings user_settings_data)
         (init_job china_now target_date username).

(** [initialize_daily_job_records(job_scheduler, target_date)]: [users] is
    what [job_scheduler.get_all_users_from_db()] returns and [china_now] the
    reading of the clock at entry. *)
Definition initialize_daily_job_records
    (users : list (string * user_settings_data))
    (china_now : datetime) (target_date : option datetime) (w : world) : world :=
  match _job_executions_table w with
  | None => w
  | Some _ =>
      let target_date := default china_now target_date in
      let w1 := cleanup_old_job_records china_now (Some (midnight target_date)) w in
      (try_except
         (for_each users (init_user china_now target_date))
         (fun _ => mret tt) w1).2
  end.

End Init.

Import Init.

(** ** The executor table ([ExecutorManager]) *)

Module ExecutorManager.
Section Manager.
(** The arguments the callables take: [*args] of [execute_job]. *)
Context {Args : Type}.

(** [self.executors]: id to (callable, display name) *)
Implicit Types executors : gmap string ((Args -> outcome unit) * string).

Definition register_executor executors (executor_id : string)
    (executor : Args -> outcome unit) (executor_name : string)
    : gmap string ((Args -> outcome unit) * string) :=
  <[executor_id := (executor, executor_name)]> executors.

Definition get_executor executors (executor_id : string)
    : option (Args -> outcome unit) :=
  fst <$> executors !! executor_id.

Definition execute_job executors (executor_id : string)
    (args : Args) : outcome unit :=
  match executors !! executor_id with
  | Some executor_info => executor_info.1 args
  | None => Raised ("Executor " +:+ executor_id +:+ " not found")
  end.
End Manager.
End ExecutorManager.

(** ** The scheduler ([JobScheduler]) *)

Module JobType.
Definition DAILY : string := "daily".
Definition HOURLY : string := "hourly".
Definition WEEKLY : string := "weekly".
Definition CUSTOM : string := "custom".
End JobType.

#[global] Instance outcome_ret : MRet outcome := @Returned.
#[global] Instance outcome_bind : MBind outcome := fun A B k x => obind x k.

Module Scheduler.

(** The job types whose runs are remembered per day. *)
Definition per_day (job_type : string) : bool :=
  bool_decide (job_type = JobType.DAILY \/ job_type = JobType.WEEKLY).

Definition tracker_key (username job_id : string) (china_now : datetime)
    : string * string * string :=
  (username, job_id, date_str china_now).

Definition _has_job_executed_today (w : world) (username job_id : string)
    (china_now : datetime) : bool :=
  bool_decide (is_Some (job_execution_tracker w !! tracker_key username job_id china_now)).

Definition _record_job_execution (username job_id : string) (china_now : datetime)
    (w : world) : world :=
  set_tracker w
    (<[tracker_key username job_id china_now := china_now]> (job_execution_tracker w)).

(** *** Which jobs are due, and with what priority *)

(** The value of [(should_run, priority)] after the [if/elif] chain of
    [run_jobs] for a job already known to be enabled and of type [job_type]. *)
Definition due_check (job_type : string) (job_config : job_config)
    (china_now : datetime) : outcome (bool * Z) :=
  if bool_decide (job_type = JobType.DAILY) then
    scheduled_hour ← int (get job_config "hour");
    scheduled_minute ← int (get_or job_config "minute" (PStr "0"));
    if bool_decide (hour china_now = scheduled_hour)
       && (bool_decide (minute china_now = scheduled_minute)
           || bool_decide (minute china_now = scheduled_minute + 1))
    then Returned (true, scheduled_hour * 60 + scheduled_minute)
    else Returned (false, 0)
  else if bool_decide (job_type = JobType.HOURLY) then
    m ← int (get_or job_config "minute" (PStr "00"));
    if bool_decide (minute china_now = m) then
      priority ← int (get_or job_config "minute" (PStr "00"));
      Returned (true, priority)
    else Returned (false, 0)
  else if bool_decide (job_type = JobType.WEEKLY) then
    d ← int (get job_config "day_of_week");
    if bool_decide (weekday china_now = d) then
      h ← int (get job_config "hour");
      if bool_decide (hour china_now = h) then
        d' ← int (get job_config "day_of_week");
        h' ← int (get job_config "hour");
        Returned (true, d' * 24 + h')
      else Returned (false, 0)
    else Returned (false, 0)
  else Returned (false, 0).

(** The scheduled time the record of a due job is filed under. *)
Definition scheduled_time_of (job_type : string) (job_config : job_config)
    (china_now : datetime) : outcome datetime :=
  scheduled_time ← replace china_now None None (Some 0) (Some 0);
  if bool_decide (job_type = JobType.DAILY) then
    h ← int (get job_config "hour");
    m ← int (get_or job_config "minute" (PStr "0"));
    replace scheduled_time (Some h) (Some m) None None
  else if bool_decide (job_type = JobType.HOURLY) then
    m ← int (get_or job_config "minute" (PStr "00"));
    replace scheduled_time None (Some m) None None
  else if bool_decide (job_type = JobType.WEEKLY) then
    h ← int (get job_config "hour");
    m ← int (get_or job_config "minute" (PStr "0"));
    replace scheduled_time (Some h) (Some m) None None
  else Returned scheduled_time.

(** *** The priority queue *)

(** An entry of [job_queue]: the tuple
    [(priority, counter, username, user_settings_data, job_id, job_config, execution_id)]. *)
Record queued := mk_queued {
  q_priority : Z;
  q_counter : nat;
  q_username : string;
  q_user_settings_data : user_settings_data;
  q_job_id : string;
  q_job_config : job_config;
  q_execution_id : string
}.

(** Tuple order; the counters of a queue are distinct, so the comparison
    never reaches the third component. *)
Definition before (a b : queued) : bool :=
  (q_priority a <? q_priority b)
  || ((q_priority a =? q_priority b) && (q_counter a <=? q_counter b)%nat).

(** [least x l] splits [x :: l] into an entry that is before all the others
    and the others, which keep their order. *)
Fixpoint least (x : queued) (l : list queued) : queued * list queued :=
  match l with
  | [] => (x, [])
  | y :: l' =>
      if before x y
      then (let r := least x l' in (r.1, y :: r.2))
      else (let r := least y l' in (r.1, x :: r.2))
  end.

(** [job_queue.get()] on a queue holding [q] *)
Definition pq_get (q : list queued) : option (queued * list queued) :=
  match q with
  | [] => None
  | x :: l => Some (least x l)
  end.

(** [job_queue.put(item)] *)
Definition pq_put (q : list queued) (item : queued) : list queued := q ++ [item].

(** The order in which [get] hands out a queue that nobody adds to. *)
Fixpoint drain (fuel : nat) (q : list queued) : list queued :=
  match fuel with
  | O => []
  | S fuel' =>
      match pq_get q with
      | None => []
      | Some (item, q') => item :: drain fuel' q'
      end
  end.

(** *** Flags shared with other threads *)

Record flags := mk_flags {
  (** [shutdown_requested and shutdown_requested.is_set()] *)
  shutdown_set : bool;
  (** the module global [scheduler_paused] *)
  paused : bool
}.

(** The submission loop of [run_jobs]; [observe k] is the state of the flags
    when the loop is about to submit for the [k]-th time. *)
Fixpoint submit_loop (fuel : nat) (observe : nat -> flags) (k : nat)
    (q : list queued) : list queued :=
  match fuel with
  | O => []
  | S fuel' =>
      match pq_get q with
      | None => []
      | Some (item, q') =>
          if shutdown_set (observe k) then []
          else item :: submit_loop fuel' observe (S k) q'
      end
  end.

(** *** The worker *)

(** [active_jobs[execution_id] = {...}] when the globals are set *)
Definition active_add (execution_id : string) (a : active_job) (w : world) : world :=
  match active_jobs w with
  | Some m => emit (set_active_jobs w (Some (<[execution_id := a]> m))) (EvActiveAdd execution_id)
  | None => w
  end.

(** [active_jobs.pop(execution_id, None)] when the globals are set *)
Definition active_pop (execution_id : string) (w : world) : world :=
  match active_jobs w with
  | Some m => emit (set_active_jobs w (Some (delete execution_id m))) (EvActiveDel execution_id)
  | None => w
  end.

(** [executor(username, job_config)] *)
Definition invoke (executor : callable) (c : call) : M unit :=
  fun w => (executor (c_username c) (c_job_config c), emit w (EvCall c)).

(** The follow-up record an hourly job files once it has completed. *)
Definition next_hourly_record (username job_id job_type : string)
    (job_config : job_config) (china_now : datetime) : M unit :=
  scheduled_minute ← lift (int (get_or job_config "minute" (PStr "00")));
  next_scheduled_time ← lift (
    let next_hour := hour china_now + 1 in
    if 24 <=? next_hour then
      replace (plus_one_day china_now) (Some 0) (Some scheduled_minute) (Some 0) (Some 0)
    else
      replace china_now (Some next_hour) (Some scheduled_minute) (Some 0) (Some 0));
  step (fun w => (create_job_execution_record username job_id job_type
                    next_scheduled_time w).2).

(** The [try] block of [_execute_single_job]; [t_run] and [t_end] are the
    readings of the clock when the record is marked running and when it is
    marked completed or failed. *)
Definition worker_body (t_run t_end : datetime) (username : string)
    (job_id : string) (job_config : job_config) (job_type : string)
    (china_now : datetime) (execution_id : string) : M unit :=
  step (update_job_execution_status t_run username execution_id "running" None);;
  step (active_add execution_id (mk_active_job username job_id t_run));;
  with_world (fun w =>
    match executors w !! job_id with
    | None =>
        step (update_job_execution_status t_end username execution_id "failed"
                (Some ("Executor not found for job " +:+ job_id)))
    | Some executor_info =>
        step (if per_day job_type
              then _record_job_execution username job_id china_now
              else fun w => w);;
        invoke executor_info.1
          (mk_call job_id username job_config job_type execution_id china_now);;
        step (update_job_execution_status t_end username execution_id "completed" None);;
        if bool_decide (job_type = JobType.HOURLY)
        then next_hourly_record username job_id job_type job_config china_now
        else mret tt
    end).

Definition _execute_single_job (t_run t_end : datetime) (username : string)
    (user_settings_data : user_settings_data) (job_id : string)
    (job_config : job_config) (job_type : string) (china_now : datetime)
    (execution_id : string) (w : world) : world :=
  let w' :=
    (try_except
       (worker_body t_run t_end username job_id job_config job_type china_now execution_id)
       (fun error_msg =>
          step (update_job_execution_status t_end username execution_id "failed"
                  (Some error_msg))) w).2 in
  active_pop execution_id w'.

(** *** A scheduling pass ([run_jobs]) *)

(** What a pass reads from outside the scheduler's own state. *)
Record tick := mk_tick {
  t_job_type : string;
  (** the flags when [run_jobs] is entered *)
  t_entry : flags;
  (** [get_china_now()] *)
  t_china_now : datetime;
  (** [get_all_users_from_db()], a dictionary in iteration order *)
  t_users : list (string * user_settings_data);
  (** the flags before the [k]-th submission *)
  t_observe : nat -> flags;
  (** the two clock readings of the worker of (username, execution id) *)
  t_clock : string -> string -> datetime * datetime
}.

(** [for x in l: s = f s x], leaving at the first exception *)
Fixpoint fold_m {A S} (f : S -> A -> M S) (l : list A) (s : S) : M S :=
  match l with
  | [] => mret s
  | x :: l' => s' ← f s x; fold_m f l' s'
  end.

(** Lines 425-443: look the record up, create it when it is not there. *)
Definition ensure_record (username job_id job_type : string)
    (scheduled_time : datetime) : M string :=
  fun w =>
    let execution_id := generate_execution_id job_id scheduled_time in
    match _job_executions_table w with
    | None => (Returned execution_id, w)
    | Some _ =>
        if record_exists w username execution_id then (Returned execution_id, w)
        else
          let r := create_job_execution_record username job_id job_type scheduled_time w in
          (Returned (match r.1 with
                     | Some e => if bool_decide (e = "") then execution_id else e
                     | None => execution_id
                     end), r.2)
    end.

(** The body of the loop over one user's job settings; [acc] is
    [(job_queue, job_counter)]. *)
Definition collect_job (job_type : string) (china_now : datetime)
    (username : string) (user_settings_data : user_settings_data)
    (acc : list queued * nat) (job : string * job_config) : M (list queued * nat) :=
  if eq_str (get job.2 "type") job_type && enabled job.2 then
    '(should_run, priority) ← lift (due_check job_type job.2 china_now);
    if (should_run : bool) then
      with_world (fun w =>
        if per_day job_type && _has_job_executed_today w username job.1 china_now
        then mret acc
        else
          scheduled_time ← lift (scheduled_time_of job_type job.2 china_now);
          execution_id ← ensure_record username job.1 job_type scheduled_time;
          if bool_decide (execution_id = "") then mret acc
          else mret (pq_put acc.1
                       (mk_queued priority acc.2 username user_settings_data
                          job.1 job.2 execution_id),
                     S acc.2))
    else mret acc
  else mret acc.

(** The body of the loop over the users. *)
Definition collect_user (job_type : string) (china_now : datetime)
    (acc : list queued * nat) (user : string * user_settings_data)
    : M (list queued * nat) :=
  if is_admin user.2 then mret acc
  else if negb (scheduling_enabled user.2) then mret acc
  else fold_m (collect_job job_type china_now user.1 user.2) (job_settings user.2) acc.

(** The pool, one worker after the other in submission order. *)
Definition run_worker (tk : tick) (w : world) (item : queued) : world :=
  let clock := t_clock tk (q_username item) (q_execution_id item) in
  _execute_single_job clock.1 clock.2 (q_username item) (q_user_settings_data item)
    (q_job_id item) (q_job_config item) (t_job_type tk) (t_china_now tk)
    (q_execution_id item) w.

Definition run_workers (tk : tick) (submitted : list queued) (w : world) : world :=
  fold_left (run_worker tk) submitted w.

(** [run_jobs(job_type)]; the value is the list of the jobs submitted to the
    pool, in submission order. *)
Definition run_jobs (tk : tick) : M (list queued) :=
  if shutdown_set (t_entry tk) then mret []
  else if paused (t_entry tk) then mret []
  else
    collected ← fold_m (collect_user (t_job_type tk) (t_china_now tk)) (t_users tk) ([], O);
    match collected.1 with
    | [] => mret []
    | job_queue =>
        let submitted := submit_loop (length job_queue) (t_observe tk) 0 job_queue in
        step (run_workers tk submitted);;
        mret submitted
    end.




End Scheduler.

Import Scheduler.

(** ** Process start and stop ([lifespan] of [main.py]) *)

Module Main.

(** What [lifespan] reads from outside when the process starts. *)
Record startup := mk_startup {
  (** [API_ENV == 'production'] *)
  s_production : bool;
  (** the rows the table service holds *)
  s_storage : rows;
  (** [get_china_now()] in [lifespan] *)
  s_china_now : datetime;
  (** [get_all_users_from_db()] in [initialize_daily_job_records] *)
  s_users : list (string * user_settings_data);
  (** [get_china_now()] in [initialize_daily_job_records] *)
  s_init_now : datetime;
  (** [get_china_now()] in [get_missed_jobs] *)
  s_missed_now : datetime;
  (** the clock readings while the record (username, execution id) is handled *)
  s_clock : string -> string -> datetime * datetime
}.

(** [n/d] rounded to the nearest integer, a tie to the even one, for
    [0 <= n] and [0 < d] *)
Definition round_half_even (n d : Z) : Z :=
  let q := n / d in
  let r := n mod d in
  if 2 * r <? d then q
  else if d <? 2 * r then q + 1
  else if Z.even q then q else q + 1.

(** The double nearest to [n/d], as a fraction, for [0 < n] and [0 < d]
    with a quotient in the normal range: the quotient is rounded to 53
    significant bits, a tie to the even mantissa. *)
Definition nearest_double (n d : Z) : Z * Z :=
  let k := Z.log2 n - Z.log2 d in
  let below := if 0 <=? k then n <? d * 2 ^ k else n * 2 ^ (- k) <? d in
  let e := (if below then k - 1 else k) - 52 in
  if 0 <=? e then (round_half_even n (d * 2 ^ e) * 2 ^ e, 1)
  else (round_half_even (n * 2 ^ (- e)) d, 2 ^ (- e)).

(** [f"{td.total_seconds() / 3600:.1f}"] for a difference of [us]
    microseconds: two divisions of doubles, then the decimal nearest to
    the double, a tie to the even digit. *)
Definition hours_text_of (us : Z) : string :=
  let a := Z.abs us in
  let tenths :=
    if a =? 0 then 0
    else
      let seconds := nearest_double a 1000000 in
      let hours := nearest_double seconds.1 (seconds.2 * 3600) in
      round_half_even (hours.1 * 10) hours.2 in
  (if us <? 0 then "-" else "") +:+ pretty (tenths / 10) +:+ "." +:+ pretty (tenths mod 10).

(** [f"{hours_old:.1f}"] for [hours_old = (china_now - start_time).total_seconds() / 3600] *)
Definition hours_text (china_now start_time : datetime) : string :=
  hours_text_of (timestamp china_now - timestamp start_time).

(** A record still running whose start lies more than two hours back *)
Definition is_stuck (china_now : datetime) (e : entity) : bool :=
  bool_decide (e_status e = "running")
  && match e_execution_start_time e with
     | Some start_time => hours_apart_gt china_now start_time 2
     | None => false
     end.

(** The inner [try] block that runs a missed job. *)
Definition run_missed (env : startup) (username execution_id : string)
    (e : entity) : M unit :=
  let clock := s_clock env username execution_id in
  step (update_job_execution_status clock.1 username execution_id "running" None);;
  with_world (fun w =>
    match executors w !! e_job_id e with
    | Some executor_info =>
        invoke executor_info.1
          (mk_call (e_job_id e) username ∅ (e_job_type e) execution_id (s_china_now env));;
        step (update_job_execution_status clock.2 username execution_id "completed" None)
    | None =>
        step (update_job_execution_status clock.2 username execution_id "failed"
                (Some ("Executor not found for job " +:+ e_job_id e)))
    end).

(** The body of the loop over the missed jobs. *)
Definition recover (env : startup) (w : world) (kv : row_key * entity) : world :=
  let username := kv.1.1 in
  let execution_id := kv.1.2 in
  let clock := s_clock env username execution_id in
  if is_stuck (s_china_now env) kv.2 then
    update_job_execution_status clock.1 username execution_id "failed"
      (Some ("Job was running for "
             +:+ hours_text (s_china_now env)
                   (default (s_china_now env) (e_execution_start_time kv.2))
             +:+ " hours, likely stuck")) w
  else
    (try_except (run_missed env username execution_id kv.2)
       (fun error_msg =>
          step (update_job_execution_status clock.2 username execution_id "failed"
                  (Some error_msg))) w).2.

(** The start-up half of [lifespan], up to the start of the scheduler thread. *)
Definition lifespan_startup (env : startup) (w : world) : world :=
  let w1 := initialize_job_executions_table (s_storage env) w in
  let w2 := match active_jobs w1 with
            | None => set_active_jobs w1 (Some ∅)
            | Some _ => w1
            end in
  if s_production env then
    if negb (check_job_records_exist_for_date (s_china_now env) w2) then
      initialize_daily_job_records (s_users env) (s_init_now env)
        (Some (s_china_now env)) w2
    else
      fold_left (recover env) (get_missed_jobs (s_missed_now env) w2) w2
  else w2.

(** A process that has just been started: nothing is bound yet and the
    per-day tracker is empty. *)
Definition fresh_process (executors : gmap string (callable * string)) : world :=
  mk_world None executors ∅ None [].

(** *** Waiting for the active jobs at shutdown *)

Definition max_wait_time : Z := 1800.

Inductive wait_result :=
| AllCompleted (polls : nat)
| TimeoutReached (polls : nat) (active_count : nat).

(** The [while True] loop of the shutdown half; [observe k] is what the
    [k]-th round reads: the size of [active_jobs] and the seconds elapsed
    since the wait began.  [None]: still waiting when the fuel ran out. *)
Fixpoint wait_loop (fuel : nat) (observe : nat -> nat * Z) (k : nat) : option wait_result :=
  match fuel with
  | O => None
  | S fuel' =>
      let '(active_count, elapsed) := observe k in
      if bool_decide (active_count = O) then Some (AllCompleted k)
      else if max_wait_time <? elapsed then Some (TimeoutReached k active_count)
      else wait_loop fuel' observe (S k)
  end.

(** The shutdown half of [lifespan]: it waits only when the scheduler thread
    exists and is alive. *)
Definition lifespan_shutdown (scheduler_alive : bool) (fuel : nat)
    (observe : nat -> nat * Z) : option wait_result :=
  if scheduler_alive then wait_loop fuel observe 0
  else Some (AllCompleted 0).

End Main.

Import Main.

(** Two and a quarter hours is a tie between 2.2 and 2.3, which goes to
    the even digit; the double nearest to 2.05 lies below it. *)
Example hours_text_tie : hours_text_of 8100000000 = "2.2".
Proof. reflexivity. Qed.

Example hours_text_below : hours_text_of 7380000000 = "2.0".
Proof. reflexivity. Qed.

(** ** The registry of active requests ([request_utils.py]) *)

Module Requests.

(** [Union[str, List[str]]] *)
Inductive account_names :=
| One (name : string)
| Many (names : list string).

Record request_info := mk_request_info {
  r_username : string;
  r_request_type : string;
  r_account_names : account_names;
  r_start_time : datetime
}.

(** The module globals; both are [None] until [set_request_globals]. *)
Record globals := mk_globals {
  active_requests : option (gmap string request_info);
  request_lock : bool
}.

Definition set_request_globals (active_requests_dict : gmap string request_info)
    (g : globals) : globals :=
  mk_globals (Some active_requests_dict) true.

Section Registry.
(** [hash(tuple(...))] of the running interpreter *)
Variable py_hash : list string -> Z.

Definition get_request_key (username request_type : string)
    (account_names : account_names) : string :=
  let account_names :=
    match account_names with
    | One name => [name]
    | Many names => names
    end in
  let sorted_accounts := merge_sort String.le account_names in
  let accounts_hash := py_hash sorted_accounts in
  username +:+ ":" +:+ request_type +:+ ":" +:+ pretty accounts_hash.

(** [key in active_requests], which raises on an unbound dictionary *)
Definition contains (g : globals) (key : string) : outcome bool :=
  match active_requests g with
  | Some d => Returned (bool_decide (is_Some (d !! key)))
  | None => Raised "TypeError"
  end.

Definition is_request_active (username request_type : string)
    (account_names : account_names) (g : globals) : outcome bool :=
  if negb (request_lock g) then Returned false
  else contains g (get_request_key username request_type account_names).

(** [now] is the reading of [datetime.now()]. *)
Definition mark_request_active (now : datetime) (username request_type : string)
    (account_names : account_names) (g : globals) : outcome bool * globals :=
  if negb (request_lock g) then (Returned false, g)
  else
    let key := get_request_key username request_type account_names in
    match active_requests g with
    | None => (Raised "TypeError", g)
    | Some d =>
        if bool_decide (is_Some (d !! key)) then (Returned false, g)
        else
          (Returned true,
           mk_globals
             (Some (<[key := mk_request_info username request_type account_names now]> d))
             (request_lock g))
    end.

Definition mark_request_inactive (username request_type : string)
    (account_names : account_names) (g : globals) : outcome unit * globals :=
  if negb (request_lock g) then (Returned tt, g)
  else
    let key := get_request_key username request_type account_names in
    match active_requests g with
    | None => (Raised "TypeError", g)
    | Some d =>
        if bool_decide (is_Some (d !! key))
        then (Returned tt, mk_globals (Some (delete key d)) (request_lock g))
        else (Returned tt, g)
    end.
End Registry.

End Requests.

(** * Properties *)

(** ** The due predicate *)

(** The [should_run] flag [run_jobs] computes, when the settings can be read. *)
Definition should_run (job_type : string) (job_config : job_config)
    (china_now : datetime) : option bool :=
  match due_check job_type job_config china_now with
  | Returned r => Some r.1
  | Raised _ => None
  end.

Lemma bool_decide_and_orb (P Q R : Prop) `{Decision P, Decision Q, Decision R} :
  bool_decide P && (bool_decide Q || bool_decide R) = bool_decide (P /\ (Q \/ R)).
Proof. repeat case_bool_decide; simpl; try reflexivity; tauto. Qed.

Lemma should_run_hourly (job_config : job_config) (china_now : datetime) (m : Z) :
  int (get_or job_config "minute" (PStr "00")) = Returned m ->
  should_run JobType.HOURLY job_config china_now
  = Some (bool_decide (minute china_now = m)).
Proof.
  intros Hm. unfold should_run, due_check. simpl. rewrite Hm. simpl.
  case_bool_decide; reflexivity.
Qed.

Lemma should_run_daily (job_config : job_config) (china_now : datetime) (h m : Z) :
  int (get job_config "hour") = Returned h ->
  int (get_or job_config "minute" (PStr "0")) = Returned m ->
  should_run JobType.DAILY job_config china_now
  = Some (bool_decide (hour china_now = h
                       /\ (minute china_now = m \/ minute china_now = m + 1))).
Proof.
  intros Hh Hm. unfold should_run, due_check. simpl. rewrite Hh, Hm. simpl.
  rewrite <- bool_decide_and_orb.
  destruct (bool_decide (hour china_now = h)
            && (bool_decide (minute china_now = m)
                || bool_decide (minute china_now = m + 1))); reflexivity.
Qed.

Lemma should_run_weekly (job_config : job_config) (china_now : datetime) (d h : Z) :
  int (get job_config "day_of_week") = Returned d ->
  int (get job_config "hour") = Returned h ->
  should_run JobType.WEEKLY job_config china_now
  = Some (bool_decide (weekday china_now = d /\ hour china_now = h)).
Proof.
  intros Hd Hh. unfold should_run, due_check. simpl. rewrite Hd. simpl.
  case_bool_decide as Hw; simpl.
  - rewrite Hh. simpl. case_bool_decide as Hhr; simpl.
    + rewrite bool_decide_eq_true_2 by tauto. reflexivity.
    + rewrite bool_decide_eq_false_2 by tauto. reflexivity.
  - rewrite bool_decide_eq_false_2 by tauto. reflexivity.
Qed.

(** The weekly check never reads the configured minute. *)
Lemma due_check_weekly_ignores_minute (job_config : job_config)
    (china_now : datetime) (v : pyval) :
  due_check JobType.WEEKLY (<["minute" := v]> job_config) china_now
  = due_check JobType.WEEKLY job_config china_now.
Proof.
  unfold due_check, get. simpl.
  rewrite !lookup_insert_ne by discriminate. reflexivity.
Qed.

(** C2. The due predicate of [run_jobs], for settings whose numbers can be
    read: an hourly job is due exactly when the current minute is the
    configured minute; a daily job exactly when the current hour is the
    configured hour and the current minute is the configured minute or the
    one after it; a weekly job exactly when the current weekday is the
    configured day and the current hour the configured hour, whatever the
    configured minute is. *)
Theorem due_predicate_exact (job_config : job_config) (china_now : datetime) :
  (forall m,
     int (get_or job_config "minute" (PStr "00")) = Returned m ->
     should_run JobType.HOURLY job_config china_now
     = Some (bool_decide (minute china_now = m)))
  /\ (forall h m,
        int (get job_config "hour") = Returned h ->
        int (get_or job_config "minute" (PStr "0")) = Returned m ->
        should_run JobType.DAILY job_config china_now
        = Some (bool_decide (hour china_now = h
                             /\ (minute china_now = m \/ minute china_now = m + 1))))
  /\ (forall d h v,
        int (get job_config "day_of_week") = Returned d ->
        int (get job_config "hour") = Returned h ->
        should_run JobType.WEEKLY (<["minute" := v]> job_config) china_now
        = Some (bool_decide (weekday china_now = d /\ hour china_now = h))).
Proof.
  split; [|split].
  - intros m Hm. by apply should_run_hourly.
  - intros h m Hh Hm. by apply should_run_daily.
  - intros d h v Hd Hh. unfold should_run.
    rewrite due_check_weekly_ignores_minute.
    by apply should_run_weekly.
Qed.

(** ** The priority queue *)

Section PriorityQueue.

(** Tuple order on (priority, counter). *)
Definition precedes (a b : queued) : Prop :=
  q_priority a < q_priority b
  \/ (q_priority a = q_priority b /\ (q_counter a <= q_counter b)%nat).



#[local] Instance precedes_trans : Transitive precedes.
Proof. intros a b c. unfold precedes. lia. Qed.

Lemma least_length x l : length (least x l).2 = length l.
Proof.
  revert x. induction l as [|y l IH]; intros x; simpl; [reflexivity|].
  destruct (before x y); simpl; by rewrite IH.
Qed.

Lemma least_perm x l : (least x l).1 :: (least x l).2 ≡ₚ x :: l.
Proof.
  revert x. induction l as [|y l IH]; intros x; simpl; [reflexivity|].
  destruct (before x y); simpl.
  - rewrite Permutation_swap, IH. apply Permutation_swap.
  - rewrite Permutation_swap, IH. reflexivity.
Qed.



Lemma drain_perm fuel q : (length q <= fuel)%nat -> drain fuel q ≡ₚ q.
Proof.
  revert q. induction fuel as [|fuel IH]; intros q Hlen.
  - destruct q; [reflexivity|simpl in Hlen; lia].
  - destruct q as [|x l]; simpl; [reflexivity|].
    destruct (least x l) as [m rest] eqn:Hl.
    rewrite IH.
    + pose proof (least_perm x l) as Hp. by rewrite Hl in Hp.
    + pose proof (least_length x l) as Hn. rewrite Hl in Hn. simpl in *. lia.
Qed.


(** The submission loop hands out an initial part of the drained queue: it
    stops at the first round that sees the shutdown flag. *)
Lemma submit_loop_prefix fuel observe k q :
  submit_loop fuel observe k q `prefix_of` drain fuel q.
Proof.
  revert k q. induction fuel as [|fuel IH]; intros k q; simpl; [done|].
  destruct (pq_get q) as [[item q']|]; [|done].
  destruct (shutdown_set (observe k)); [apply prefix_nil|].
  by apply prefix_cons.
Qed.


(** No submission is made in or after a round that sees the flag. *)
Lemma submit_loop_stops fuel observe k q j :
  shutdown_set (observe (k + j)%nat) = true ->
  (length (submit_loop fuel observe k q) <= j)%nat.
Proof.
  revert k q j. induction fuel as [|fuel IH]; intros k q j Hset; simpl; [lia|].
  destruct (pq_get q) as [[item q']|]; simpl; [|lia].
  destruct (shutdown_set (observe k)) eqn:Hk; simpl; [lia|].
  destruct j as [|j]; [rewrite Nat.add_0_r in Hset; congruence|].
  specialize (IH (S k) q' j). rewrite <- Nat.add_succ_comm in Hset.
  specialize (IH Hset). simpl in IH. lia.
Qed.

(** Every round up to the last submission saw the flag clear. *)
Lemma submit_loop_clear fuel observe k q i :
  (i < length (submit_loop fuel observe k q))%nat ->
  shutdown_set (observe (k + i)%nat) = false.
Proof.
  revert k q i. induction fuel as [|fuel IH]; intros k q i Hi; simpl in *; [lia|].
  destruct (pq_get q) as [[item q']|]; simpl in *; [|lia].
  destruct (shutdown_set (observe k)) eqn:Hk; simpl in *; [lia|].
  destruct i as [|i]; [by rewrite Nat.add_0_r|].
  rewrite <- Nat.add_succ_comm. apply (IH (S k) q'). lia.
Qed.


End PriorityQueue.

(** ** The collection phase of a pass *)

Section Collection.


(** The collection phase writes to the table of records and to nothing else. *)
Definition same_but_table (w w' : world) : Prop :=
  executors w' = executors w
  /\ job_execution_tracker w' = job_execution_tracker w
  /\ active_jobs w' = active_jobs w
  /\ trace w' = trace w.

#[local] Instance same_but_table_refl : Reflexive same_but_table.
Proof. intros w. by repeat split. Qed.

#[local] Instance same_but_table_trans : Transitive same_but_table.
Proof.
  intros a b c (H1 & H2 & H3 & H4) (H5 & H6 & H7 & H8).
  repeat split; congruence.
Qed.

Lemma ensure_record_frame username job_id job_type scheduled_time w :
  same_but_table w (ensure_record username job_id job_type scheduled_time w).2
  /\ (ensure_record username job_id job_type scheduled_time w).1
     = Returned (generate_execution_id job_id scheduled_time).
Proof.
  unfold ensure_record, create_job_execution_record.
  destruct (_job_executions_table w) as [t|] eqn:Ht; simpl; [|done].
  destruct (record_exists w username _); simpl; [done|].
  split; [by repeat split|].
  case_bool_decide; done.
Qed.

(** What holds of an entry the pass puts on its queue; [tr] is the per-day
    tracker at the start of the pass. *)
Record queued_ok (job_type : string) (china_now : datetime)
    (tr : gmap (string * string * string) datetime) (item : queued) : Prop := {
  qok_due :
    due_check job_type (q_job_config item) china_now
    = Returned (true, q_priority item);
  qok_fresh :
    per_day job_type = true ->
    tr !! tracker_key (q_username item) (q_job_id item) china_now = None;
  qok_record :
    exists scheduled_time,
      scheduled_time_of job_type (q_job_config item) china_now
      = Returned scheduled_time
      /\ q_execution_id item
         = generate_execution_id (q_job_id item) scheduled_time
}.

Lemma sublist_map {A B} (f : A -> B) (l1 l2 : list A) :
  l1 `sublist_of` l2 -> map f l1 `sublist_of` map f l2.
Proof. induction 1; simpl; by constructor. Qed.

Lemma collect_job_spec job_type china_now username usd acc job w :
  let r := collect_job job_type china_now username usd acc job w in
  same_but_table w r.2
  /\ match r.1 with
     | Returned acc' =>
         acc' = acc
         \/ exists item,
              acc' = (acc.1 ++ [item], S acc.2)
              /\ q_counter item = acc.2
              /\ q_username item = username
              /\ q_job_id item = job.1
              /\ q_job_config item = job.2
              /\ queued_ok job_type china_now (job_execution_tracker w) item
     | Raised _ => True
     end.
Proof.
  unfold collect_job. m_unfold.
  destruct (eq_str (get job.2 "type") job_type && enabled job.2); simpl;
    [|split; [reflexivity|by left]].
  destruct (due_check job_type job.2 china_now) as [[b p]|e] eqn:Hdue; simpl;
    [|split; [reflexivity|done]].
  destruct b; simpl; [|split; [reflexivity|by left]].
  destruct (per_day job_type && _has_job_executed_today w username job.1 china_now)
    eqn:Hseen; simpl; [split; [reflexivity|by left]|].
  destruct (scheduled_time_of job_type job.2 china_now) as [st|e] eqn:Hst; simpl;
    [|split; [reflexivity|done]].
  destruct (ensure_record_frame username job.1 job_type st w) as [Hfr Hid].
  destruct (ensure_record username job.1 job_type st w) as [o w'] eqn:Her.
  simpl in *. subst o. simpl.
  case_bool_decide as Hempty; simpl; [split; [done|by left]|].
  split; [done|]. right. eexists. split; [reflexivity|]. simpl.
  repeat split; simpl; try done.
  - intros Hpd. rewrite Hpd in Hseen. simpl in Hseen.
    unfold _has_job_executed_today in Hseen.
    apply bool_decide_eq_false in Hseen.
    by apply eq_None_not_Some.
  - by exists st.
Qed.

Lemma collect_jobs_spec job_type china_now username usd jobs acc w :
  let r := fold_m (collect_job job_type china_now username usd) jobs acc w in
  same_but_table w r.2
  /\ match r.1 with
     | Returned acc' =>
         exists new,
           acc'.1 = acc.1 ++ new
           /\ acc'.2 = (acc.2 + length new)%nat
           /\ map q_counter new = seq acc.2 (length new)
           /\ Forall (queued_ok job_type china_now (job_execution_tracker w)) new
           /\ Forall (fun item => q_username item = username) new
           /\ map q_job_id new `sublist_of` map fst jobs
     | Raised _ => True
     end.
Proof.
  revert acc w. induction jobs as [|job jobs IH]; intros acc w; simpl.
  - split; [done|]. exists []. rewrite app_nil_r. simpl.
    repeat split; auto; try lia.
  - m_unfold.
    pose proof (collect_job_spec job_type china_now username usd acc job w) as [Hfr Hres].
    destruct (collect_job job_type china_now username usd acc job w) as [[acc1|e] w1];
      simpl in *; [|done].
    specialize (IH acc1 w1). destruct IH as [Hfr' Hres'].
    split; [by etrans|].
    destruct (fold_m _ jobs acc1 w1) as [[acc2|e] w2]; simpl in *; [|done].
    destruct Hres' as (new & Hq & Hn & Hc & Hok & Hu & Hsub).
    assert (job_execution_tracker w1 = job_execution_tracker w) as Htr
      by (by destruct Hfr as (_ & ? & _)).
    rewrite Htr in Hok.
    destruct Hres as [->|(item & -> & Hcnt & Hun & Hjid & _ & Hitem)].
    + exists new. repeat split; auto. by apply sublist_cons.
    + simpl in *. exists (item :: new). simpl.
      rewrite <- app_assoc in Hq. simpl in Hq.
      repeat split; auto.
      * lia.
      * rewrite Hcnt. f_equal. exact Hc.
      * rewrite Hjid. by apply sublist_skip.
Qed.

(** The (user, job) pairs of the settings a pass walks through, in order. *)
Definition all_jobs (users : list (string * user_settings_data))
    : list (string * string) :=
  users ≫= (fun user => map (fun job => (user.1, job.1)) (job_settings user.2)).

Definition job_of (item : queued) : string * string :=
  (q_username item, q_job_id item).

Lemma collect_user_spec job_type china_now acc user w :
  let r := collect_user job_type china_now acc user w in
  same_but_table w r.2
  /\ match r.1 with
     | Returned acc' =>
         exists new,
           acc'.1 = acc.1 ++ new
           /\ acc'.2 = (acc.2 + length new)%nat
           /\ map q_counter new = seq acc.2 (length new)
           /\ Forall (queued_ok job_type china_now (job_execution_tracker w)) new
           /\ map job_of new
              `sublist_of` map (fun job => (user.1, job.1)) (job_settings user.2)
     | Raised _ => True
     end.
Proof.
  unfold collect_user.
  assert (forall (w : world) (acc : list queued * nat),
    same_but_table w w /\
    exists new : list queued,
      acc.1 = acc.1 ++ new /\ acc.2 = (acc.2 + length new)%nat
      /\ map q_counter new = seq acc.2 (length new)
      /\ Forall (queued_ok job_type china_now (job_execution_tracker w)) new
      /\ map job_of new
         `sublist_of` map (fun job => (user.1, job.1)) (job_settings user.2))
    as Hskip.
  { intros w0 acc0. split; [done|]. exists []. rewrite app_nil_r. simpl.
    repeat split; auto; try lia; try apply sublist_nil_l. }
  destruct (is_admin user.2); [apply Hskip|].
  destruct (negb (scheduling_enabled user.2)); [apply Hskip|].
  pose proof (collect_jobs_spec job_type china_now user.1 user.2
                (job_settings user.2) acc w) as [Hfr Hres].
  simpl. split; [done|].
  destruct (fold_m _ (job_settings user.2) acc w) as [[acc'|e] w']; simpl in *; [|done].
  destruct Hres as (new & Hq & Hn & Hc & Hok & Hu & Hsub).
  exists new. repeat split; auto.
  clear -Hu Hsub. revert Hsub. generalize (job_settings user.2). intros jobs Hsub.
  assert (map job_of new = map (fun j => (user.1, j)) (map q_job_id new)) as ->.
  { rewrite map_map. apply map_ext_Forall. eapply Forall_impl; [exact Hu|].
    intros item Hi. unfold job_of. by rewrite Hi. }
  assert (map (fun job : string * job_config => (user.1, job.1)) jobs
          = map (fun j => (user.1, j)) (map fst jobs)) as ->.
  { by rewrite map_map. }
  by apply sublist_map.
Qed.

Lemma collect_users_spec job_type china_now users acc w :
  let r := fold_m (collect_user job_type china_now) users acc w in
  same_but_table w r.2
  /\ match r.1 with
     | Returned acc' =>
         exists new,
           acc'.1 = acc.1 ++ new
           /\ acc'.2 = (acc.2 + length new)%nat
           /\ map q_counter new = seq acc.2 (length new)
           /\ Forall (queued_ok job_type china_now (job_execution_tracker w)) new
           /\ map job_of new `sublist_of` all_jobs users
     | Raised _ => True
     end.
Proof.
  revert acc w. induction users as [|user users IH]; intros acc w; simpl.
  - split; [done|]. exists []. rewrite app_nil_r. simpl.
    repeat split; auto; try lia.
  - m_unfold.
    pose proof (collect_user_spec job_type china_now acc user w) as [Hfr Hres].
    destruct (collect_user job_type china_now acc user w) as [[acc1|e] w1];
      simpl in *; [|done].
    specialize (IH acc1 w1). destruct IH as [Hfr' Hres'].
    split; [by etrans|].
    destruct (fold_m _ users acc1 w1) as [[acc2|e] w2]; simpl in *; [|done].
    destruct Hres as (new1 & Hq1 & Hn1 & Hc1 & Hok1 & Hsub1).
    destruct Hres' as (new2 & Hq2 & Hn2 & Hc2 & Hok2 & Hsub2).
    assert (job_execution_tracker w1 = job_execution_tracker w) as Htr
      by (by destruct Hfr as (_ & ? & _)).
    rewrite Htr in Hok2.
    exists (new1 ++ new2). rewrite length_app, !map_app.
    repeat split.
    + by rewrite Hq2, Hq1, app_assoc.
    + lia.
    + rewrite seq_app, Hc1. f_equal. by rewrite <- Hn1.
    + by apply Forall_app.
    + unfold all_jobs. simpl. by apply sublist_app.
Qed.

End Collection.

(** ** A pass, phase by phase *)

Section Pass.

(** The queue a pass collects, when collecting does not raise. *)
Definition collected (tk : tick) (w : world) (job_queue : list queued) (w1 : world) : Prop :=
  exists n,
    fold_m (collect_user (t_job_type tk) (t_china_now tk)) (t_users tk) ([], O) w
    = (Returned (job_queue, n), w1).

Lemma run_jobs_returned tk w submitted :
  (run_jobs tk w).1 = Returned submitted ->
  ((shutdown_set (t_entry tk) = true \/ paused (t_entry tk) = true)
   /\ submitted = [] /\ (run_jobs tk w).2 = w)
  \/ (shutdown_set (t_entry tk) = false /\ paused (t_entry tk) = false
      /\ exists job_queue w1,
           collected tk w job_queue w1
           /\ submitted = submit_loop (length job_queue) (t_observe tk) 0 job_queue
           /\ (run_jobs tk w).2 = run_workers tk submitted w1).
Proof.
  unfold run_jobs, collected. m_unfold.
  destruct (shutdown_set (t_entry tk)); simpl.
  { intros [= <-]. left. auto. }
  destruct (paused (t_entry tk)); simpl.
  { intros [= <-]. left. auto. }
  destruct (fold_m _ (t_users tk) ([], O) w) as [[[job_queue n]|e] w1] eqn:Hc;
    simpl; [|done].
  intros Hs. right. split; [done|]. split; [done|].
  exists job_queue, w1. split; [by exists n|].
  destruct job_queue as [|x l]; simpl in *.
  - by inversion Hs.
  - inversion Hs. done.
Qed.

(** A pass that raises does so while collecting: it submits nothing and
    runs no worker. *)
Lemma run_jobs_raised tk w e :
  (run_jobs tk w).1 = Raised e ->
  same_but_table w (run_jobs tk w).2.
Proof.
  unfold run_jobs. m_unfold.
  destruct (shutdown_set (t_entry tk)); simpl; [done|].
  destruct (paused (t_entry tk)); simpl; [done|].
  pose proof (collect_users_spec (t_job_type tk) (t_china_now tk) (t_users tk) ([], O) w)
    as [Hfr _].
  destruct (fold_m _ (t_users tk) ([], O) w) as [[[job_queue n]|e'] w1] eqn:Hc;
    simpl in *; [|done].
  destruct job_queue; simpl; done.
Qed.

Lemma collected_spec tk w job_queue w1 :
  collected tk w job_queue w1 ->
  same_but_table w w1
  /\ map q_counter job_queue = seq 0 (length job_queue)
  /\ Forall (queued_ok (t_job_type tk) (t_china_now tk) (job_execution_tracker w)) job_queue
  /\ map job_of job_queue `sublist_of` all_jobs (t_users tk).
Proof.
  intros [n Hc].
  pose proof (collect_users_spec (t_job_type tk) (t_china_now tk) (t_users tk) ([], O) w)
    as [Hfr Hres].
  rewrite Hc in Hfr, Hres. simpl in *.
  destruct Hres as (new & -> & _ & Hcnt & Hok & Hsub). auto.
Qed.

End Pass.

(** ** What a pass queues *)

Section QueueContents.

(** The job an entry of the queue stands for is held by a user of the pass
    who is not an admin and has scheduling enabled, and it is enabled and
    of the type of the pass. *)
Definition eligible (users : list (string * user_settings_data)) (job_type : string)
    (item : queued) : Prop :=
  (q_username item, q_user_settings_data item) ∈ users
  /\ is_admin (q_user_settings_data item) = false
  /\ scheduling_enabled (q_user_settings_data item) = true
  /\ (q_job_id item, q_job_config item) ∈ job_settings (q_user_settings_data item)
  /\ enabled (q_job_config item) = true
  /\ eq_str (get (q_job_config item) "type") job_type = true.

(** What every step of a loop keeps, the loop keeps. *)
Lemma fold_m_invariant {A S} (I : S -> Prop) (f : S -> A -> M S) (l : list A) :
  (forall x s w s' w', x ∈ l -> I s -> f s x w = (Returned s', w') -> I s') ->
  forall s w s' w', I s -> fold_m f l s w = (Returned s', w') -> I s'.
Proof.
  induction l as [|x l IH]; intros Hstep s w s' w' Hs; simpl.
  { intros [= <- <-]. done. }
  m_unfold. destruct (f s x w) as [[s1|e] w1] eqn:Hx; [|done].
  apply IH.
  - intros y s0 w0 s0' w0' Hy. apply Hstep. by right.
  - eapply Hstep; [by left|exact Hs|exact Hx].
Qed.

Lemma collect_job_eligible job_type china_now username usd acc job w acc' w' :
  collect_job job_type china_now username usd acc job w = (Returned acc', w') ->
  acc'.1 = acc.1
  \/ exists item,
       acc'.1 = acc.1 ++ [item]
       /\ q_username item = username
       /\ q_user_settings_data item = usd
       /\ (q_job_id item, q_job_config item) = job
       /\ enabled job.2 = true
       /\ eq_str (get job.2 "type") job_type = true.
Proof.
  unfold collect_job. m_unfold.
  destruct (eq_str (get job.2 "type") job_type) eqn:Hty; simpl;
    [|intros [= <- <-]; by left].
  destruct (enabled job.2) eqn:Hen; simpl; [|intros [= <- <-]; by left].
  destruct (due_check job_type job.2 china_now) as [[b p]|e]; simpl; [|done].
  destruct b; simpl; [|intros [= <- <-]; by left].
  destruct (per_day job_type && _has_job_executed_today w username job.1 china_now);
    simpl; [intros [= <- <-]; by left|].
  destruct (scheduled_time_of job_type job.2 china_now) as [st|e]; simpl; [|done].
  destruct (ensure_record username job.1 job_type st w) as [[eid|e] w1]; simpl; [|done].
  case_bool_decide; simpl; intros [= <- <-]; [by left|].
  right. eexists. split; [reflexivity|]. simpl. by destruct job.
Qed.

Lemma collect_user_eligible users job_type china_now acc user w acc' w' :
  user ∈ users ->
  Forall (eligible users job_type) acc.1 ->
  collect_user job_type china_now acc user w = (Returned acc', w') ->
  Forall (eligible users job_type) acc'.1.
Proof.
  intros Huser Hacc. unfold collect_user.
  destruct (is_admin user.2) eqn:Hadm; [by intros [= <- <-]|].
  destruct (scheduling_enabled user.2) eqn:Hse; simpl; [|by intros [= <- <-]].
  apply (fold_m_invariant (fun acc => Forall (eligible users job_type) acc.1));
    [|done].
  intros job acc0 w0 acc1 w1 Hjob Hacc0 Hstep.
  apply collect_job_eligible in Hstep
    as [->|(item & -> & Hu & Hd & Hj & Hen & Hty)]; [done|].
  apply Forall_app. split; [done|]. apply Forall_singleton.
  destruct job as [job_id job_config]. injection Hj as Hid Hcfg.
  unfold eligible. rewrite Hu, Hd, Hid, Hcfg. simpl in *.
  by destruct user.
Qed.







End QueueContents.

(** ** Priorities and the order of submission *)




Lemma prefix_sublist {A} (l1 l2 : list A) : l1 `prefix_of` l2 -> l1 `sublist_of` l2.
Proof. intros [k ->]. by apply sublist_inserts_r. Qed.

Lemma map_fmap {A B} (f : A -> B) (l : list A) : map f l = f <$> l.
Proof. reflexivity. Qed.



(** ** The executor table *)

Section ExecutorTable.
Import ExecutorManager.
Context {Args : Type}.
Implicit Types (executors : gmap string ((Args -> outcome unit) * string)) (args : Args).

Lemma execute_job_unregistered executors executor_id args :
  executors !! executor_id = None ->
  execute_job executors executor_id args
  = Raised ("Executor " +:+ executor_id +:+ " not found").
Proof. intros H. unfold execute_job. by rewrite H. Qed.

Lemma execute_job_registered executors executor_id args executor name :
  executors !! executor_id = Some (executor, name) ->
  execute_job executors executor_id args = executor args.
Proof. intros H. unfold execute_job. by rewrite H. Qed.

(** C8, as amended. [execute_job] raises its own error, "Executor ... not
    found", when the id is not registered; when it is registered the
    outcome is the outcome of the registered callable on the given
    arguments, so an exception of the callable leaves [execute_job] as
    well; nothing but the table and the arguments enters the result. *)
Theorem execute_job_lookup_and_call executors executor_id args :
  (executors !! executor_id = None ->
   execute_job executors executor_id args
   = Raised ("Executor " +:+ executor_id +:+ " not found"))
  /\ (forall executor name,
        executors !! executor_id = Some (executor, name) ->
        execute_job executors executor_id args = executor args)
  /\ (forall e,
        execute_job executors executor_id args = Raised e ->
        executors !! executor_id = None
        \/ exists executor name,
             executors !! executor_id = Some (executor, name)
             /\ executor args = Raised e)
  /\ (forall executor name,
        execute_job (register_executor executors executor_id executor name)
          executor_id args
        = executor args).
Proof.
  split; [apply execute_job_unregistered|].
  split; [apply execute_job_registered|].
  split.
  - intros e He. unfold execute_job in He.
    destruct (executors !! executor_id) as [[executor name]|] eqn:Hl; [|by left].
    right. by exists executor, name.
  - intros executor name. unfold execute_job, register_executor.
    by rewrite lookup_insert_eq.
Qed.
End ExecutorTable.

(** ** Updating the status of a record *)

Section UpdateStatus.

(** The fields [update_job_execution_status] never writes. *)
Definition same_identity (e e' : entity) : Prop :=
  e_job_id e' = e_job_id e
  /\ e_job_type e' = e_job_type e
  /\ e_scheduled_time e' = e_scheduled_time e.

Lemma updated_entity_spec now status error_message e :
  let e' := updated_entity now status error_message e in
  same_identity e e'
  /\ e_status e' = status
  /\ e_execution_start_time e'
     = (if bool_decide (status = "running")
        then Some (default now (e_execution_start_time e))
        else e_execution_start_time e)
  /\ e_execution_end_time e'
     = (if bool_decide (status = "completed" \/ status = "failed")
        then Some now
        else e_execution_end_time e)
  /\ (e_error_message e' <> e_error_message e ->
      (status = "completed" \/ status = "failed")
      /\ exists msg, error_message = Some msg /\ msg <> "" /\ e_error_message e' = Some msg).
Proof.
  unfold updated_entity, same_identity.
  case_bool_decide as Hr; simpl.
  { subst. rewrite bool_decide_eq_false_2 by (intros [|]; discriminate).
    repeat split; try done. by destruct (e_execution_start_time e). }
  case_bool_decide as Hc; simpl; repeat split; try done.
  destruct error_message as [msg|]; [|done].
  case_bool_decide; [done|]. by exists msg.
Qed.

(** The parts of the state outside the table of records. *)
Definition same_outside_table (w w' : world) : Prop :=
  executors w' = executors w
  /\ job_execution_tracker w' = job_execution_tracker w
  /\ active_jobs w' = active_jobs w.

(** C10. For a record that exists, [update_job_execution_status] rewrites
    that one row and no other: the status becomes the new status; the start
    time is set only when the new status is running and no start time was
    set; the end time is set when the new status is completed or failed, and
    the error message only then and only from a non-empty message; job id,
    job type, scheduled time and the key of the row stay as they are.  When
    the record cannot be fetched (no such row, or no table) the whole state
    is left as it was. *)
Theorem update_status_frame (now : datetime) (username execution_id status : string)
    (error_message : option string) (w : world) :
  let w' := update_job_execution_status now username execution_id status error_message w in
  (forall t e,
     _job_executions_table w = Some t ->
     t !! (username, execution_id) = Some e ->
     exists e',
       _job_executions_table w' = Some (<[(username, execution_id) := e']> t)
       /\ same_identity e e'
       /\ e_status e' = status
       /\ e_execution_start_time e'
          = (if bool_decide (status = "running")
             then Some (default now (e_execution_start_time e))
             else e_execution_start_time e)
       /\ e_execution_end_time e'
          = (if bool_decide (status = "completed" \/ status = "failed")
             then Some now
             else e_execution_end_time e)
       /\ (e_error_message e' <> e_error_message e ->
           (status = "completed" \/ status = "failed")
           /\ exists msg,
                error_message = Some msg /\ msg <> "" /\ e_error_message e' = Some msg)
       /\ (forall k, k <> (username, execution_id) ->
                     <[(username, execution_id) := e']> t !! k = t !! k)
       /\ same_outside_table w w')
  /\ ((forall t, _job_executions_table w = Some t -> t !! (username, execution_id) = None) ->
      w' = w).
Proof.
  unfold update_job_execution_status. simpl. split.
  - intros t e Ht He. rewrite Ht, He. simpl.
    exists (updated_entity now status error_message e).
    destruct (updated_entity_spec now status error_message e) as (Hi & Hs & Hst & Hen & Her).
    repeat split; auto.
    + apply Hi.
    + apply Hi.
    + apply Hi.
    + by apply Her.
    + by apply Her.
    + intros k Hk. by rewrite lookup_insert_ne.
  - intros Hnone. destruct (_job_executions_table w) as [t|]; [|done].
    by rewrite (Hnone t eq_refl).
Qed.

End UpdateStatus.

(** ** The registry of active requests *)

Section RegistryProperties.
Import Requests.
Variable py_hash : list string -> Z.

Implicit Types (d : gmap string request_info) (g : globals).

(** The globals once [set_request_globals] has run. *)
Definition initialized g d : Prop :=
  request_lock g = true /\ active_requests g = Some d.

Lemma set_request_globals_initialized d g : initialized (set_request_globals d g) d.
Proof. done. Qed.

Lemma mark_active_fresh now username request_type account_names g d :
  initialized g d ->
  d !! get_request_key py_hash username request_type account_names = None ->
  mark_request_active py_hash now username request_type account_names g
  = (Returned true,
     mk_globals
       (Some (<[get_request_key py_hash username request_type account_names
                := mk_request_info username request_type account_names now]> d))
       true).
Proof.
  intros [Hl Hd] Hk. unfold mark_request_active.
  rewrite Hl, Hd. simpl. rewrite Hk.
  rewrite bool_decide_eq_false_2 by (by intros [? ?]). done.
Qed.

Lemma mark_active_taken now username request_type account_names g d :
  initialized g d ->
  is_Some (d !! get_request_key py_hash username request_type account_names) ->
  mark_request_active py_hash now username request_type account_names g
  = (Returned false, g).
Proof.
  intros [Hl Hd] Hk. unfold mark_request_active.
  rewrite Hl, Hd. simpl. by rewrite bool_decide_eq_true_2.
Qed.

Lemma mark_inactive_absent username request_type account_names g d :
  initialized g d ->
  d !! get_request_key py_hash username request_type account_names = None ->
  mark_request_inactive py_hash username request_type account_names g
  = (Returned tt, g).
Proof.
  intros [Hl Hd] Hk. unfold mark_request_inactive.
  rewrite Hl, Hd. simpl. rewrite Hk.
  rewrite bool_decide_eq_false_2 by (by intros [? ?]). done.
Qed.

Lemma mark_inactive_present username request_type account_names g d :
  initialized g d ->
  is_Some (d !! get_request_key py_hash username request_type account_names) ->
  mark_request_inactive py_hash username request_type account_names g
  = (Returned tt,
     mk_globals
       (Some (delete (get_request_key py_hash username request_type account_names) d))
       true).
Proof.
  intros [Hl Hd] Hk. unfold mark_request_inactive.
  rewrite Hl, Hd. simpl. by rewrite bool_decide_eq_true_2.
Qed.

(** C7. With the registry globals set and no entry under the key of
    (username, request type, account names): [mark_request_active] returns
    True and records the entry; a second call returns False and changes
    nothing; after [mark_request_inactive] the registry is as it was
    before the first call and a third [mark_request_active] returns True
    again; [mark_request_inactive] on a registry without the entry changes
    nothing, so calling it twice is the same as calling it once. *)
Theorem mark_request_active_contract (now1 now2 now3 : datetime)
    (username request_type : string) (account_names : account_names) g d :
  initialized g d ->
  d !! get_request_key py_hash username request_type account_names = None ->
  let key := get_request_key py_hash username request_type account_names in
  let first := mark_request_active py_hash now1 username request_type account_names g in
  let second := mark_request_active py_hash now2 username request_type account_names first.2 in
  let released := mark_request_inactive py_hash username request_type account_names second.2 in
  let third := mark_request_active py_hash now3 username request_type account_names released.2 in
  let again := mark_request_inactive py_hash username request_type account_names released.2 in
  first.1 = Returned true
  /\ active_requests first.2
     = Some (<[key := mk_request_info username request_type account_names now1]> d)
  /\ second = (Returned false, first.2)
  /\ released.1 = Returned tt
  /\ active_requests released.2 = Some d
  /\ third.1 = Returned true
  /\ again = (Returned tt, released.2)
  /\ mark_request_inactive py_hash username request_type account_names g
     = (Returned tt, g).
Proof.
  intros Hinit Hk. simpl.
  rewrite (mark_active_fresh _ _ _ _ g d Hinit Hk). simpl.
  set (key := get_request_key py_hash username request_type account_names) in *.
  set (g1 := mk_globals _ true).
  assert (initialized g1 (<[key := mk_request_info username request_type account_names now1]> d))
    as Hinit1 by done.
  assert (is_Some ((<[key := mk_request_info username request_type account_names now1]> d) !! key))
    as Hin1 by (rewrite lookup_insert_eq; eauto).
  rewrite (mark_active_taken _ _ _ _ g1 _ Hinit1 Hin1). simpl.
  rewrite (mark_inactive_present _ _ _ g1 _ Hinit1 Hin1). simpl.
  fold key. rewrite delete_insert_eq, delete_id by done.
  assert (initialized (mk_globals (Some d) true) d) as Hinit2 by done.
  rewrite (mark_active_fresh _ _ _ _ _ d Hinit2 Hk). simpl.
  rewrite (mark_inactive_absent _ _ _ _ d Hinit2 Hk).
  rewrite (mark_inactive_absent _ _ _ g d Hinit Hk).
  repeat split; done.
Qed.
End RegistryProperties.

(** ** One job in a worker *)

Section Worker.

Lemma update_status_present now username execution_id status error_message w t e :
  _job_executions_table w = Some t ->
  t !! (username, execution_id) = Some e ->
  update_job_execution_status now username execution_id status error_message w
  = emit (set_table w (Some (<[(username, execution_id) :=
                               updated_entity now status error_message e]> t)))
         (EvStatus username execution_id status).
Proof. intros Ht He. unfold update_job_execution_status. by rewrite Ht, He. Qed.

Lemma updated_failed_message now msg e :
  msg <> "" -> e_error_message (updated_entity now "failed" (Some msg) e) = Some msg.
Proof. intros Hm. simpl. by rewrite bool_decide_eq_false_2. Qed.

Lemma not_found_nonempty job_id : "Executor not found for job " +:+ job_id <> "".
Proof. lazy [String.append]. discriminate. Qed.

(** The follow-up record of an hourly job can be computed and is filed under
    another execution id than the record of the run itself. *)
Definition hourly_follow_up_ok (job_id : string) (job_config : job_config)
    (china_now : datetime) (execution_id : string) : Prop :=
  exists scheduled_minute next_scheduled_time,
    int (get_or job_config "minute" (PStr "00")) = Returned scheduled_minute
    /\ (if 24 <=? hour china_now + 1
        then replace (plus_one_day china_now) (Some 0) (Some scheduled_minute)
               (Some 0) (Some 0)
        else replace china_now (Some (hour china_now + 1)) (Some scheduled_minute)
               (Some 0) (Some 0))
       = Returned next_scheduled_time
    /\ generate_execution_id job_id next_scheduled_time <> execution_id.

(** What the record of the run looks like when the worker is done. *)
Definition finished_as (w' : world) (username execution_id status : string)
    (t_end : datetime) : entity -> Prop :=
  fun e' =>
    (exists t', _job_executions_table w' = Some t'
                /\ t' !! (username, execution_id) = Some e')
    /\ e_status e' = status
    /\ e_execution_end_time e' = Some t_end.

(** C6. A worker given a job whose record exists, with the active-jobs
    globals set: it marks the record running, enters the job in the
    active-jobs map, calls the registered executor with (username,
    job_config), marks the record completed when the executor returns and
    failed, with the text of the exception, when it raises, and removes the
    entry from the active-jobs map; without a registered executor it marks
    the record failed and removes the entry without calling anything.  The
    worker itself always returns: no outcome of the executor leaves it. *)
Theorem worker_lifecycle (t_run t_end : datetime) (username : string)
    (usd : user_settings_data) (job_id : string) (job_config : job_config)
    (job_type : string) (china_now : datetime) (execution_id : string)
    (w : world) (m : gmap string active_job) (t : rows) (e : entity) :
  active_jobs w = Some m ->
  _job_executions_table w = Some t ->
  t !! (username, execution_id) = Some e ->
  (job_type = JobType.HOURLY ->
   hourly_follow_up_ok job_id job_config china_now execution_id) ->
  let w' := _execute_single_job t_run t_end username usd job_id job_config
              job_type china_now execution_id w in
  let c := mk_call job_id username job_config job_type execution_id china_now in
  active_jobs w' = Some (delete execution_id m)
  /\ match executors w !! job_id with
     | Some executor_info =>
         match executor_info.1 username job_config with
         | Returned _ =>
             trace w' = trace w ++ [EvStatus username execution_id "running";
                                    EvActiveAdd execution_id;
                                    EvCall c;
                                    EvStatus username execution_id "completed";
                                    EvActiveDel execution_id]
             /\ exists e', finished_as w' username execution_id "completed" t_end e'
                           /\ e_error_message e' = e_error_message e
         | Raised msg =>
             trace w' = trace w ++ [EvStatus username execution_id "running";
                                    EvActiveAdd execution_id;
                                    EvCall c;
                                    EvStatus username execution_id "failed";
                                    EvActiveDel execution_id]
             /\ exists e', finished_as w' username execution_id "failed" t_end e'
                           /\ (msg <> "" -> e_error_message e' = Some msg)
         end
     | None =>
         trace w' = trace w ++ [EvStatus username execution_id "running";
                                EvActiveAdd execution_id;
                                EvStatus username execution_id "failed";
                                EvActiveDel execution_id]
         /\ exists e', finished_as w' username execution_id "failed" t_end e'
                       /\ e_error_message e'
                          = Some ("Executor not found for job " +:+ job_id)
     end.
Proof.
  intros Ha Ht He Hhourly.
  destruct w as [tbl ex tr aj log]. simpl in *. subst tbl aj.
  unfold _execute_single_job, worker_body. m_unfold.
  rewrite (update_status_present _ _ _ _ _ _ t e) by done.
  unfold active_add, emit, set_table, set_active_jobs. simpl.
  set (e1 := updated_entity t_run "running" None e).
  set (t1 := <[(username, execution_id) := e1]> t).
  set (m1 := <[execution_id := mk_active_job username job_id t_run]> m).
  assert (t1 !! (username, execution_id) = Some e1) as He1
    by apply lookup_insert_eq.
  assert (delete execution_id m1 = delete execution_id m) as Hm1
    by apply delete_insert_eq.
  destruct (ex !! job_id) as [[f name]|] eqn:Hex; simpl.
  2:{ erewrite update_status_present; [|reflexivity|exact He1].
      unfold active_pop, emit, set_table, set_active_jobs. simpl.
      rewrite Hm1. split; [done|]. split; [by rewrite <- !app_assoc|].
      exists (updated_entity t_end "failed"
                (Some ("Executor not found for job " +:+ job_id)) e1).
      split; [|by rewrite updated_failed_message by apply not_found_nonempty].
      split; [|done].
      eexists. split; [reflexivity|]. apply lookup_insert_eq. }
  set (tr' := if per_day job_type
              then <[tracker_key username job_id china_now := china_now]> tr
              else tr).
  set (log1 := (log ++ [EvStatus username execution_id "running"])
               ++ [EvActiveAdd execution_id]).
  assert ((if per_day job_type
           then _record_job_execution username job_id china_now
           else fun w : world => w)
            (mk_world (Some t1) ex tr (Some m1) log1)
          = mk_world (Some t1) ex tr' (Some m1) log1) as ->.
  { unfold tr'. by destruct (per_day job_type). }
  unfold emit. simpl.
  destruct (f username job_config) as [[]|msg] eqn:Hf; simpl.
  - erewrite update_status_present; [|reflexivity|exact He1].
    unfold emit, set_table. simpl.
    set (e2 := updated_entity t_end "completed" None e1).
    case_bool_decide as Hh; simpl.
    + destruct (Hhourly Hh) as (sm & nst & Hsm & Hnst & Hne).
      unfold next_hourly_record. m_unfold. rewrite Hsm. simpl.
      rewrite Hnst. simpl.
      unfold active_pop, emit, set_table, set_active_jobs. simpl.
      rewrite Hm1. split; [done|]. split; [unfold log1; by rewrite <- !app_assoc|].
      exists e2. split; [|done]. split; [|done].
      eexists. split; [reflexivity|].
      rewrite lookup_insert_ne by congruence. apply lookup_insert_eq.
    + unfold active_pop, emit, set_table, set_active_jobs. simpl.
      rewrite Hm1. split; [done|]. split; [unfold log1; by rewrite <- !app_assoc|].
      exists e2. split; [|done]. split; [|done].
      eexists. split; [reflexivity|]. apply lookup_insert_eq.
  - erewrite update_status_present; [|reflexivity|exact He1].
    unfold active_pop, emit, set_table, set_active_jobs. simpl.
    rewrite Hm1. split; [done|]. split; [unfold log1; by rewrite <- !app_assoc|].
    exists (updated_entity t_end "failed" (Some msg) e1).
    split; [|apply updated_failed_message]. split; [|done].
    eexists. split; [reflexivity|]. apply lookup_insert_eq.
Qed.

End Worker.

(** ** Execution ids *)

Section ExecutionIds.

Lemma digit_inj (a b : Z) : digit a = digit b -> a mod 10 = b mod 10.
Proof.
  unfold digit. intros H.
  apply (f_equal nat_of_ascii) in H.
  rewrite !nat_ascii_embedding in H.
  - pose proof (Z.mod_pos_bound a 10). pose proof (Z.mod_pos_bound b 10). lia.
  - pose proof (Z.mod_pos_bound b 10). lia.
  - pose proof (Z.mod_pos_bound a 10). lia.
Qed.

Lemma pad2_inj (a b : Z) : 0 <= a < 100 -> 0 <= b < 100 -> pad2 a = pad2 b -> a = b.
Proof.
  intros Ha Hb H. unfold pad2 in H. injection H as H1 H2.
  apply digit_inj in H1, H2.
  rewrite (Z.mod_small (a / 10)) in H1 by (split; [apply Z.div_pos|apply Z.div_lt_upper_bound]; lia).
  rewrite (Z.mod_small (b / 10)) in H1 by (split; [apply Z.div_pos|apply Z.div_lt_upper_bound]; lia).
  rewrite (Z.div_mod a 10), (Z.div_mod b 10) by lia. lia.
Qed.

(** The time of day can be read off an execution id: ids of one job whose
    scheduled times differ in the hour are different. *)
Lemma generate_execution_id_hour job_id (a b : datetime) :
  0 <= hour a < 100 -> 0 <= hour b < 100 ->
  generate_execution_id job_id a = generate_execution_id job_id b ->
  hour a = hour b.
Proof.
  intros Ha Hb H. unfold generate_execution_id in H.
  apply (inj (String.app job_id)) in H.
  lazy [String.append date_str time_str pad4 pad2] in H.
  injection H as Hy1 Hy2 Hy3 Hy4 Hm1 Hm2 Hd1 Hd2 Hh1 Hh2.
  apply pad2_inj; [done|done|]. unfold pad2. by rewrite Hh1, Hh2.
Qed.

End ExecutionIds.

Section HourlyFollowUp.

Lemma replace_returned (t : datetime) (h m s us : option Z) (r : datetime) :
  replace t h m s us = Returned r ->
  r = mk_datetime (year t) (month t) (day t)
        (default (hour t) h) (default (minute t) m)
        (default (second t) s) (default (microsecond t) us)
  /\ 0 <= hour r <= 23 /\ 0 <= minute r <= 59.
Proof.
  unfold replace.
  repeat match goal with
         | |- context [negb (?a && ?b)] =>
             let Ha := fresh in let Hb := fresh in
             destruct a eqn:Ha; destruct b eqn:Hb; simpl; try discriminate
         end.
  intros [= <-]. simpl. split; [done|]. lia.
Qed.

Lemma replace_in_range (t : datetime) (h m : Z) :
  0 <= h <= 23 -> 0 <= m <= 59 ->
  replace t (Some h) (Some m) (Some 0) (Some 0)
  = Returned (mk_datetime (year t) (month t) (day t) h m 0 0).
Proof.
  intros Hh Hm. unfold replace. simpl.
  assert ((0 <=? h) && (h <=? 23) = true) as -> by lia.
  assert ((0 <=? m) && (m <=? 59) = true) as -> by lia.
  done.
Qed.

(** An hourly job that a pass has queued: its follow-up record can be
    computed and gets an execution id of its own. *)
Lemma queued_hourly_follow_up china_now tr item :
  queued_ok JobType.HOURLY china_now tr item ->
  hourly_follow_up_ok (q_job_id item) (q_job_config item) china_now (q_execution_id item).
Proof.
  intros [Hdue _ (st & Hst & Hid)].
  unfold due_check in Hdue. simpl in Hdue.
  destruct (int (get_or (q_job_config item) "minute" (PStr "00"))) as [m|] eqn:Hm;
    simpl in Hdue; [|done].
  case_bool_decide as Hmin; simpl in Hdue; [|done].
  unfold scheduled_time_of in Hst. simpl in Hst.
  destruct (replace china_now None None (Some 0) (Some 0)) as [st0|] eqn:Hst0;
    simpl in Hst; [|done].
  rewrite Hm in Hst. simpl in Hst.
  apply replace_returned in Hst0 as (-> & Hh0 & Hm0). simpl in *.
  apply replace_returned in Hst as (-> & _ & _). simpl in *.
  exists m.
  destruct (24 <=? hour china_now + 1) eqn:Hnext.
  - eexists. split; [done|]. split; [apply replace_in_range; lia|].
    rewrite Hid. intros Heq.
    apply generate_execution_id_hour in Heq; simpl in *; lia.
  - eexists. split; [done|]. split; [apply replace_in_range; lia|].
    rewrite Hid. intros Heq.
    apply generate_execution_id_hour in Heq; simpl in *; lia.
Qed.

End HourlyFollowUp.

(** ** Executions and the per-day tracker *)

Section Executions.

(** Steps that call no executor and leave the executor table and the per-day
    tracker alone. *)
Definition quiet (w w' : world) : Prop :=
  executors w' = executors w
  /\ job_execution_tracker w' = job_execution_tracker w
  /\ calls (trace w') = calls (trace w).

#[local] Instance quiet_refl : Reflexive quiet.
Proof. intros w. by repeat split. Qed.

#[local] Instance quiet_trans : Transitive quiet.
Proof.
  intros a b c (H1 & H2 & H3) (H4 & H5 & H6). repeat split; congruence.
Qed.

Lemma calls_app (t1 t2 : list event) : calls (t1 ++ t2) = calls t1 ++ calls t2.
Proof. unfold calls. apply omap_app. Qed.

Lemma quiet_update_status now username execution_id status error_message w :
  quiet w (update_job_execution_status now username execution_id status error_message w).
Proof.
  unfold update_job_execution_status.
  destruct (_job_executions_table w) as [t|]; [|done].
  destruct (t !! (username, execution_id)); [|done].
  repeat split. simpl. rewrite calls_app. simpl. by rewrite app_nil_r.
Qed.

Lemma quiet_active_add execution_id a w : quiet w (active_add execution_id a w).
Proof.
  unfold active_add. destruct (active_jobs w); [|done].
  repeat split. simpl. rewrite calls_app. simpl. by rewrite app_nil_r.
Qed.

Lemma quiet_active_pop execution_id w : quiet w (active_pop execution_id w).
Proof.
  unfold active_pop. destruct (active_jobs w); [|done].
  repeat split. simpl. rewrite calls_app. simpl. by rewrite app_nil_r.
Qed.

Lemma quiet_create_record username job_id job_type scheduled_time w :
  quiet w (create_job_execution_record username job_id job_type scheduled_time w).2.
Proof.
  unfold create_job_execution_record.
  by destruct (_job_executions_table w).
Qed.

Lemma quiet_next_hourly_record username job_id job_type job_config china_now w :
  quiet w (next_hourly_record username job_id job_type job_config china_now w).2.
Proof.
  unfold next_hourly_record. m_unfold.
  destruct (int _); simpl; [|done].
  destruct (if 24 <=? hour china_now + 1 then _ else _); simpl; [|done].
  apply quiet_create_record.
Qed.


(** What a worker does to the executions and to the tracker: with a
    registered executor it calls it once, after entering the job in the
    tracker when the job type is daily or weekly; without one it does
    neither. *)
Lemma worker_effect t_run t_end username usd job_id job_config job_type
    china_now execution_id w :
  let w' := _execute_single_job t_run t_end username usd job_id job_config
              job_type china_now execution_id w in
  executors w' = executors w
  /\ match executors w !! job_id with
     | Some _ =>
         calls (trace w')
         = calls (trace w)
           ++ [mk_call job_id username job_config job_type execution_id china_now]
         /\ job_execution_tracker w'
            = (if per_day job_type
               then <[tracker_key username job_id china_now := china_now]>
                      (job_execution_tracker w)
               else job_execution_tracker w)
     | None =>
         calls (trace w') = calls (trace w)
         /\ job_execution_tracker w' = job_execution_tracker w
     end.
Proof.
  unfold _execute_single_job, worker_body. m_unfold.
  pose proof (quiet_update_status t_run username execution_id "running" None w) as Q1.
  set (w1 := update_job_execution_status t_run username execution_id "running" None w) in *.
  pose proof (quiet_active_add execution_id (mk_active_job username job_id t_run) w1) as Q2.
  set (w2 := active_add execution_id (mk_active_job username job_id t_run) w1) in *.
  assert (quiet w w2) as Q12 by (by etrans).
  destruct Q12 as (Hex & Htr & Hcalls).
  rewrite Hex.
  destruct (executors w !! job_id) as [[f name]|] eqn:Hl; simpl.
  - set (w3 := (if per_day job_type
                then _record_job_execution username job_id china_now
                else fun w => w) w2).
    assert (executors w3 = executors w2
            /\ trace w3 = trace w2
            /\ job_execution_tracker w3
               = (if per_day job_type
                  then <[tracker_key username job_id china_now := china_now]>
                         (job_execution_tracker w2)
                  else job_execution_tracker w2)) as (Hex3 & Htrace3 & Htr3).
    { unfold w3. by destruct (per_day job_type). }
    unfold invoke.
    set (c := mk_call job_id username job_config job_type execution_id china_now).
    set (w4 := emit w3 (EvCall c)).
    assert (exists w5, quiet w4 w5
                       /\ (let (o, w') :=
                             match f username job_config with
                             | Returned _ =>
                                 (if bool_decide (job_type = JobType.HOURLY)
                                  then next_hourly_record username job_id job_type
                                         job_config china_now
                                  else fun w => (Returned tt, w))
                                   (update_job_execution_status t_end username
                                      execution_id "completed" None w4)
                             | Raised e => (Raised e, w4)
                             end in
                           match o with
                           | Returned a => (Returned a, w')
                           | Raised e =>
                               (Returned tt,
                                update_job_execution_status t_end username
                                  execution_id "failed" (Some e) w')
                           end).2 = w5) as (w5 & Q5 & ->).
    { destruct (f username job_config) as [[]|msg].
      - pose proof (quiet_update_status t_end username execution_id "completed" None w4) as Qc.
        set (wc := update_job_execution_status t_end username execution_id "completed" None w4) in *.
        case_bool_decide.
        + pose proof (quiet_next_hourly_record username job_id job_type job_config china_now wc) as Qn.
          destruct (next_hourly_record username job_id job_type job_config china_now wc)
            as [[[]|msg] wn]; simpl in *.
          * exists wn. split; [by etrans|done].
          * eexists. split; [|reflexivity].
            etrans; [exact Qc|]. etrans; [exact Qn|]. apply quiet_update_status.
        + exists wc. by split.
      - eexists. split; [|reflexivity]. apply quiet_update_status. }
    pose proof (quiet_active_pop execution_id w5) as Q6.
    assert (quiet w4 (active_pop execution_id w5)) as (He & Ht & Hc) by (by etrans).
    rewrite He, Ht, Hc. unfold w4. simpl.
    rewrite calls_app, Htrace3, Hcalls, Hex3, Htr3, Htr. simpl. done.
  - pose proof (quiet_update_status t_end username execution_id "failed"
                  (Some ("Executor not found for job " +:+ job_id)) w2) as Q3.
    set (w3 := update_job_execution_status _ _ _ "failed" _ w2) in *.
    pose proof (quiet_active_pop execution_id w3) as Q4.
    assert (quiet w2 (active_pop execution_id w3)) as (He & Ht & Hc) by (by etrans).
    rewrite He, Ht, Hc. done.
Qed.

(** The executor call the worker of a submitted job makes. *)
Definition call_of (tk : tick) (item : queued) : call :=
  mk_call (q_job_id item) (q_username item) (q_job_config item) (t_job_type tk)
    (q_execution_id item) (t_china_now tk).

Lemma run_workers_calls tk items w :
  executors (run_workers tk items w) = executors w
  /\ calls (trace (run_workers tk items w))
     = calls (trace w)
       ++ (call_of tk
             <$> filter (fun item => is_Some (executors w !! q_job_id item)) items).
Proof.
  revert w. induction items as [|item items IH]; intros w; simpl.
  { by rewrite app_nil_r. }
  pose proof (worker_effect (t_clock tk (q_username item) (q_execution_id item)).1
                (t_clock tk (q_username item) (q_execution_id item)).2
                (q_username item) (q_user_settings_data item) (q_job_id item)
                (q_job_config item) (t_job_type tk) (t_china_now tk)
                (q_execution_id item) w) as [Hex Heff].
  simpl in Hex, Heff. fold (run_worker tk w item) in Hex, Heff.
  destruct (IH (run_worker tk w item)) as [Hex' Hcalls].
  unfold run_workers in *. rewrite Hex', Hcalls, Hex. split; [done|].
  destruct (executors w !! q_job_id item) as [info|] eqn:Hinfo.
  - destruct Heff as [-> _]. rewrite filter_cons_True by (rewrite Hinfo; eauto).
    rewrite fmap_cons, <- app_assoc. done.
  - destruct Heff as [-> _].
    rewrite filter_cons_False; [done|]. rewrite Hinfo. by intros [? ?].
Qed.

End Executions.

Section OncePerDay.











End OncePerDay.

(** ** The records are not consulted *)

Section RecordsNotConsulted.

Lemma same_but_table_sym w w' : same_but_table w w' -> same_but_table w' w.
Proof. intros (H1 & H2 & H3 & H4). by repeat split. Qed.







End RecordsNotConsulted.

(** ** A worked scenario

    The user "alice" has the daily job "auto_challenge" at hour 2, minute 0;
    the clock reads 02:00 and then 02:01 on 2026-11-04, a Wednesday. *)

Module Scenario.

Definition daily_at_two : job_config :=
  list_to_map [("type", PStr "daily"); ("enabled", PBool true);
               ("hour", PStr "2"); ("minute", PStr "0")].

Definition hourly_at_five : job_config :=
  list_to_map [("type", PStr "hourly"); ("enabled", PBool true);
               ("minute", PInt 5)].

Definition weekly_wednesday_two : job_config :=
  list_to_map [("type", PStr "weekly"); ("enabled", PBool true);
               ("day_of_week", PInt 2); ("hour", PInt 2); ("minute", PStr "30")].

Definition alice : user_settings_data :=
  mk_user_settings None None [("auto_challenge", daily_at_two)].

Definition users : list (string * user_settings_data) := [("alice", alice)].

Definition succeed : callable := fun _ _ => Returned tt.

Definition fail_with (msg : string) : callable := fun _ _ => Raised msg.

Definition registry : gmap string (callable * string) :=
  {["auto_challenge" := (succeed, "hall challenge")]}.

Definition at_0200 : datetime := mk_datetime 2026 11 4 2 0 17 250000.
Definition at_0201 : datetime := mk_datetime 2026 11 4 2 1 17 250000.

Definition calm : flags := mk_flags false false.

(** A daily pass at [now] that nothing disturbs. *)
Definition pass_at (now : datetime) : tick :=
  mk_tick JobType.DAILY calm now users (fun _ => calm) (fun _ _ => (now, now)).

(** A process after start-up, with an empty table of records. *)
Definition started : world := mk_world (Some ∅) registry ∅ (Some ∅) [].


Definition record_id : string := "auto_challenge_2026-11-04_02:00:00".




End Scenario.

(** ** At most one execution per day *)

Section OncePerDayTheorem.





End OncePerDayTheorem.

(** ** Recovery of missed jobs at start-up *)

Section Recovery.

(** The row a missed record ends up as, and the executor calls made for it. *)
Definition recovered_entity (env : startup) (ex : gmap string (callable * string))
    (k : row_key) (e : entity) : entity :=
  let clock := s_clock env k.1 k.2 in
  if is_stuck (s_china_now env) e then
    updated_entity clock.1 "failed"
      (Some ("Job was running for "
             +:+ hours_text (s_china_now env)
                   (default (s_china_now env) (e_execution_start_time e))
             +:+ " hours, likely stuck")) e
  else
    let e1 := updated_entity clock.1 "running" None e in
    match ex !! e_job_id e with
    | Some executor_info =>
        match executor_info.1 k.1 ∅ with
        | Returned _ => updated_entity clock.2 "completed" None e1
        | Raised msg => updated_entity clock.2 "failed" (Some msg) e1
        end
    | None =>
        updated_entity clock.2 "failed"
          (Some ("Executor not found for job " +:+ e_job_id e)) e1
    end.

Definition recovered_calls (env : startup) (ex : gmap string (callable * string))
    (k : row_key) (e : entity) : list call :=
  if is_stuck (s_china_now env) e then []
  else
    match ex !! e_job_id e with
    | Some _ => [mk_call (e_job_id e) k.1 ∅ (e_job_type e) k.2 (s_china_now env)]
    | None => []
    end.

Lemma recover_effect env w k e t :
  _job_executions_table w = Some t ->
  t !! k = Some e ->
  let w' := recover env w (k, e) in
  _job_executions_table w' = Some (<[k := recovered_entity env (executors w) k e]> t)
  /\ executors w' = executors w
  /\ calls (trace w') = calls (trace w) ++ recovered_calls env (executors w) k e.
Proof.
  intros Ht He. destruct k as [username execution_id].
  destruct w as [tbl ex tr aj log]. simpl in *. subst tbl.
  unfold recover, recovered_entity, recovered_calls. simpl.
  destruct (is_stuck (s_china_now env) e).
  { erewrite update_status_present; [|reflexivity|exact He]. simpl.
    rewrite calls_app. simpl. by rewrite !app_nil_r. }
  unfold run_missed. m_unfold.
  erewrite update_status_present; [|reflexivity|exact He].
  unfold emit, set_table. simpl.
  set (e1 := updated_entity (s_clock env username execution_id).1 "running" None e).
  assert ((<[(username, execution_id) := e1]> t) !! (username, execution_id) = Some e1)
    as He1 by apply lookup_insert_eq.
  destruct (ex !! e_job_id e) as [[f name]|]; simpl.
  - unfold invoke. simpl. destruct (f username ∅) as [[]|msg]; simpl.
    + erewrite update_status_present; [|reflexivity|exact He1]. simpl.
      rewrite insert_insert_eq, !calls_app. simpl.
      rewrite !app_nil_r. done.
    + erewrite update_status_present; [|reflexivity|exact He1]. simpl.
      rewrite insert_insert_eq, !calls_app. simpl.
      rewrite !app_nil_r. done.
  - erewrite update_status_present; [|reflexivity|exact He1]. simpl.
    rewrite insert_insert_eq, !calls_app. simpl.
    rewrite !app_nil_r. done.
Qed.

Lemma recover_all env (missed : list (row_key * entity)) w t :
  _job_executions_table w = Some t ->
  NoDup missed.*1 ->
  (forall kv, kv ∈ missed -> t !! kv.1 = Some kv.2) ->
  let w' := fold_left (recover env) missed w in
  exists t',
    _job_executions_table w' = Some t'
    /\ (forall k, k ∉ missed.*1 -> t' !! k = t !! k)
    /\ (forall kv, kv ∈ missed ->
                   t' !! kv.1 = Some (recovered_entity env (executors w) kv.1 kv.2))
    /\ calls (trace w')
       = calls (trace w)
         ++ (missed ≫= fun kv => recovered_calls env (executors w) kv.1 kv.2).
Proof.
  revert w t. induction missed as [|[k e] missed IH]; intros w t Ht Hnd Hrows; simpl.
  { exists t. rewrite app_nil_r. repeat split; auto. intros kv Hkv.
    by apply elem_of_nil in Hkv. }
  rewrite fmap_cons in Hnd. apply NoDup_cons in Hnd as [Hk Hnd]. simpl in Hk.
  assert (t !! k = Some e) as He by (apply (Hrows (k, e)); by left).
  destruct (recover_effect env w k e t Ht He) as (Ht1 & Hex1 & Hc1).
  set (w1 := recover env w (k, e)) in *.
  destruct (IH w1 _ Ht1 Hnd) as (t' & Ht' & Hother & Hmiss & Hcalls).
  { intros kv Hkv. rewrite lookup_insert_ne; [apply Hrows; by right|].
    intros ->. apply Hk. apply list_elem_of_fmap. by exists kv. }
  exists t'. split; [done|]. rewrite Hex1 in *. split; [|split].
  - intros k' Hk'. rewrite not_elem_of_cons in Hk'. destruct Hk' as [Hne Hk'].
    rewrite Hother by done. by rewrite lookup_insert_ne.
  - intros kv Hkv. apply elem_of_cons in Hkv as [->|Hkv]; [|by apply Hmiss].
    simpl. rewrite Hother by done. apply lookup_insert_eq.
  - rewrite Hcalls, Hc1, <- app_assoc. done.
Qed.

(** The calls made on behalf of one record. *)
Definition calls_for (k : row_key) (cs : list call) : list call :=
  filter (fun c => (c_username c, c_execution_id c) = k) cs.

Lemma calls_for_recovered env ex k k' e :
  calls_for k (recovered_calls env ex k' e)
  = if decide (k' = k) then recovered_calls env ex k' e else [].
Proof.
  unfold calls_for, recovered_calls. destruct k' as [u' x'].
  destruct (is_stuck _ _); [by destruct (decide _)|].
  destruct (ex !! e_job_id e); [|by destruct (decide _)].
  destruct (decide ((u', x') = k)) as [<-|Hne].
  - by rewrite filter_cons_True.
  - by rewrite filter_cons_False.
Qed.

Lemma calls_for_others env ex k (missed : list (row_key * entity)) :
  k ∉ missed.*1 ->
  calls_for k (missed ≫= fun kv => recovered_calls env ex kv.1 kv.2) = [].
Proof.
  induction missed as [|[k2 e2] missed IH]; intros Hk; [done|].
  rewrite fmap_cons, not_elem_of_cons in Hk. destruct Hk as [Hne Hk].
  rewrite bind_cons. unfold calls_for in *. rewrite filter_app.
  fold (calls_for k (recovered_calls env ex (k2, e2).1 (k2, e2).2)).
  rewrite calls_for_recovered. simpl.
  rewrite decide_False by done. simpl. by apply IH.
Qed.

Lemma calls_for_missed env ex k e (missed : list (row_key * entity)) :
  NoDup missed.*1 ->
  (k, e) ∈ missed ->
  calls_for k (missed ≫= fun kv => recovered_calls env ex kv.1 kv.2)
  = recovered_calls env ex k e.
Proof.
  induction missed as [|[k' e'] missed IH]; intros Hnd Hin.
  { by apply elem_of_nil in Hin. }
  rewrite fmap_cons in Hnd. apply NoDup_cons in Hnd as [Hk Hnd]. simpl in Hk.
  rewrite bind_cons. unfold calls_for. rewrite filter_app.
  fold (calls_for k (recovered_calls env ex (k', e').1 (k', e').2)).
  fold (calls_for k (missed ≫= fun kv => recovered_calls env ex kv.1 kv.2)).
  rewrite calls_for_recovered. simpl.
  apply elem_of_cons in Hin as [Heq|Hin].
  - inversion Heq; subst. rewrite decide_True by done.
    rewrite calls_for_others by done. by rewrite app_nil_r.
  - rewrite decide_False; [by apply IH|].
    intros ->. apply Hk. apply list_elem_of_fmap. by exists (k, e).
Qed.

End Recovery.

Section RecoveryTheorem.

Lemma get_missed_jobs_spec china_now w t :
  _job_executions_table w = Some t ->
  NoDup (get_missed_jobs china_now w).*1
  /\ (forall k e, (k, e) ∈ get_missed_jobs china_now w
                  <-> t !! k = Some e /\ is_missed china_now e = true).
Proof.
  intros Ht. unfold get_missed_jobs. rewrite Ht. split.
  - apply (sublist_NoDup _ (map_to_list t).*1); [apply NoDup_fst_map_to_list|].
    apply fmap_sublist, sublist_filter.
  - intros k e. rewrite list_elem_of_filter, elem_of_map_to_list. simpl. tauto.
Qed.

(** C4, as amended. On a restart in the production environment, when the
    table already holds records scheduled for the current day: every
    persisted record with status pending or running and a scheduled time in
    the past is handled once.  A record that is running and whose start
    lies more than two hours back is marked failed and no executor is
    called for it.  Otherwise, when an executor is registered for its job,
    that executor is called exactly once, synchronously, with an empty job
    configuration, and the record ends completed when the call returns and
    failed, carrying the exception text, when it raises; when no executor
    is registered the record is marked failed ("Executor not found ...")
    and nothing is called. *)
Theorem missed_jobs_recovered_at_startup (env : startup)
    (ex : gmap string (callable * string)) (k : row_key) (e : entity) :
  s_production env = true ->
  check_job_records_exist_for_date (s_china_now env)
    (initialize_job_executions_table (s_storage env) (fresh_process ex)) = true ->
  s_storage env !! k = Some e ->
  is_missed (s_missed_now env) e = true ->
  let w' := lifespan_startup env (fresh_process ex) in
  let c := mk_call (e_job_id e) k.1 ∅ (e_job_type e) k.2 (s_china_now env) in
  exists e',
    (_job_executions_table w' ≫= fun t => t !! k) = Some e'
    /\ if is_stuck (s_china_now env) e then
         e_status e' = "failed" /\ calls_for k (calls (trace w')) = []
       else
         match ex !! e_job_id e with
         | Some executor_info =>
             calls_for k (calls (trace w')) = [c]
             /\ match executor_info.1 k.1 ∅ with
                | Returned _ => e_status e' = "completed"
                | Raised msg =>
                    e_status e' = "failed"
                    /\ (msg <> "" -> e_error_message e' = Some msg)
                end
         | None =>
             calls_for k (calls (trace w')) = []
             /\ e_status e' = "failed"
             /\ e_error_message e'
                = Some ("Executor not found for job " +:+ e_job_id e)
         end.
Proof.
  intros Hprod Hexist Hk Hmissed. simpl.
  unfold lifespan_startup. rewrite Hprod.
  unfold fresh_process, initialize_job_executions_table in *. simpl in *.
  unfold check_job_records_exist_for_date in *. simpl in *.
  rewrite Hexist. simpl.
  set (w2 := set_active_jobs (set_table (mk_world None ex ∅ None []) (Some (s_storage env)))
               (Some ∅)).
  destruct (get_missed_jobs_spec (s_missed_now env) w2 (s_storage env) eq_refl)
    as [Hnd Hmem].
  assert ((k, e) ∈ get_missed_jobs (s_missed_now env) w2) as Hin by (by apply Hmem).
  destruct (recover_all env (get_missed_jobs (s_missed_now env) w2) w2 (s_storage env)
              eq_refl Hnd) as (t' & Ht' & _ & Hrows & Hcalls).
  { intros [k0 e0] Hkv. by apply Hmem in Hkv as [? _]. }
  exists (recovered_entity env ex k e).
  rewrite Ht'. simpl. split; [apply (Hrows (k, e) Hin)|].
  rewrite Hcalls. simpl.
  rewrite (calls_for_missed env ex k e _ Hnd Hin).
  unfold recovered_entity, recovered_calls.
  destruct (is_stuck (s_china_now env) e); [done|].
  destruct (ex !! e_job_id e) as [[f name]|]; simpl.
  - split; [done|]. destruct (f k.1 ∅) as [[]|msg]; [done|].
    split; [done|]. apply updated_failed_message.
  - split; [done|]. split; [done|].
    first [done | apply updated_failed_message, not_found_nonempty].
Qed.

End RecoveryTheorem.

(** ** Restart scenarios *)

Module Restart.

Definition registry : gmap string (callable * string) :=
  <["night_routine" := (Scenario.succeed, "night routine")]> Scenario.registry.

(** Today's record of 02:00 is still pending when the process comes back
    at 02:30. *)
Definition pending_today : entity :=
  mk_entity "auto_challenge" "daily" (Some (mk_datetime 2026 11 4 2 0 0 0))
    None None "pending" None.

Definition same_day : startup :=
  mk_startup true {[("alice", Scenario.record_id) := pending_today]}
    (mk_datetime 2026 11 4 2 30 0 0) Scenario.users
    (mk_datetime 2026 11 4 2 30 0 0) (mk_datetime 2026 11 4 2 30 1 0)
    (fun _ _ => (mk_datetime 2026 11 4 2 30 2 0, mk_datetime 2026 11 4 2 31 0 0)).

(** Yesterday's record of 23:00 is still pending; the process was down over
    midnight and comes back at 00:30, when no record of today exists. *)
Definition pending_yesterday : entity :=
  mk_entity "night_routine" "daily" (Some (mk_datetime 2026 11 3 23 0 0 0))
    None None "pending" None.

Definition yesterday_id : string := "night_routine_2026-11-03_23:00:00".

Definition overnight : startup :=
  mk_startup true {[("alice", yesterday_id) := pending_yesterday]}
    (mk_datetime 2026 11 4 0 30 0 0) Scenario.users
    (mk_datetime 2026 11 4 0 30 0 0) (mk_datetime 2026 11 4 0 30 1 0)
    (fun _ _ => (mk_datetime 2026 11 4 0 30 2 0, mk_datetime 2026 11 4 0 31 0 0)).

End Restart.

(** The theorem at the restart of 02:30: the pending record of 02:00 is run
    and ends completed. *)
Lemma missed_jobs_recovered_at_startup_witness :
  exists e',
    (_job_executions_table (lifespan_startup Restart.same_day (fresh_process Restart.registry))
       ≫= fun t => t !! ("alice", Scenario.record_id)) = Some e'
    /\ e_status e' = "completed".
Proof.
  destruct (missed_jobs_recovered_at_startup Restart.same_day Restart.registry
              ("alice", Scenario.record_id) Restart.pending_today)
    as (e' & He' & Hrest); [reflexivity..|].
  exists e'. split; [exact He'|].
  vm_compute in Hrest. destruct Hrest as [_ Hstatus].
  exact Hstatus.
Defined.

(** After a night offline the pending record of yesterday, 23:00, is a
    record with status pending and a scheduled time in the past, it is not
    a stuck running record, and an executor is registered for its job; yet
    start-up takes the branch that initializes the new day: the record is
    deleted and no executor is called. *)
Lemma overnight_restart_drops_missed_job :
  Restart.overnight.(s_storage) !! ("alice", Restart.yesterday_id)
  = Some Restart.pending_yesterday
  /\ is_missed (s_missed_now Restart.overnight) Restart.pending_yesterday = true
  /\ is_stuck (s_china_now Restart.overnight) Restart.pending_yesterday = false
  /\ is_Some (Restart.registry !! "night_routine")
  /\ (_job_executions_table
        (lifespan_startup Restart.overnight (fresh_process Restart.registry))
        ≫= fun t => t !! ("alice", Restart.yesterday_id)) = None
  /\ calls (trace (lifespan_startup Restart.overnight (fresh_process Restart.registry)))
     = [].
Proof.
  split; [reflexivity|]. split; [reflexivity|]. split; [reflexivity|].
  split; [by eexists|]. split; vm_compute; reflexivity.
Qed.

(** ** Execution ids determine the job *)

Section ExecutionIdInjective.

Lemma string_length_app (s1 s2 : string) :
  String.length (s1 +:+ s2) = (String.length s1 + String.length s2)%nat.
Proof. induction s1 as [|c s1 IH]; simpl; [done|]. by rewrite <- IH. Qed.

Lemma string_app_inj_suffix (s1 s2 a b : string) :
  String.length a = String.length b ->
  s1 +:+ a = s2 +:+ b ->
  s1 = s2 /\ a = b.
Proof.
  intros Hlen. revert s2. induction s1 as [|c s1 IH]; intros [|c2 s2] Heq.
  - done.
  - exfalso. apply (f_equal String.length) in Heq.
    rewrite !string_length_app in Heq. simpl in Heq. lia.
  - exfalso. apply (f_equal String.length) in Heq.
    rewrite !string_length_app in Heq. simpl in Heq. lia.
  - change (String c (s1 +:+ a) = String c2 (s2 +:+ b)) in Heq.
    injection Heq as -> Heq. destruct (IH _ Heq) as [-> ->]. done.
Qed.

Lemma execution_id_suffix_length (t : datetime) :
  String.length ("_" +:+ date_str t +:+ "_" +:+ time_str t) = 20%nat.
Proof. reflexivity. Qed.

(** The job id and the scheduled hour and minute can be read off an
    execution id. *)
Lemma generate_execution_id_inj (j j' : string) (a b : datetime) :
  0 <= hour a < 100 -> 0 <= hour b < 100 ->
  0 <= minute a < 100 -> 0 <= minute b < 100 ->
  generate_execution_id j a = generate_execution_id j' b ->
  j = j' /\ hour a = hour b /\ minute a = minute b.
Proof.
  intros Ha Hb Hma Hmb Heq. unfold generate_execution_id in Heq.
  apply string_app_inj_suffix in Heq as [-> Heq];
    [|by rewrite !execution_id_suffix_length].
  split; [done|].
  lazy [String.append date_str time_str pad4 pad2] in Heq.
  injection Heq as Hy1 Hy2 Hy3 Hy4 Hm1 Hm2 Hd1 Hd2 Hh1 Hh2 Hmi1 Hmi2.
  split; apply pad2_inj; try done; unfold pad2; congruence.
Qed.

End ExecutionIdInjective.

(** ** Initializing the records of a day *)

Section DayRecords.

(** The row a job asks for, if any: its execution id and its entity. *)
Definition planned_row (china_now target_date : datetime)
    (job : string * job_config) : outcome (option (string * entity)) :=
  if negb (enabled job.2) then Returned None
  else if eq_str (get job.2 "type") "daily" then
    h ← int (get_or job.2 "hour" (PInt 0));
    m ← int (get_or job.2 "minute" (PInt 0));
    st ← replace target_date (Some h) (Some m) (Some 0) (Some 0);
    Returned (Some (generate_execution_id job.1 st,
                    day_entity china_now job.1 "daily" st))
  else if eq_str (get job.2 "type") "hourly" then
    m ← int (get_or job.2 "minute" (PInt 0));
    st ← (if m <=? minute china_now then
            if 24 <=? hour china_now + 1
            then replace (plus_one_day target_date) (Some 0) (Some m) (Some 0) (Some 0)
            else replace target_date (Some (hour china_now + 1)) (Some m) (Some 0) (Some 0)
          else replace target_date (Some (hour china_now)) (Some m) (Some 0) (Some 0));
    Returned (Some (generate_execution_id job.1 st,
                    mk_entity job.1 "hourly" (Some st) None None "pending" None))
  else if eq_str (get job.2 "type") "weekly" then
    d ← int (get_or job.2 "day_of_week" (PInt 0));
    h ← int (get_or job.2 "hour" (PInt 0));
    m ← int (get_or job.2 "minute" (PInt 0));
    if bool_decide (weekday target_date = d) then
      st ← replace target_date (Some h) (Some m) (Some 0) (Some 0);
      Returned (Some (generate_execution_id job.1 st,
                      day_entity china_now job.1 "weekly" st))
    else Returned None
  else Returned None.

(** Writing a row unless the key is taken. *)
Definition put_new (k : row_key) (e : entity) (t : rows) : rows :=
  match t !! k with
  | Some _ => t
  | None => <[k := e]> t
  end.

Lemma create_unless_exists_put_new username execution_id e w t :
  _job_executions_table w = Some t ->
  create_unless_exists username execution_id e w
  = (Returned tt, set_table w (Some (put_new (username, execution_id) e t))).
Proof.
  intros Ht. unfold create_unless_exists, record_exists, upsert_entity, put_new.
  rewrite Ht. destruct (t !! (username, execution_id)) eqn:Hl.
  - rewrite bool_decide_eq_true_2 by eauto.
    destruct w; simpl in *; by subst.
  - rewrite bool_decide_eq_false_2 by (by intros [? ?]). done.
Qed.

Lemma init_job_planned china_now target_date username job w t :
  _job_executions_table w = Some t ->
  init_job china_now target_date username job w
  = match planned_row china_now target_date job with
    | Returned None => (Returned tt, w)
    | Returned (Some row) =>
        (Returned tt, set_table w (Some (put_new (username, row.1) row.2 t)))
    | Raised x => (Raised x, w)
    end.
Proof.
  intros Ht. destruct job as [job_id job_config].
  unfold init_job, planned_row. simpl.
  destruct (negb (enabled job_config)); [done|].
  destruct (eq_str (get job_config "type") "daily").
  { unfold init_daily. m_unfold.
    destruct (int (get_or job_config "hour" (PInt 0))); simpl; [|done].
    destruct (int (get_or job_config "minute" (PInt 0))); simpl; [|done].
    destruct (replace target_date _ _ _ _); simpl; [|done].
    by apply create_unless_exists_put_new. }
  destruct (eq_str (get job_config "type") "hourly").
  { unfold init_hourly. m_unfold.
    destruct (int (get_or job_config "minute" (PInt 0))); simpl; [|done].
    destruct (if _ <=? minute china_now then _ else _); simpl; [|done].
    by apply create_unless_exists_put_new. }
  destruct (eq_str (get job_config "type") "weekly"); [|done].
  unfold init_weekly. m_unfold.
  destruct (int (get_or job_config "day_of_week" (PInt 0))); simpl; [|done].
  destruct (int (get_or job_config "hour" (PInt 0))); simpl; [|done].
  destruct (int (get_or job_config "minute" (PInt 0))); simpl; [|done].
  case_bool_decide; [|done].
  destruct (replace target_date _ _ _ _); simpl; [|done].
  by apply create_unless_exists_put_new.
Qed.

End DayRecords.

Section DayRecordsTable.

(** The jobs the initialization walks through, each with its user. *)
Definition eligible_jobs (users : list (string * user_settings_data))
    : list (string * (string * job_config)) :=
  users ≫= fun user =>
    if is_admin user.2 then []
    else if negb (scheduling_enabled user.2) then []
    else (fun job => (user.1, job)) <$> job_settings user.2.

(** The rows filed for a list of jobs, up to the first setting that cannot
    be read. *)
Fixpoint file_rows (china_now target_date : datetime)
    (jobs : list (string * (string * job_config))) (t : rows) : outcome unit * rows :=
  match jobs with
  | [] => (Returned tt, t)
  | (username, job) :: rest =>
      match planned_row china_now target_date job with
      | Returned None => file_rows china_now target_date rest t
      | Returned (Some row) =>
          file_rows china_now target_date rest (put_new (username, row.1) row.2 t)
      | Raised x => (Raised x, t)
      end
  end.

Lemma set_table_same w t : _job_executions_table w = Some t -> set_table w (Some t) = w.
Proof. intros H. destruct w; simpl in *; by subst. Qed.

Lemma file_rows_app china_now target_date jobs1 jobs2 t :
  file_rows china_now target_date (jobs1 ++ jobs2) t
  = match file_rows china_now target_date jobs1 t with
    | (Returned _, t1) => file_rows china_now target_date jobs2 t1
    | (Raised x, t1) => (Raised x, t1)
    end.
Proof.
  revert t. induction jobs1 as [|[u job] jobs1 IH]; intros t; simpl; [done|].
  destruct (planned_row china_now target_date job) as [[row|]|x]; by rewrite ?IH.
Qed.

Lemma for_each_jobs_file_rows china_now target_date username jobs w t :
  _job_executions_table w = Some t ->
  for_each jobs (init_job china_now target_date username) w
  = let r := file_rows china_now target_date ((fun job => (username, job)) <$> jobs) t in
    (r.1, set_table w (Some r.2)).
Proof.
  revert w t. induction jobs as [|job jobs IH]; intros w t Ht; simpl.
  { by rewrite set_table_same. }
  m_unfold. rewrite (init_job_planned _ _ _ _ _ t Ht).
  destruct (planned_row china_now target_date job) as [[row|]|x]; simpl.
  - rewrite (IH _ (put_new (username, row.1) row.2 t)) by done. simpl.
    by destruct w.
  - by rewrite (IH _ t).
  - by rewrite set_table_same.
Qed.

Lemma for_each_users_file_rows china_now target_date users w t :
  _job_executions_table w = Some t ->
  for_each users (init_user china_now target_date) w
  = let r := file_rows china_now target_date (eligible_jobs users) t in
    (r.1, set_table w (Some r.2)).
Proof.
  revert w t. induction users as [|[username usd] users IH]; intros w t Ht.
  { simpl. by rewrite set_table_same. }
  unfold eligible_jobs. rewrite bind_cons. fold (eligible_jobs users).
  simpl. m_unfold. unfold init_user. simpl.
  destruct (is_admin usd); simpl; [by apply IH|].
  destruct (negb (scheduling_enabled usd)); simpl; [by apply IH|].
  rewrite (for_each_jobs_file_rows _ _ _ _ _ t Ht). simpl.
  rewrite file_rows_app.
  destruct (file_rows china_now target_date _ t) as [[[]|x] t1]; simpl; [|done].
  rewrite (IH _ t1) by done. simpl. by destruct w.
Qed.

(** Rows that are there stay as they are. *)
Lemma file_rows_keeps china_now target_date jobs t k e :
  t !! k = Some e -> (file_rows china_now target_date jobs t).2 !! k = Some e.
Proof.
  revert t. induction jobs as [|[u job] jobs IH]; intros t Hk; simpl; [done|].
  destruct (planned_row china_now target_date job) as [[row|]|x]; simpl; auto.
  apply IH. unfold put_new.
  destruct (t !! (u, row.1)) eqn:Hl; [done|].
  rewrite lookup_insert_ne; [done|]. intros <-. congruence.
Qed.

(** A row that was not there is the row some job asked for. *)
Lemma file_rows_new china_now target_date jobs t k e :
  t !! k = None ->
  (file_rows china_now target_date jobs t).2 !! k = Some e ->
  exists job, (k.1, job) ∈ jobs
              /\ planned_row china_now target_date job = Returned (Some (k.2, e)).
Proof.
  revert t. induction jobs as [|[u job] jobs IH]; intros t Hk Hk'; simpl in *.
  { congruence. }
  destruct (planned_row china_now target_date job) as [[row|]|x] eqn:Hp; simpl in *.
  - destruct (decide (k = (u, row.1))) as [->|Hne].
    + assert (put_new (u, row.1) row.2 t !! (u, row.1) = Some row.2) as Hput.
      { unfold put_new. rewrite Hk. apply lookup_insert_eq. }
      rewrite (file_rows_keeps _ _ _ _ _ _ Hput) in Hk'. inversion Hk'; subst.
      exists job. split; [by left|]. simpl. by destruct row.
    + destruct (IH (put_new (u, row.1) row.2 t)) as (job' & Hin & Hp'); [|done|].
      { unfold put_new. destruct (t !! (u, row.1)); [done|].
        by rewrite lookup_insert_ne. }
      exists job'. split; [by right|done].
  - destruct (IH t Hk Hk') as (job' & Hin & Hp'). exists job'. split; [by right|done].
  - congruence.
Qed.

(** When no setting is unreadable, the row every job asks for is there
    afterwards. *)
Lemma file_rows_filed china_now target_date jobs t u job row :
  (file_rows china_now target_date jobs t).1 = Returned tt ->
  (u, job) ∈ jobs ->
  planned_row china_now target_date job = Returned (Some row) ->
  is_Some ((file_rows china_now target_date jobs t).2 !! (u, row.1)).
Proof.
  revert t. induction jobs as [|[u' job'] jobs IH]; intros t Hret Hin Hp.
  { by apply elem_of_nil in Hin. }
  simpl in *. apply elem_of_cons in Hin as [Heq|Hin].
  - inversion Heq; subst. rewrite Hp in *. simpl in *.
    assert (is_Some (put_new (u', row.1) row.2 t !! (u', row.1))) as [e He].
    { unfold put_new. destruct (t !! (u', row.1)) eqn:Hl; [by rewrite Hl|].
      rewrite lookup_insert_eq. eauto. }
    rewrite (file_rows_keeps _ _ _ _ _ _ He). eauto.
  - destruct (planned_row china_now target_date job') as [[row'|]|x]; simpl in *;
      [by apply IH|by apply IH|done].
Qed.

End DayRecordsTable.

Section DayRecordsTheorem.

Lemma NoDup_fmap_inj_on {A B} (f : A -> B) (l : list A) (x y : A) :
  NoDup (f <$> l) -> x ∈ l -> y ∈ l -> f x = f y -> x = y.
Proof.
  induction l as [|z l IH]; intros Hnd Hx Hy Hf.
  { by apply elem_of_nil in Hx. }
  rewrite fmap_cons in Hnd. apply NoDup_cons in Hnd as [Hz Hnd].
  apply elem_of_cons in Hx as [->|Hx], Hy as [->|Hy]; auto.
  - exfalso. apply Hz. rewrite Hf. by apply list_elem_of_fmap_2.
  - exfalso. apply Hz. rewrite <- Hf. by apply list_elem_of_fmap_2.
Qed.

(** Every (user, job) of the settings, eligible or not. *)
Definition full_jobs (users : list (string * user_settings_data))
    : list (string * (string * job_config)) :=
  users ≫= fun user => (fun job => (user.1, job)) <$> job_settings user.2.

Lemma all_jobs_full users :
  all_jobs users = (fun p => (p.1, p.2.1)) <$> full_jobs users.
Proof.
  unfold all_jobs, full_jobs. induction users as [|user users IH]; [done|].
  rewrite !bind_cons, fmap_app, IH. f_equal.
  rewrite map_fmap, <- list_fmap_compose. done.
Qed.

Lemma eligible_in_full users p : p ∈ eligible_jobs users -> p ∈ full_jobs users.
Proof.
  unfold eligible_jobs, full_jobs. rewrite !list_elem_of_bind.
  intros (user & Hp & Hu). exists user. split; [|done].
  destruct (is_admin user.2); [by apply elem_of_nil in Hp|].
  destruct (negb (scheduling_enabled user.2)); [by apply elem_of_nil in Hp|done].
Qed.

Lemma planned_row_id china_now target_date job eid e :
  planned_row china_now target_date job = Returned (Some (eid, e)) ->
  exists st, eid = generate_execution_id job.1 st
             /\ 0 <= hour st <= 23 /\ 0 <= minute st <= 59.
Proof.
  unfold planned_row.
  destruct (negb (enabled job.2)); [done|].
  destruct (eq_str (get job.2 "type") "daily").
  { destruct (int (get_or job.2 "hour" (PInt 0))); simpl; [|done].
    destruct (int (get_or job.2 "minute" (PInt 0))); simpl; [|done].
    destruct (replace target_date _ _ _ _) as [st|] eqn:Hst; simpl; [|done].
    intros [= <- _]. exists st. split; [done|]. by apply replace_returned in Hst as (_ & ? & ?). }
  destruct (eq_str (get job.2 "type") "hourly").
  { destruct (int (get_or job.2 "minute" (PInt 0))) as [m|]; simpl; [|done].
    destruct (if m <=? minute china_now then _ else _) as [st|] eqn:Hst; simpl; [|done].
    intros [= <- _]. exists st. split; [done|].
    destruct (m <=? minute china_now); [destruct (24 <=? hour china_now + 1)|];
      by apply replace_returned in Hst as (_ & ? & ?). }
  destruct (eq_str (get job.2 "type") "weekly"); [|done].
  destruct (int (get_or job.2 "day_of_week" (PInt 0))); simpl; [|done].
  destruct (int (get_or job.2 "hour" (PInt 0))); simpl; [|done].
  destruct (int (get_or job.2 "minute" (PInt 0))); simpl; [|done].
  case_bool_decide; [|done].
  destruct (replace target_date _ _ _ _) as [st|] eqn:Hst; simpl; [|done].
  intros [= <- _]. exists st. split; [done|]. by apply replace_returned in Hst as (_ & ? & ?).
Qed.

(** With distinct users and distinct job ids per user, the row under the
    key a job asks for is the row of that job. *)
Lemma file_rows_own_row china_now target_date users t u job row :
  NoDup (all_jobs users) ->
  (file_rows china_now target_date (eligible_jobs users) t).1 = Returned tt ->
  (u, job) ∈ eligible_jobs users ->
  planned_row china_now target_date job = Returned (Some row) ->
  t !! (u, row.1) = None ->
  (file_rows china_now target_date (eligible_jobs users) t).2 !! (u, row.1)
  = Some row.2.
Proof.
  intros Hnd Hret Hin Hp Hnone.
  destruct (file_rows_filed _ _ _ t _ _ _ Hret Hin Hp) as [e He].
  rewrite He. f_equal.
  destruct (file_rows_new _ _ _ _ _ _ Hnone He) as (job' & Hin' & Hp'). simpl in *.
  assert ((u, job') = (u, job)) as Heq.
  { apply (NoDup_fmap_inj_on (fun p => (p.1, p.2.1)) (full_jobs users)).
    - by rewrite <- all_jobs_full.
    - by apply eligible_in_full.
    - by apply eligible_in_full.
    - simpl. f_equal.
      destruct row as [eid e0]. simpl in *.
      apply planned_row_id in Hp as (st & Hid & Hh & Hm).
      apply planned_row_id in Hp' as (st' & Hid' & Hh' & Hm').
      rewrite Hid in Hid'.
      apply generate_execution_id_inj in Hid' as (? & _); [done|lia..]. }
  inversion Heq; subst. rewrite Hp in Hp'. by inversion Hp'.
Qed.

(** A record marked completed without having run: its execution started
    and ended, on paper, at the scheduled time. *)
Definition assumed_completed (scheduled_time : datetime) (e : entity) : Prop :=
  e_status e = "completed"
  /\ e_execution_start_time e = Some scheduled_time
  /\ e_execution_end_time e = Some scheduled_time.

Definition still_pending (e : entity) : Prop :=
  e_status e = "pending"
  /\ e_execution_start_time e = None
  /\ e_execution_end_time e = None.

Lemma day_entity_spec china_now job_id job_type st :
  let e := day_entity china_now job_id job_type st in
  e_job_id e = job_id /\ e_job_type e = job_type /\ e_scheduled_time e = Some st
  /\ (lt st china_now -> assumed_completed st e)
  /\ (~ lt st china_now -> still_pending e).
Proof.
  unfold day_entity, lt, ltb, assumed_completed, still_pending. simpl.
  destruct (Z.ltb_spec (timestamp st) (timestamp china_now)); simpl;
    repeat split; auto; intros; lia.
Qed.

(** The state after the clean-up with which the initialization begins. *)
Definition cleaned (china_now target_date : datetime) (w : world) : world :=
  cleanup_old_job_records china_now (Some (midnight target_date)) w.

(** C9. [initialize_daily_job_records], for users and job ids that are
    distinct as dictionary keys.  No executor is called.  A record that is
    in the table once the old records are cleaned up is left as it is.
    Every record the call adds for a daily or weekly job is completed, with
    execution start and end both at its scheduled time, when that time is
    earlier than the current time, and pending otherwise.  And when no
    setting is unreadable, every enabled daily job, and every enabled weekly
    job whose day is the day of the target date, of a user who is not an
    admin and has scheduling enabled gets such a record unless one exists
    under its execution id. *)
Theorem past_jobs_assumed_completed
    (users : list (string * user_settings_data))
    (china_now target_date : datetime) (w : world) (t0 : rows) :
  _job_executions_table (cleaned china_now target_date w) = Some t0 ->
  NoDup (all_jobs users) ->
  let w' := initialize_daily_job_records users china_now (Some target_date) w in
  trace w' = trace w
  /\ executors w' = executors w
  /\ exists t',
       _job_executions_table w' = Some t'
       /\ (forall k e, t0 !! k = Some e -> t' !! k = Some e)
       /\ (forall k e,
             t0 !! k = None -> t' !! k = Some e ->
             e_job_type e = "daily" \/ e_job_type e = "weekly" ->
             exists st,
               e_scheduled_time e = Some st
               /\ (lt st china_now -> assumed_completed st e)
               /\ (~ lt st china_now -> still_pending e))
       /\ ((for_each users (init_user china_now target_date)
              (cleaned china_now target_date w)).1 = Returned tt ->
           forall username usd job_id job_config h m st,
             (username, usd) ∈ users ->
             is_admin usd = false -> scheduling_enabled usd = true ->
             (job_id, job_config) ∈ job_settings usd ->
             enabled job_config = true ->
             (eq_str (get job_config "type") "daily" = true
              \/ (eq_str (get job_config "type") "weekly" = true
                  /\ int (get_or job_config "day_of_week" (PInt 0))
                     = Returned (weekday target_date))) ->
             int (get_or job_config "hour" (PInt 0)) = Returned h ->
             int (get_or job_config "minute" (PInt 0)) = Returned m ->
             replace target_date (Some h) (Some m) (Some 0) (Some 0) = Returned st ->
             t0 !! (username, generate_execution_id job_id st) = None ->
             exists e,
               t' !! (username, generate_execution_id job_id st) = Some e
               /\ e_job_id e = job_id
               /\ e_scheduled_time e = Some st
               /\ (lt st china_now -> assumed_completed st e)
               /\ (~ lt st china_now -> still_pending e)).
Proof.
  intros Ht0 Hnd. simpl.
  unfold initialize_daily_job_records.
  assert (exists t, _job_executions_table w = Some t) as [t Ht].
  { unfold cleaned, cleanup_old_job_records in Ht0.
    destruct (_job_executions_table w) eqn:Hw; [by eexists|].
    simpl in Ht0. congruence. }
  rewrite Ht. simpl. fold (cleaned china_now target_date w).
  set (w1 := cleaned china_now target_date w) in *.
  assert (trace w1 = trace w /\ executors w1 = executors w) as [Htrace Hex].
  { unfold w1, cleaned, cleanup_old_job_records. by rewrite Ht. }
  unfold try_except.
  rewrite (for_each_users_file_rows _ _ _ _ t0 Ht0). simpl.
  set (r := file_rows china_now target_date (eligible_jobs users) t0).
  assert (forall o : outcome unit,
            (match o with
             | Returned a => (Returned a, set_table w1 (Some r.2))
             | Raised e => (Returned tt, set_table w1 (Some r.2))
             end).2 = set_table w1 (Some r.2)) as Hsame.
  { by intros [[]|x]. }
  m_unfold. rewrite Hsame. simpl. split; [done|]. split; [done|].
  exists r.2. split; [done|]. split; [|split].
  - intros k e Hk. by apply file_rows_keeps.
  - intros k e Hk Hk' Htype.
    destruct (file_rows_new _ _ _ _ _ _ Hk Hk') as (job & Hin & Hp).
    unfold planned_row in Hp.
    destruct (negb (enabled job.2)); [done|].
    destruct (eq_str (get job.2 "type") "daily").
    { destruct (int (get_or job.2 "hour" (PInt 0))); simpl in Hp; [|done].
      destruct (int (get_or job.2 "minute" (PInt 0))); simpl in Hp; [|done].
      destruct (replace target_date _ _ _ _) as [st|]; simpl in Hp; [|done].
      inversion Hp; subst. exists st.
      by destruct (day_entity_spec china_now job.1 "daily" st) as (_ & _ & ? & ? & ?). }
    destruct (eq_str (get job.2 "type") "hourly").
    { destruct (int (get_or job.2 "minute" (PInt 0))) as [m|]; simpl in Hp; [|done].
      destruct (if m <=? minute china_now then _ else _) as [st|]; simpl in Hp; [|done].
      inversion Hp; subst. simpl in Htype. by destruct Htype. }
    destruct (eq_str (get job.2 "type") "weekly"); [|done].
    destruct (int (get_or job.2 "day_of_week" (PInt 0))); simpl in Hp; [|done].
    destruct (int (get_or job.2 "hour" (PInt 0))); simpl in Hp; [|done].
    destruct (int (get_or job.2 "minute" (PInt 0))); simpl in Hp; [|done].
    case_bool_decide; [|done].
    destruct (replace target_date _ _ _ _) as [st|]; simpl in Hp; [|done].
    inversion Hp; subst. exists st.
    by destruct (day_entity_spec china_now job.1 "weekly" st) as (_ & _ & ? & ? & ?).
  - intros Hret username usd job_id job_config h m st Hu Hadmin Hsched Hjob Hen
           Htype Hh Hm Hst Hnone.
    assert ((username, (job_id, job_config)) ∈ eligible_jobs users) as Hin.
    { unfold eligible_jobs. apply list_elem_of_bind. exists (username, usd).
      split; [|done]. simpl. rewrite Hadmin, Hsched. simpl.
      by apply (list_elem_of_fmap_2 (fun job => (username, job))). }
    assert (exists job_type,
              planned_row china_now target_date (job_id, job_config)
              = Returned (Some (generate_execution_id job_id st,
                                day_entity china_now job_id job_type st)))
      as [job_type Hp].
    { unfold planned_row. simpl. rewrite Hen. simpl.
      destruct Htype as [Hd|[Hwk Hday]].
      - rewrite Hd, Hh, Hm. simpl. rewrite Hst. simpl. by exists "daily".
      - destruct (eq_str (get job_config "type") "daily") eqn:Hd.
        + rewrite Hh, Hm. simpl. rewrite Hst. simpl. by exists "daily".
        + destruct (eq_str (get job_config "type") "hourly") eqn:Hhr.
          { exfalso. unfold eq_str in *.
            destruct (get job_config "type"); try done.
            apply bool_decide_eq_true in Hwk, Hhr. congruence. }
          rewrite Hwk, Hday, Hh, Hm. simpl.
          rewrite bool_decide_eq_true_2 by done. rewrite Hst. simpl.
          by exists "weekly". }
    simpl in Hret.
    pose proof (file_rows_own_row _ _ _ t0 _ _ _ Hnd Hret Hin Hp Hnone) as Hrow.
    simpl in Hrow. eexists. split; [exact Hrow|].
    by destruct (day_entity_spec china_now job_id job_type st) as (? & _ & ? & ? & ?).
Qed.

End DayRecordsTheorem.

(** ** Shutdown *)

Module SchedulerThread.

(** [scheduler_worker]: one round a minute.  A round that sees the shutdown
    flag ends the thread; a round that finds the scheduler paused does
    nothing; any other round runs what is pending ([run_pending k]).  The
    value tells whether the thread has ended within [fuel] rounds. *)
Fixpoint scheduler_worker (fuel : nat) (observe : nat -> flags)
    (run_pending : nat -> world -> world) (k : nat) (w : world) : world * bool :=
  match fuel with
  | O => (w, false)
  | S fuel' =>
      if shutdown_set (observe k) then (w, true)
      else if paused (observe k) then
        scheduler_worker fuel' observe run_pending (S k) w
      else
        scheduler_worker fuel' observe run_pending (S k) (run_pending k w)
  end.

(** [scheduler_thread.is_alive()] after [fuel] rounds *)
Definition is_alive (fuel : nat) (observe : nat -> flags)
    (run_pending : nat -> world -> world) (w : world) : bool :=
  negb (scheduler_worker fuel observe run_pending 0 w).2.

End SchedulerThread.

Section Shutdown.

(** A worker always gets to the end: with the active-jobs globals set, its
    trace closes with the removal of its entry. *)
Definition carries_on (w w' : world) : Prop :=
  (is_Some (active_jobs w) -> is_Some (active_jobs w'))
  /\ trace w `prefix_of` trace w'.

#[local] Instance carries_on_refl : Reflexive carries_on.
Proof. intros w. by split. Qed.

#[local] Instance carries_on_trans : Transitive carries_on.
Proof. intros a b c [H1 H2] [H3 H4]. split; [auto|by etrans]. Qed.

Lemma carries_on_update_status now username execution_id status error_message w :
  carries_on w (update_job_execution_status now username execution_id status error_message w).
Proof.
  unfold update_job_execution_status.
  destruct (_job_executions_table w) as [t|]; [|done].
  destruct (t !! (username, execution_id)); [|done].
  split; [done|]. simpl. by apply prefix_app_r.
Qed.

Lemma carries_on_active_add execution_id a w : carries_on w (active_add execution_id a w).
Proof.
  unfold active_add. destruct (active_jobs w); [|done].
  split; [by eauto|]. simpl. by apply prefix_app_r.
Qed.

Lemma carries_on_next_hourly_record username job_id job_type job_config china_now w :
  carries_on w (next_hourly_record username job_id job_type job_config china_now w).2.
Proof.
  unfold next_hourly_record. m_unfold.
  destruct (int _); simpl; [|done].
  destruct (if 24 <=? hour china_now + 1 then _ else _); simpl; [|done].
  unfold create_job_execution_record. by destruct (_job_executions_table w).
Qed.

Lemma active_pop_finishes execution_id w :
  is_Some (active_jobs w) ->
  is_Some (active_jobs (active_pop execution_id w))
  /\ trace (active_pop execution_id w) = trace w ++ [EvActiveDel execution_id].
Proof. intros [m Hm]. unfold active_pop. rewrite Hm. simpl. eauto. Qed.

Lemma worker_finishes t_run t_end username usd job_id job_config job_type
    china_now execution_id w :
  is_Some (active_jobs w) ->
  let w' := _execute_single_job t_run t_end username usd job_id job_config
              job_type china_now execution_id w in
  is_Some (active_jobs w')
  /\ exists between, trace w' = trace w ++ between ++ [EvActiveDel execution_id].
Proof.
  intros Hact. unfold _execute_single_job.
  set (body := try_except _ _).
  assert (carries_on w (body w).2) as [Ha [between Hb]].
  { unfold body, worker_body. m_unfold.
    pose proof (carries_on_update_status t_run username execution_id "running" None w) as C1.
    set (w1 := update_job_execution_status t_run username execution_id "running" None w) in *.
    pose proof (carries_on_active_add execution_id (mk_active_job username job_id t_run) w1) as C2.
    set (w2 := active_add execution_id (mk_active_job username job_id t_run) w1) in *.
    etrans; [exact C1|]. etrans; [exact C2|].
    destruct (executors w2 !! job_id) as [[f name]|]; simpl;
      [|apply carries_on_update_status].
    set (w3 := (if per_day job_type
                then _record_job_execution username job_id china_now
                else fun w => w) w2).
    assert (carries_on w2 w3) as C3 by (unfold w3; by destruct (per_day job_type)).
    etrans; [exact C3|]. unfold invoke.
    set (w4 := emit w3 _).
    assert (carries_on w3 w4) as C4.
    { split; [done|]. simpl. by apply prefix_app_r. }
    etrans; [exact C4|].
    destruct (f username job_config) as [[]|msg]; simpl;
      [|apply carries_on_update_status].
    pose proof (carries_on_update_status t_end username execution_id "completed" None w4) as C5.
    set (w5 := update_job_execution_status t_end username execution_id "completed" None w4) in *.
    etrans; [exact C5|].
    case_bool_decide; [|done].
    pose proof (carries_on_next_hourly_record username job_id job_type job_config china_now w5) as C6.
    destruct (next_hourly_record username job_id job_type job_config china_now w5)
      as [[[]|msg] w6]; simpl in *; [done|].
    etrans; [exact C6|]. apply carries_on_update_status. }
  destruct (active_pop_finishes execution_id (body w).2 (Ha Hact)) as [Hsome Htr].
  split; [done|]. exists between. by rewrite Htr, Hb, <- app_assoc.
Qed.

(** Every job handed to the pool is run to its end. *)
Lemma run_workers_all_finish tk items w :
  is_Some (active_jobs w) ->
  is_Some (active_jobs (run_workers tk items w))
  /\ trace w `prefix_of` trace (run_workers tk items w)
  /\ Forall (fun item => EvActiveDel (q_execution_id item)
                         ∈ trace (run_workers tk items w)) items.
Proof.
  revert w. induction items as [|item items IH]; intros w Hact; simpl.
  { repeat split; auto. }
  destruct (worker_finishes (t_clock tk (q_username item) (q_execution_id item)).1
              (t_clock tk (q_username item) (q_execution_id item)).2
              (q_username item) (q_user_settings_data item) (q_job_id item)
              (q_job_config item) (t_job_type tk) (t_china_now tk)
              (q_execution_id item) w Hact) as [Hact' [between Htr]].
  fold (run_worker tk w item) in *.
  destruct (IH (run_worker tk w item) Hact') as (Hsome & Hpre & Hall).
  split; [done|]. split.
  - etrans; [|exact Hpre]. rewrite Htr. by apply prefix_app_r.
  - constructor; [|done].
    eapply elem_of_prefix; [|exact Hpre]. rewrite Htr.
    rewrite !elem_of_app. right. right. by left.
Qed.

(** *** The wait at process exit *)

Lemma wait_loop_result fuel observe k r :
  wait_loop fuel observe k = Some r ->
  exists j,
    (k <= j < k + fuel)%nat
    /\ (forall i, (k <= i < j)%nat ->
                  (observe i).1 <> O /\ (observe i).2 <= max_wait_time)
    /\ match r with
       | AllCompleted polls => polls = j /\ (observe j).1 = O
       | TimeoutReached polls active_count =>
           polls = j /\ active_count = (observe j).1 /\ active_count <> O
           /\ max_wait_time < (observe j).2
       end.
Proof.
  revert k. induction fuel as [|fuel IH]; intros k; simpl; [done|].
  destruct (observe k) as [n el] eqn:Hobs.
  case_bool_decide as Hn.
  { intros [= <-]. exists k. rewrite Hobs. simpl. repeat split; auto; lia. }
  destruct (Z.ltb_spec max_wait_time el) as [Hel|Hel].
  { intros [= <-]. exists k. rewrite Hobs. simpl. repeat split; auto; lia. }
  intros Hr. destruct (IH _ Hr) as (j & Hj & Hbefore & Hres).
  exists j. split; [lia|]. split; [|done].
  intros i Hi. destruct (decide (i = k)) as [->|Hne].
  - rewrite Hobs. simpl. done.
  - apply Hbefore. lia.
Qed.

Lemma wait_loop_waiting fuel observe k :
  wait_loop fuel observe k = None ->
  forall i, (i < fuel)%nat -> (observe (k + i)%nat).2 <= max_wait_time.
Proof.
  revert k. induction fuel as [|fuel IH]; intros k Hnone i Hi; [lia|].
  simpl in Hnone. destruct (observe k) as [n el] eqn:Hobs.
  case_bool_decide; [done|].
  destruct (Z.ltb_spec max_wait_time el) as [Hel|Hel]; [done|].
  destruct i as [|i].
  - rewrite Nat.add_0_r, Hobs. done.
  - rewrite <- Nat.add_succ_comm. apply IH; [done|lia].
Qed.

(** With a sleep of at least five seconds between the rounds, the wait is
    over within 362 rounds. *)
Lemma wait_loop_total observe :
  0 <= (observe O).2 ->
  (forall i, (observe i).2 + 5 <= (observe (S i)).2) ->
  is_Some (wait_loop 362 observe 0).
Proof.
  intros H0 Hstep.
  destruct (wait_loop 362 observe 0) eqn:Hw; [eauto|].
  exfalso.
  pose proof (wait_loop_waiting _ _ _ Hw 361%nat ltac:(lia)) as Hlast.
  assert (forall i, 5 * Z.of_nat i <= (observe i).2) as Hgrow.
  { induction i as [|i IHi]; [lia|]. specialize (Hstep i). lia. }
  specialize (Hgrow 361%nat). simpl in Hlast. unfold max_wait_time in *. lia.
Qed.

End Shutdown.

Section ShutdownTheorem.

(** The pass [tk] with other flags at the submission rounds. *)
Definition with_observe (tk : tick) (observe : nat -> flags) : tick :=
  mk_tick (t_job_type tk) (t_entry tk) (t_china_now tk) (t_users tk) observe
    (t_clock tk).

Lemma submit_loop_ext fuel observe observe' k q :
  (forall i, shutdown_set (observe' i) = shutdown_set (observe i)) ->
  submit_loop fuel observe' k q = submit_loop fuel observe k q.
Proof.
  intros Hext. revert k q. induction fuel as [|fuel IH]; intros k q; simpl; [done|].
  destruct (pq_get q) as [[item q']|]; [|done].
  rewrite Hext. destruct (shutdown_set (observe k)); [done|]. by rewrite IH.
Qed.

Lemma run_jobs_ignores_pause_at_rounds tk observe' w :
  (forall i, shutdown_set (observe' i) = shutdown_set (t_observe tk i)) ->
  run_jobs (with_observe tk observe') w = run_jobs tk w.
Proof.
  intros Hext. unfold run_jobs, with_observe. simpl. m_unfold.
  destruct (shutdown_set (t_entry tk)); [done|].
  destruct (paused (t_entry tk)); [done|].
  destruct (fold_m _ (t_users tk) ([], O) w) as [[[job_queue n]|e] w1]; [|done].
  simpl. destruct job_queue as [|x l]; [done|].
  match goal with
  | |- (Returned ?a, run_workers _ ?a _) = _ =>
      assert (a = submit_loop (S (length l)) (t_observe tk) 0 (x :: l)) as ->
        by apply (submit_loop_ext (S (length l)) (t_observe tk) observe' 0 (x :: l) Hext)
  end.
  reflexivity.
Qed.

(** C5, as amended. The submission loop reads the shutdown flag before each
    submission and submits nothing in or after a round that sees it set;
    the pause flag is read on entry to the pass only, so its value at the
    rounds changes nothing.  Every job that was submitted is run to its end
    (its entry leaves the active-jobs map).  At process exit, when the
    scheduler thread is still alive, the wait ends only on a round that
    finds the active-jobs map empty or more than 1800 seconds elapsed, and
    with at least five seconds between the rounds it ends within 362
    rounds; when the scheduler thread has ended there is no wait. *)
Theorem shutdown_stops_submission (tk : tick) (w : world) (submitted : list queued) :
  (run_jobs tk w).1 = Returned submitted ->
  is_Some (active_jobs w) ->
  (forall k, shutdown_set (t_observe tk k) = true -> (length submitted <= k)%nat)
  /\ (forall i, (i < length submitted)%nat -> shutdown_set (t_observe tk i) = false)
  /\ (forall observe',
        (forall i, shutdown_set (observe' i) = shutdown_set (t_observe tk i)) ->
        run_jobs (with_observe tk observe') w = run_jobs tk w)
  /\ Forall (fun item => EvActiveDel (q_execution_id item) ∈ trace (run_jobs tk w).2)
            submitted
  /\ (forall fuel observe r,
        lifespan_shutdown true fuel observe = Some r ->
        exists j,
          (forall i, (i < j)%nat ->
                     (observe i).1 <> O /\ (observe i).2 <= max_wait_time)
          /\ match r with
             | AllCompleted polls => polls = j /\ (observe j).1 = O
             | TimeoutReached polls active_count =>
                 polls = j /\ active_count = (observe j).1 /\ active_count <> O
                 /\ max_wait_time < (observe j).2
             end)
  /\ (forall observe,
        0 <= (observe O).2 ->
        (forall i, (observe i).2 + 5 <= (observe (S i)).2) ->
        is_Some (lifespan_shutdown true 362 observe))
  /\ (forall fuel observe,
        lifespan_shutdown false fuel observe = Some (AllCompleted 0)).
Proof.
  intros Hret Hact.
  assert (submitted = [] \/
          exists job_queue w1,
            same_but_table w w1
            /\ submitted = submit_loop (length job_queue) (t_observe tk) 0 job_queue
            /\ (run_jobs tk w).2 = run_workers tk submitted w1) as Hcases.
  { apply run_jobs_returned in Hret
      as [(_ & -> & _)|(_ & _ & job_queue & w1 & Hc & Hs & Hw)]; [by left|].
    right. exists job_queue, w1. apply collected_spec in Hc as (Hfr & _). auto. }
  split; [|split; [|split; [|split; [|split; [|split]]]]].
  - intros k Hk. destruct Hcases as [->|(job_queue & w1 & _ & -> & _)]; [simpl; lia|].
    by apply (submit_loop_stops _ _ 0).
  - intros i Hi. destruct Hcases as [->|(job_queue & w1 & _ & -> & _)]; [simpl in Hi; lia|].
    exact (submit_loop_clear (length job_queue) (t_observe tk) 0 job_queue i Hi).
  - intros observe' Hext. by apply run_jobs_ignores_pause_at_rounds.
  - destruct Hcases as [->|(job_queue & w1 & Hfr & _ & ->)]; [constructor|].
    apply run_workers_all_finish.
    destruct Hfr as (_ & _ & Ha & _). by rewrite Ha.
  - intros fuel observe r Hr. simpl in Hr.
    apply wait_loop_result in Hr as (j & _ & Hbefore & Hres).
    exists j. split; [|done]. intros i Hi. apply Hbefore. lia.
  - intros observe H0 Hstep. simpl. by apply wait_loop_total.
  - done.
Qed.

End ShutdownTheorem.

(** ** Shutdown scenarios *)

Module Stopping.

(** The pause flag is set, the shutdown flag is not. *)
Definition only_paused : flags := mk_flags false true.

(** Both flags are set, as after a request for shutdown. *)
Definition requested : flags := mk_flags true true.

(** A daily pass at 02:00 during which the scheduler gets paused. *)
Definition paused_mid_pass : tick :=
  with_observe (Scenario.pass_at Scenario.at_0200) (fun _ => only_paused).

(** The active-jobs map holds three jobs at every round of the wait. *)
Definition three_active : nat -> nat * Z := fun k => (3%nat, 5 * Z.of_nat k).

End Stopping.

(** The theorem at the pass of 02:00 of the scenario: the job it submitted
    has left the active-jobs map when the pass is over. *)
Lemma shutdown_stops_submission_witness :
  Forall (fun item =>
            EvActiveDel (q_execution_id item)
            ∈ trace (run_jobs (Scenario.pass_at Scenario.at_0200) Scenario.started).2)
         (match (run_jobs (Scenario.pass_at Scenario.at_0200) Scenario.started).1 with
          | Returned submitted => submitted
          | Raised _ => []
          end).
Proof.
  refine (proj1 (proj2 (proj2 (proj2
            (shutdown_stops_submission (Scenario.pass_at Scenario.at_0200)
               Scenario.started _ _ _))))).
  - vm_compute. reflexivity.
  - by eexists.
Defined.

(** A pass during which the pause flag is set at every round, the shutdown
    flag at none, submits its job all the same; and once a requested
    shutdown has ended the scheduler thread, process exit does not wait
    although three jobs are active. *)
Lemma pause_not_read_and_exit_not_blocked :
  paused (t_observe Stopping.paused_mid_pass 0) = true
  /\ (length <$> (match (run_jobs Stopping.paused_mid_pass Scenario.started).1 with
                  | Returned submitted => Some submitted
                  | Raised _ => None
                  end)) = Some 1%nat
  /\ SchedulerThread.is_alive 1 (fun _ => Stopping.requested) (fun _ w => w)
       Scenario.started = false
  /\ (Stopping.three_active 0).1 = 3%nat
  /\ lifespan_shutdown
       (SchedulerThread.is_alive 1 (fun _ => Stopping.requested) (fun _ w => w)
          Scenario.started)
       362 Stopping.three_active
     = Some (AllCompleted 0)
  /\ lifespan_shutdown true 362 Stopping.three_active
     = Some (TimeoutReached 361 3).
Proof. repeat split; vm_compute; reflexivity. Qed.

(** ** The theorems at the scenario *)

Module Instances.

(** A record of today still pending, in a table of its own. *)
Definition one_pending : world :=
  mk_world (Some {[("alice", Scenario.record_id) := Restart.pending_today]})
    Scenario.registry ∅ (Some ∅) [].

(** The initialization of the day runs at 02:30, after the job's time. *)
Definition at_0230 : datetime := mk_datetime 2026 11 4 2 30 0 0.

(** An executor that fails. *)
Definition failing_table : gmap string ((unit -> outcome unit) * string) :=
  {["boom" := (fun _ => Raised "connection reset", "always fails")]}.

(** A stand-in for the interpreter's hash of a tuple of strings. *)
Definition toy_hash (names : list string) : Z := Z.of_nat (length names).

Definition registry_ready : Requests.globals :=
  Requests.set_request_globals ∅ (Requests.mk_globals None false).

End Instances.

Example priority_of_daily_at_two :
  due_check JobType.DAILY Scenario.daily_at_two Scenario.at_0200
  = Returned (true, 120).
Proof. reflexivity. Qed.

Lemma due_predicate_exact_witness :
  should_run JobType.HOURLY Scenario.hourly_at_five
    (mk_datetime 2026 11 4 7 5 0 0) = Some true
  /\ should_run JobType.DAILY Scenario.daily_at_two Scenario.at_0201 = Some true
  /\ should_run JobType.WEEKLY
       (<["minute" := PStr "unread"]> Scenario.weekly_wednesday_two)
       Scenario.at_0200 = Some true.
Proof.
  split; [|split].
  - exact (proj1 (due_predicate_exact Scenario.hourly_at_five
                    (mk_datetime 2026 11 4 7 5 0 0)) 5 eq_refl).
  - exact (proj1 (proj2 (due_predicate_exact Scenario.daily_at_two Scenario.at_0201))
             2 0 eq_refl eq_refl).
  - exact (proj2 (proj2 (due_predicate_exact Scenario.weekly_wednesday_two
                           Scenario.at_0200))
             2 2 (PStr "unread") eq_refl eq_refl).
Defined.


Lemma worker_lifecycle_witness :
  active_jobs
    (_execute_single_job Scenario.at_0200 Scenario.at_0201 "alice" Scenario.alice
       "auto_challenge" Scenario.daily_at_two JobType.DAILY Scenario.at_0200
       Scenario.record_id Instances.one_pending)
  = Some (delete Scenario.record_id ∅).
Proof.
  refine (proj1 (worker_lifecycle Scenario.at_0200 Scenario.at_0201 "alice"
                   Scenario.alice "auto_challenge" Scenario.daily_at_two
                   JobType.DAILY Scenario.at_0200 Scenario.record_id
                   Instances.one_pending ∅
                   {[("alice", Scenario.record_id) := Restart.pending_today]}
                   Restart.pending_today _ _ _ _)).
  - reflexivity.
  - reflexivity.
  - reflexivity.
  - intros H. discriminate H.
Defined.

Lemma mark_request_active_contract_witness :
  (Requests.mark_request_active Instances.toy_hash Scenario.at_0200 "alice"
     "hall_combat" (Requests.Many ["beta"; "alpha"]) Instances.registry_ready).1
  = Returned true.
Proof.
  refine (proj1 (mark_request_active_contract Instances.toy_hash
                   Scenario.at_0200 Scenario.at_0201 Instances.at_0230
                   "alice" "hall_combat" (Requests.Many ["beta"; "alpha"])
                   Instances.registry_ready ∅ _ _)).
  - split; reflexivity.
  - reflexivity.
Defined.

Lemma execute_job_lookup_and_call_witness :
  ExecutorManager.execute_job Instances.failing_table "missing" tt
  = Raised "Executor missing not found".
Proof.
  exact (proj1 (execute_job_lookup_and_call Instances.failing_table "missing" tt)
           eq_refl).
Defined.

(** A registered executor that raises: [execute_job] raises although the id
    is registered. *)
Lemma execute_job_raises_for_registered :
  is_Some (Instances.failing_table !! "boom")
  /\ ExecutorManager.execute_job Instances.failing_table "boom" tt
     = Raised "connection reset".
Proof. split; [by eexists|reflexivity]. Qed.

Lemma update_status_frame_witness :
  exists e',
    _job_executions_table
      (update_job_execution_status Scenario.at_0200 "alice" Scenario.record_id
         "running" None Instances.one_pending)
    = Some (<[("alice", Scenario.record_id) := e']>
              {[("alice", Scenario.record_id) := Restart.pending_today]})
    /\ e_status e' = "running"
    /\ e_execution_start_time e' = Some Scenario.at_0200.
Proof.
  destruct (proj1 (update_status_frame Scenario.at_0200 "alice" Scenario.record_id
                     "running" None Instances.one_pending)
              {[("alice", Scenario.record_id) := Restart.pending_today]}
              Restart.pending_today eq_refl eq_refl)
    as (e' & Ht & _ & Hs & Hstart & _).
  exists e'. split; [exact Ht|]. split; [exact Hs|exact Hstart].
Defined.

Lemma past_jobs_assumed_completed_witness :
  exists t' e,
    _job_executions_table
      (initialize_daily_job_records Scenario.users Instances.at_0230
         (Some Instances.at_0230) Scenario.started) = Some t'
    /\ t' !! ("alice", Scenario.record_id) = Some e
    /\ assumed_completed (mk_datetime 2026 11 4 2 0 0 0) e.
Proof.
  destruct (past_jobs_assumed_completed Scenario.users Instances.at_0230
              Instances.at_0230 Scenario.started ∅)
    as (_ & _ & t' & Ht' & _ & _ & Hfiled).
  - reflexivity.
  - change (NoDup [("alice", "auto_challenge")]). apply NoDup_singleton.
  - destruct (Hfiled eq_refl "alice" Scenario.alice "auto_challenge"
                Scenario.daily_at_two 2 0 (mk_datetime 2026 11 4 2 0 0 0))
      as (e & He & _ & _ & Hpast & _).
    + by left.
    + reflexivity.
    + reflexivity.
    + by left.
    + reflexivity.
    + by left.
    + reflexivity.
    + reflexivity.
    + reflexivity.
    + reflexivity.
    + exists t', e. split; [exact Ht'|]. split; [exact He|].
      apply Hpast. reflexivity.
Defined.


(** * Further properties of the code *)

(** ** The request registry: the remaining functions of [request_utils.py] *)

Module RequestsMore.
Import Requests.

(** An item of the list [get_active_requests_for_user] returns; the
    duration is kept in microseconds. *)
Record user_request := mk_user_request {
  ur_type : string;
  ur_accounts : account_names;
  ur_start_time : datetime;
  ur_duration : Z
}.

(** The entries of [username], as [active_requests.items()] yields them. *)
Definition requests_of (username : string) (d : gmap string request_info)
    : list (string * request_info) :=
  filter (fun kv => r_username kv.2 = username) (map_to_list d).

(** [now key] is the reading of [datetime.now()] when the entry under [key]
    is visited.  The order of the items is that of [map_to_list], not the
    insertion order of the dictionary. *)
Definition get_active_requests_for_user (now : string -> datetime)
    (username : string) (g : globals) : outcome (list user_request) :=
  if negb (request_lock g) then Returned []
  else
    match active_requests g with
    | None => Raised "AttributeError"
    | Some d =>
        Returned
          ((fun kv =>
              mk_user_request (r_request_type kv.2) (r_account_names kv.2)
                (r_start_time kv.2)
                (timestamp (now kv.1) - timestamp (r_start_time kv.2)))
             <$> requests_of username d)
    end.

(** [for key in keys_to_remove: del active_requests[key]] *)
Definition delete_keys (keys_to_remove : list string) (d : gmap string request_info)
    : gmap string request_info :=
  fold_left (fun d key => delete key d) keys_to_remove d.

Definition clear_requests_for_user (username : string) (g : globals)
    : outcome unit * globals :=
  if negb (request_lock g) then (Returned tt, g)
  else
    match active_requests g with
    | None => (Raised "AttributeError", g)
    | Some d =>
        let keys_to_remove := (requests_of username d).*1 in
        (Returned tt,
         mk_globals (Some (delete_keys keys_to_remove d)) (request_lock g))
    end.

(** The endpoint [clear_active_requests] of [endpoints.py], on the
    dictionary its module global is bound to; the value is
    [cleared_count]. *)
Definition clear_active_requests (username : string) (d : gmap string request_info)
    : nat * gmap string request_info :=
  let keys_to_remove := (requests_of username d).*1 in
  (length keys_to_remove, delete_keys keys_to_remove d).

(** No [':'] in a string. *)
Fixpoint colon_free (s : string) : bool :=
  match s with
  | EmptyString => true
  | String c s' => negb (bool_decide (c = ":"%char)) && colon_free s'
  end.

End RequestsMore.

Section RegistryKeys.
Import Requests RequestsMore.
Variable py_hash : list string -> Z.

Implicit Types (d : gmap string request_info) (g : globals).

Lemma sorted_accounts_perm (names names' : list string) :
  names ≡ₚ names' ->
  merge_sort String.le names = merge_sort String.le names'.
Proof.
  intros Hp. apply (StronglySorted_unique String.le).
  - apply StronglySorted_merge_sort; apply _.
  - apply StronglySorted_merge_sort; apply _.
  - by rewrite !merge_sort_Permutation.
Qed.

Lemma get_request_key_perm username request_type (names names' : list string) :
  names ≡ₚ names' ->
  get_request_key py_hash username request_type (Many names)
  = get_request_key py_hash username request_type (Many names').
Proof.
  intros Hp. unfold get_request_key. by rewrite (sorted_accounts_perm _ _ Hp).
Qed.

(** X1. The key of a request does not depend on the order in which the
    account names are given, and a single name given as a string is the
    same request as the one-element list.  So, on an initialized registry
    with no entry under the key: once the request is marked active with
    the names in one order, [is_request_active] answers True for any other
    order, [mark_request_active] in another order is refused and changes
    nothing, and [mark_request_inactive] in another order removes the
    entry. *)
Theorem request_key_ignores_order (now now' : datetime)
    (username request_type : string) (names names' : list string) (name : string) g d :
  names ≡ₚ names' ->
  initialized g d ->
  d !! get_request_key py_hash username request_type (Many names) = None ->
  let marked := (mark_request_active py_hash now username request_type (Many names) g).2 in
  get_request_key py_hash username request_type (Many names)
  = get_request_key py_hash username request_type (Many names')
  /\ get_request_key py_hash username request_type (One name)
     = get_request_key py_hash username request_type (Many [name])
  /\ is_request_active py_hash username request_type (Many names') g = Returned false
  /\ is_request_active py_hash username request_type (Many names') marked = Returned true
  /\ mark_request_active py_hash now' username request_type (Many names') marked
     = (Returned false, marked)
  /\ active_requests
       (mark_request_inactive py_hash username request_type (Many names') marked).2
     = Some d.
Proof.
  intros Hp Hinit Hk. simpl.
  pose proof (get_request_key_perm username request_type names names' Hp) as Hkey.
  rewrite (mark_active_fresh py_hash _ _ _ _ g d Hinit Hk). simpl.
  set (key := get_request_key py_hash username request_type (Many names)) in *.
  set (d1 := <[key := mk_request_info username request_type (Many names) now]> d).
  assert (initialized (mk_globals (Some d1) true) d1) as Hinit1 by done.
  assert (is_Some (d1 !! get_request_key py_hash username request_type (Many names')))
    as Hin by (rewrite <- Hkey; unfold d1; rewrite lookup_insert_eq; eauto).
  split; [done|]. split; [done|]. split; [|split; [|split]].
  - destruct Hinit as [Hl Hd]. unfold is_request_active, contains.
    rewrite Hl, Hd. simpl. rewrite <- Hkey, Hk.
    by rewrite bool_decide_eq_false_2 by (by intros [? ?]).
  - unfold is_request_active, contains. simpl. by rewrite bool_decide_eq_true_2.
  - by rewrite (mark_active_taken py_hash _ _ _ _ _ d1 Hinit1 Hin).
  - rewrite (mark_inactive_present py_hash _ _ _ _ d1 Hinit1 Hin). simpl.
    rewrite <- Hkey. unfold d1. by rewrite delete_insert_eq, delete_id.
Qed.

Lemma colon_split (a b c e : string) :
  colon_free a = true -> colon_free b = true ->
  a +:+ ":" +:+ c = b +:+ ":" +:+ e ->
  a = b /\ c = e.
Proof.
  revert b. induction a as [|x a IH]; intros [|y b] Ha Hb Heq; simpl in *.
  - by simplify_eq.
  - by simplify_eq.
  - by simplify_eq.
  - injection Heq as -> Heq.
    apply andb_true_iff in Ha as [_ Ha]. apply andb_true_iff in Hb as [_ Hb].
    destruct (IH b Ha Hb Heq) as [-> ->]. done.
Qed.

Lemma get_request_key_inj u1 t1 a1 u2 t2 a2 :
  colon_free u1 = true -> colon_free t1 = true ->
  colon_free u2 = true -> colon_free t2 = true ->
  get_request_key py_hash u1 t1 a1 = get_request_key py_hash u2 t2 a2 ->
  u1 = u2 /\ t1 = t2.
Proof.
  intros Hu1 Ht1 Hu2 Ht2 Heq. unfold get_request_key in Heq.
  apply colon_split in Heq as [-> Heq]; [|done|done].
  apply colon_split in Heq as [-> _]; done.
Qed.

(** X2. For user names and request types without a colon the key of a
    request determines the user name and the request type.  Requests of
    different users, or of different types, therefore never block each
    other: marking one active leaves the other to be marked active, and
    releasing one leaves the other in the registry. *)
Theorem requests_of_different_users_independent (now1 now2 : datetime)
    (u1 t1 : string) (a1 : account_names) (u2 t2 : string) (a2 : account_names) g d :
  colon_free u1 = true -> colon_free t1 = true ->
  colon_free u2 = true -> colon_free t2 = true ->
  (u1, t1) <> (u2, t2) ->
  initialized g d ->
  d !! get_request_key py_hash u1 t1 a1 = None ->
  d !! get_request_key py_hash u2 t2 a2 = None ->
  let first := mark_request_active py_hash now1 u1 t1 a1 g in
  let second := mark_request_active py_hash now2 u2 t2 a2 first.2 in
  let released := mark_request_inactive py_hash u1 t1 a1 second.2 in
  get_request_key py_hash u1 t1 a1 <> get_request_key py_hash u2 t2 a2
  /\ first.1 = Returned true
  /\ second.1 = Returned true
  /\ is_request_active py_hash u1 t1 a1 released.2 = Returned false
  /\ is_request_active py_hash u2 t2 a2 released.2 = Returned true.
Proof.
  intros Hu1 Ht1 Hu2 Ht2 Hne Hinit Hk1 Hk2. simpl.
  assert (get_request_key py_hash u1 t1 a1 <> get_request_key py_hash u2 t2 a2) as Hkeys.
  { intros Heq. apply Hne.
    destruct (get_request_key_inj _ _ _ _ _ _ Hu1 Ht1 Hu2 Ht2 Heq) as [-> ->]. done. }
  set (k1 := get_request_key py_hash u1 t1 a1) in *.
  set (k2 := get_request_key py_hash u2 t2 a2) in *.
  rewrite (mark_active_fresh py_hash _ _ _ _ g d Hinit Hk1). simpl. fold k1.
  set (d1 := <[k1 := mk_request_info u1 t1 a1 now1]> d).
  assert (initialized (mk_globals (Some d1) true) d1) as Hinit1 by done.
  assert (d1 !! k2 = None) as Hk2' by (unfold d1; by rewrite lookup_insert_ne).
  rewrite (mark_active_fresh py_hash _ _ _ _ _ d1 Hinit1 Hk2'). simpl. fold k2.
  set (d2 := <[k2 := mk_request_info u2 t2 a2 now2]> d1).
  assert (initialized (mk_globals (Some d2) true) d2) as Hinit2 by done.
  assert (is_Some (d2 !! k1)) as Hin1.
  { unfold d2, d1. rewrite lookup_insert_ne by done. rewrite lookup_insert_eq. eauto. }
  rewrite (mark_inactive_present py_hash _ _ _ _ d2 Hinit2 Hin1). simpl. fold k1.
  split; [done|]. split; [done|]. split; [done|].
  unfold is_request_active, contains. simpl. fold k1 k2. split.
  - rewrite lookup_delete_eq. by rewrite bool_decide_eq_false_2 by (by intros [? ?]).
  - rewrite lookup_delete_ne by done. unfold d2. rewrite lookup_insert_eq.
    by rewrite bool_decide_eq_true_2 by eauto.
Qed.

End RegistryKeys.

(** With a colon in the names two different users can share a key. *)
Example request_key_collision (py_hash : list string -> Z) :
  Requests.get_request_key py_hash "a:b" "c" (Requests.One "x")
  = Requests.get_request_key py_hash "a" "b:c" (Requests.One "x").
Proof. reflexivity. Qed.

(** ** Clearing the requests of a user *)

Section RegistryClearing.
Import Requests RequestsMore.

Implicit Types (d : gmap string request_info) (g : globals).

Lemma elem_of_requests_of username d key info :
  (key, info) ∈ requests_of username d
  <-> d !! key = Some info /\ r_username info = username.
Proof.
  unfold requests_of. rewrite list_elem_of_filter, elem_of_map_to_list. simpl. tauto.
Qed.

Lemma NoDup_requests_of username d : NoDup (requests_of username d).
Proof. apply NoDup_filter, NoDup_map_to_list. Qed.

Lemma lookup_delete_keys keys d key :
  delete_keys keys d !! key = if decide (key ∈ keys) then None else d !! key.
Proof.
  unfold delete_keys. revert d. induction keys as [|k keys IH]; intros d; simpl.
  { destruct (decide (key ∈ [])) as [H|]; [by apply elem_of_nil in H|done]. }
  rewrite IH. destruct (decide (key ∈ keys)) as [Hin|Hnin].
  - rewrite decide_True; [done|]. by right.
  - destruct (decide (key = k)) as [->|Hne].
    + rewrite decide_True by (by left). apply lookup_delete_eq.
    + rewrite decide_False.
      * by rewrite lookup_delete_ne.
      * rewrite elem_of_cons. tauto.
Qed.

Lemma lookup_cleared username d key :
  delete_keys (requests_of username d).*1 d !! key
  = match d !! key with
    | Some info => if decide (r_username info = username) then None else Some info
    | None => None
    end.
Proof.
  rewrite lookup_delete_keys.
  destruct (d !! key) as [info|] eqn:Hk.
  - destruct (decide (r_username info = username)) as [Hu|Hu].
    + rewrite decide_True; [done|]. apply list_elem_of_fmap.
      exists (key, info). split; [done|]. by apply elem_of_requests_of.
    + rewrite decide_False; [done|]. intros Hin.
      apply list_elem_of_fmap in Hin as ([k' info'] & -> & Hin).
      apply elem_of_requests_of in Hin as [Hk' Hu']. simpl in Hk. congruence.
  - by destruct (decide _).
Qed.

Lemma requests_of_cleared username d :
  requests_of username (delete_keys (requests_of username d).*1 d) = [].
Proof.
  apply elem_of_nil_inv. intros [key info] Hin.
  apply elem_of_requests_of in Hin as [Hk Hu].
  rewrite lookup_cleared in Hk. destruct (d !! key) as [info'|]; [|done].
  destruct (decide _); [done|]. congruence.
Qed.

Lemma clear_requests_for_user_initialized username g d :
  initialized g d ->
  exists d',
    clear_requests_for_user username g = (Returned tt, mk_globals (Some d') true)
    /\ forall key info,
         d' !! key = Some info <-> d !! key = Some info /\ r_username info <> username.
Proof.
  intros [Hl Hd]. unfold clear_requests_for_user. rewrite Hl, Hd. simpl.
  eexists. split; [done|].
  intros key info. rewrite lookup_cleared.
  destruct (d !! key) as [info'|]; [|by split; [|intros []]].
  destruct (decide (r_username info' = username)) as [Hu|Hu].
  - split; [done|]. intros [[= ->] Hne]. done.
  - split; [intros [= ->]; done|]. by intros [[= ->] _].
Qed.

(** X3. On an initialized registry [clear_requests_for_user] returns
    normally and leaves exactly the entries whose user name differs from
    the given one, each as it was.  Afterwards
    [get_active_requests_for_user] yields the empty list for that user and,
    up to order, what it yielded before for every other user; clearing a
    second time changes nothing.  The endpoint [clear_active_requests]
    leaves the same dictionary and reports as [cleared_count] the number
    of items [get_active_requests_for_user] listed before. *)
Theorem clear_requests_for_user_removes_exactly (now : string -> datetime)
    (username : string) g d :
  initialized g d ->
  let r := clear_requests_for_user username g in
  exists d',
    r = (Returned tt, mk_globals (Some d') true)
    /\ (forall key info,
          d' !! key = Some info <-> d !! key = Some info /\ r_username info <> username)
    /\ get_active_requests_for_user now username r.2 = Returned []
    /\ (forall other, other <> username -> requests_of other d' ≡ₚ requests_of other d)
    /\ clear_requests_for_user username r.2 = r
    /\ (clear_active_requests username d).2 = d'
    /\ exists listed,
         get_active_requests_for_user now username g = Returned listed
         /\ (clear_active_requests username d).1 = length listed.
Proof.
  intros [Hl Hd]. simpl. unfold clear_requests_for_user. rewrite Hl, Hd. simpl.
  set (d' := delete_keys (requests_of username d).*1 d).
  assert (forall key info,
            d' !! key = Some info <-> d !! key = Some info /\ r_username info <> username)
    as Hlookup.
  { intros key info. unfold d'. rewrite lookup_cleared.
    destruct (d !! key) as [info'|]; [|by split; [|intros []]].
    destruct (decide (r_username info' = username)) as [Hu|Hu].
    - split; [done|]. intros [[= ->] Hne]. done.
    - split; [intros [= ->]; done|]. by intros [[= ->] _]. }
  exists d'. split; [done|]. split; [done|]. split; [|split; [|split; [|split]]].
  - unfold get_active_requests_for_user. simpl. unfold d'.
    by rewrite requests_of_cleared.
  - intros other Hother. apply NoDup_Permutation; try apply NoDup_requests_of.
    intros [key info]. rewrite !elem_of_requests_of, Hlookup.
    split; [tauto|]. intros [Hk Hu]. split; [|done]. split; [done|]. congruence.
  - unfold d'. rewrite requests_of_cleared. done.
  - done.
  - unfold get_active_requests_for_user. rewrite Hl, Hd. simpl.
    eexists. split; [done|]. by rewrite !length_fmap.
Qed.

End RegistryClearing.

(** ** Saving job settings ([set_job_settings] of [endpoints.py]) *)

Module Endpoints.

(** What names the failure of a request; the text of the [detail] of an
    [HTTPException] is built from these. *)
Inductive detail :=
| UsernameRequired
| AdminAccessRequired
| MissingField (field job_kind job_id : string)
| InvalidField (field job_kind job_id : string)
| Failure (error : string).

(** An endpoint returns a value or raises [HTTPException(status_code, detail)]. *)
Inductive http (A : Type) :=
| Ok (a : A)
| HTTPException (status_code : Z) (d : detail).
Arguments Ok {A} a.
Arguments HTTPException {A} status_code d.

(** The table [herousers], keyed by (PartitionKey, RowKey); of a row the
    model keeps what the scheduler reads. *)
Abbreviation users_rows := (gmap (string * string) user_settings_data).

(** [int(v)] inside [try ... except (ValueError, TypeError)], followed by
    the range check: both failures raise the same 400. *)
Definition checked_int (field job_kind job_id : string) (v : pyval) (lo hi : Z)
    : http Z :=
  match int v with
  | Returned n =>
      if (n <? lo) || (hi <? n)
      then HTTPException 400 (InvalidField field job_kind job_id)
      else Ok n
  | Raised _ => HTTPException 400 (InvalidField field job_kind job_id)
  end.

Definition http_bind {A B} (x : http A) (k : A -> http B) : http B :=
  match x with
  | Ok a => k a
  | HTTPException c d => HTTPException c d
  end.

(** The two [if settings['type'] == ...] blocks of the validation loop. *)
Definition validate_daily (job_id : string) (settings : job_config) : http unit :=
  match get settings "hour" with
  | PNone => HTTPException 400 (MissingField "hour" "daily" job_id)
  | hour =>
      http_bind (checked_int "hour" "daily" job_id hour 0 23) (fun _ =>
      http_bind (checked_int "minute" "daily" job_id
                   (get_or settings "minute" (PInt 0)) 0 59) (fun _ =>
      Ok tt))
  end.

Definition validate_weekly (job_id : string) (settings : job_config) : http unit :=
  match get settings "day_of_week" with
  | PNone => HTTPException 400 (MissingField "day_of_week" "weekly" job_id)
  | day_of_week =>
      http_bind (checked_int "day_of_week" "weekly" job_id day_of_week 0 6) (fun _ =>
      match get settings "hour" with
      | PNone => HTTPException 400 (MissingField "hour" "weekly" job_id)
      | hour =>
          http_bind (checked_int "hour" "weekly" job_id hour 0 23) (fun _ => Ok tt)
      end)
  end.

(** The body of [for job_id, settings in job_settings.items()];
    [settings['type']] on a dictionary without the key raises [KeyError],
    which the outer handler turns into a 500. *)
Definition validate_job (job : string * job_config) : http unit :=
  match job.2 !! "type" with
  | None => HTTPException 500 (Failure "KeyError")
  | Some type =>
      http_bind (if eq_str type "daily" then validate_daily job.1 job.2 else Ok tt)
        (fun _ => if eq_str type "weekly" then validate_weekly job.1 job.2 else Ok tt)
  end.

Fixpoint validate_job_settings (job_settings : list (string * job_config)) : http unit :=
  match job_settings with
  | [] => Ok tt
  | job :: rest => http_bind (validate_job job) (fun _ => validate_job_settings rest)
  end.

(** The body of the request: [username], [job_settings] (default [{}]) and
    [job_scheduling_enabled] (default [True]). *)
Record job_settings_data := mk_job_settings_data {
  jd_username : option string;
  jd_job_settings : list (string * job_config);
  jd_job_scheduling_enabled : option pyval
}.

(** [users_table.get_entity(current_user, '0')] has [user_type] admin *)
Definition admin_in (t : users_rows) (current_user : string) : bool :=
  match t !! (current_user, "0") with
  | Some row => is_admin row
  | None => false
  end.

(** [set_job_settings]; the value on success is [saved_settings]. *)
Definition set_job_settings (data : job_settings_data) (current_user : string)
    (t : users_rows) : http (list (string * job_config)) * users_rows :=
  match jd_username data with
  | None => (HTTPException 400 UsernameRequired, t)
  | Some username =>
      if bool_decide (username = "") then (HTTPException 400 UsernameRequired, t)
      else if negb (bool_decide (username = current_user)) && negb (admin_in t current_user)
      then (HTTPException 403 AdminAccessRequired, t)
      else
        match validate_job_settings (jd_job_settings data) with
        | HTTPException c d => (HTTPException c d, t)
        | Ok _ =>
            let user_entity :=
              default (mk_user_settings None None []) (t !! (username, "0")) in
            (Ok (jd_job_settings data),
             <[(username, "0") :=
                 mk_user_settings (user_type user_entity)
                   (Some (default (PBool true) (jd_job_scheduling_enabled data)))
                   (jd_job_settings data)]> t)
        end
  end.

End Endpoints.

Section ValidatedSettings.
Import Endpoints.

Lemma checked_int_ok field job_kind job_id v lo hi n :
  checked_int field job_kind job_id v lo hi = Ok n ->
  int v = Returned n /\ lo <= n <= hi.
Proof.
  unfold checked_int. destruct (int v) as [m|]; [|done].
  destruct ((m <? lo) || (hi <? m)) eqn:Hr; [done|].
  intros [= ->]. split; [done|]. lia.
Qed.

Lemma http_bind_ok {A B} (x : http A) (k : A -> http B) b :
  http_bind x k = Ok b -> exists a, x = Ok a /\ k a = Ok b.
Proof. destruct x; [eauto|done]. Qed.

(** An accepted daily job has an hour in 0..23 and a minute in 0..59 that
    the scheduler reads as the validation did. *)
Lemma validate_job_daily job :
  validate_job job = Ok tt ->
  eq_str (get job.2 "type") JobType.DAILY = true ->
  exists h m,
    int (get job.2 "hour") = Returned h /\ 0 <= h <= 23
    /\ int (get_or job.2 "minute" (PStr "0")) = Returned m /\ 0 <= m <= 59.
Proof.
  unfold validate_job, get at 1. destruct (job.2 !! "type") as [type|] eqn:Hty; [|done].
  simpl. intros Hv Hd. unfold JobType.DAILY in Hd. rewrite Hd in Hv.
  apply http_bind_ok in Hv as ([] & Hv & _).
  unfold validate_daily in Hv.
  assert (http_bind (checked_int "hour" "daily" job.1 (get job.2 "hour") 0 23)
            (fun _ => http_bind (checked_int "minute" "daily" job.1
                                   (get_or job.2 "minute" (PInt 0)) 0 59)
                        (fun _ => Ok tt)) = Ok tt) as Hv'.
  { destruct (get job.2 "hour"); done. }
  apply http_bind_ok in Hv' as (h & Hh & Hv').
  apply http_bind_ok in Hv' as (m & Hm & _).
  apply checked_int_ok in Hh as [Hh Hhr], Hm as [Hm Hmr].
  exists h, m. split; [done|]. split; [done|]. split; [|done].
  unfold get_or in *. destruct (job.2 !! "minute"); [done|].
  simpl in *. injection Hm as <-. done.
Qed.

Lemma validate_job_settings_elem job_settings job :
  validate_job_settings job_settings = Ok tt ->
  job ∈ job_settings ->
  validate_job job = Ok tt.
Proof.
  induction job_settings as [|j rest IH]; intros Hv Hin.
  { by apply elem_of_nil in Hin. }
  simpl in Hv. apply http_bind_ok in Hv as ([] & Hj & Hrest).
  apply elem_of_cons in Hin as [->|Hin]; [done|by apply IH].
Qed.

(** A loop whose body returns on every element returns. *)
Lemma fold_m_returns {A S} (f : S -> A -> M S) (l : list A) :
  (forall x, x ∈ l -> forall s w, exists s' w', f s x w = (Returned s', w')) ->
  forall s w, exists s' w', fold_m f l s w = (Returned s', w').
Proof.
  induction l as [|x l IH]; intros Hbody s w; simpl.
  { by exists s, w. }
  m_unfold.
  destruct (Hbody x (list_elem_of_here _ _) s w) as (s1 & w1 & ->).
  apply IH. intros y Hy. apply Hbody. by right.
Qed.

(** A loop raises when the body raises on some element whatever the
    state it is reached in. *)
Lemma fold_m_raises {A S} (f : S -> A -> M S) (l : list A) (x : A) :
  x ∈ l ->
  (forall s w, exists e w', f s x w = (Raised e, w')) ->
  forall s w, exists e w', fold_m f l s w = (Raised e, w').
Proof.
  intros Hin Hbody. induction l as [|y l IH]; intros s w.
  { by apply elem_of_nil in Hin. }
  simpl. m_unfold.
  destruct (f s y w) as [[s1|e] w1] eqn:Hy.
  - apply elem_of_cons in Hin as [->|Hin]; [|by apply IH].
    destruct (Hbody s w) as (e & w' & He). congruence.
  - by exists e, w1.
Qed.

Lemma collect_job_validated china_now username usd acc job w :
  0 <= minute china_now <= 59 ->
  0 <= second china_now <= 59 -> 0 <= microsecond china_now <= 999999 ->
  validate_job job = Ok tt ->
  exists acc' w',
    collect_job JobType.DAILY china_now username usd acc job w = (Returned acc', w').
Proof.
  intros Hmin Hsec Hus Hv. unfold collect_job.
  destruct (eq_str (get job.2 "type") JobType.DAILY) eqn:Hty; simpl; [|by eexists _, _].
  destruct (enabled job.2); simpl; [|by eexists _, _].
  destruct (validate_job_daily job Hv Hty) as (h & m & Hh & Hhr & Hm & Hmr).
  m_unfold. unfold due_check. simpl. rewrite Hh, Hm. simpl.
  destruct (bool_decide (hour china_now = h)
            && (bool_decide (minute china_now = m)
                || bool_decide (minute china_now = m + 1))) eqn:Hdue;
    simpl; [|by eexists _, _].
  destruct (_has_job_executed_today w username job.1 china_now); simpl;
    [by eexists _, _|].
  apply andb_true_iff in Hdue as [Hhour _]. apply bool_decide_eq_true in Hhour.
  unfold scheduled_time_of. simpl. unfold replace at 2. simpl.
  assert ((0 <=? hour china_now) && (hour china_now <=? 23) = true) as -> by lia.
  assert ((0 <=? minute china_now) && (minute china_now <=? 59) = true) as -> by lia.
  simpl. rewrite Hh, Hm. simpl.
  unfold replace. simpl.
  assert ((0 <=? h) && (h <=? 23) = true) as -> by lia.
  assert ((0 <=? m) && (m <=? 59) = true) as -> by lia.
  simpl.
  destruct (ensure_record_frame username job.1 JobType.DAILY
              (mk_datetime (year china_now) (month china_now) (day china_now) h m 0 0) w)
    as [_ Hid].
  destruct (ensure_record username job.1 JobType.DAILY _ w) as [r w1] eqn:He.
  simpl in Hid. subst r. simpl.
  destruct (bool_decide (generate_execution_id job.1 _ = "")); by eexists _, _.
Qed.

(** X4. [set_job_settings] stores the settings only when every job in them
    passes the validation loop, and then stores them as given under the
    row of the user; a request that is refused leaves the table as it
    was.  Settings that pass the loop never make a daily pass
    raise: with a clock reading whose fields are in range, [run_jobs] for
    daily jobs returns whatever the users are, as long as the job settings
    of each of them pass the loop. *)
Theorem validated_settings_never_abort_daily_pass (tk : tick) (w : world) :
  t_job_type tk = JobType.DAILY ->
  0 <= minute (t_china_now tk) <= 59 ->
  0 <= second (t_china_now tk) <= 59 ->
  0 <= microsecond (t_china_now tk) <= 999999 ->
  Forall (fun user => validate_job_settings (job_settings user.2) = Ok tt) (t_users tk) ->
  (exists submitted, (run_jobs tk w).1 = Returned submitted)
  /\ (forall data current_user t saved,
        (set_job_settings data current_user t).1 = Ok saved ->
        saved = jd_job_settings data
        /\ validate_job_settings saved = Ok tt
        /\ exists username,
             jd_username data = Some username
             /\ job_settings
                  <$> ((set_job_settings data current_user t).2 !! (username, "0"))
                = Some saved)
  /\ (forall data current_user t status_code d,
        (set_job_settings data current_user t).1 = HTTPException status_code d ->
        (set_job_settings data current_user t).2 = t).
Proof.
  intros Hty Hmin Hsec Hus Hval. split; [|split].
  - unfold run_jobs. m_unfold.
    destruct (shutdown_set (t_entry tk)); simpl; [by eexists|].
    destruct (paused (t_entry tk)); simpl; [by eexists|].
    destruct (fold_m_returns (collect_user (t_job_type tk) (t_china_now tk)) (t_users tk))
      with (s := (@nil queued, O)) (w := w) as (acc & w1 & ->).
    { intros user Huser acc w0. rewrite Forall_forall in Hval.
      specialize (Hval user Huser). unfold collect_user.
      destruct (is_admin user.2); [by eexists _, _|].
      destruct (negb (scheduling_enabled user.2)); [by eexists _, _|].
      apply fold_m_returns. intros job Hjob acc1 w2. rewrite Hty.
      apply collect_job_validated; try done.
      by apply (validate_job_settings_elem (job_settings user.2)). }
    destruct acc.1; simpl; by eexists.
  - intros data current_user t saved. unfold set_job_settings.
    destruct (jd_username data) as [username|]; [|done].
    case_bool_decide; [done|].
    destruct (negb (bool_decide (username = current_user)) && negb (admin_in t current_user));
      [done|].
    destruct (validate_job_settings (jd_job_settings data)) as [[]|] eqn:Hv; [|done].
    simpl. intros [= <-]. split; [done|]. split; [done|].
    exists username. split; [done|]. by rewrite lookup_insert_eq.
  - intros data current_user t status_code d. unfold set_job_settings.
    destruct (jd_username data) as [username|]; [|done].
    case_bool_decide; [done|].
    destruct (negb (bool_decide (username = current_user)) && negb (admin_in t current_user));
      [done|].
    by destruct (validate_job_settings (jd_job_settings data)).
Qed.

(** X5. One unreadable setting stops a whole pass.  When a user who is not
    an admin and has scheduling enabled holds an enabled job of the type
    of the pass whose due check raises (an hour, minute or day that
    [int()] cannot convert), [run_jobs] raises for that pass, whoever the
    other users are: no job of any user is submitted, no executor is
    called, and the tracker and the active-jobs map stay as they were. *)
Theorem unreadable_setting_aborts_pass (tk : tick) (w : world)
    (username : string) (usd : user_settings_data)
    (job_id : string) (job_config : job_config) (error : string) :
  shutdown_set (t_entry tk) = false ->
  paused (t_entry tk) = false ->
  (username, usd) ∈ t_users tk ->
  is_admin usd = false ->
  scheduling_enabled usd = true ->
  (job_id, job_config) ∈ job_settings usd ->
  eq_str (get job_config "type") (t_job_type tk) = true ->
  enabled job_config = true ->
  due_check (t_job_type tk) job_config (t_china_now tk) = Raised error ->
  (exists e, (run_jobs tk w).1 = Raised e)
  /\ calls (trace (run_jobs tk w).2) = calls (trace w)
  /\ trace (run_jobs tk w).2 = trace w
  /\ job_execution_tracker (run_jobs tk w).2 = job_execution_tracker w
  /\ active_jobs (run_jobs tk w).2 = active_jobs w.
Proof.
  intros Hsd Hp Huser Hadm Hen Hjob Hty Henabled Hdue.
  assert (exists e, (run_jobs tk w).1 = Raised e) as [e He].
  { unfold run_jobs. m_unfold. rewrite Hsd, Hp.
    destruct (fold_m_raises (collect_user (t_job_type tk) (t_china_now tk))
                (t_users tk) (username, usd) Huser)
      with (s := (@nil queued, O)) (w := w) as (e & w1 & ->).
    { intros acc w0. unfold collect_user. simpl. rewrite Hadm, Hen. simpl.
      apply (fold_m_raises _ _ (job_id, job_config) Hjob).
      intros acc1 w2. unfold collect_job. simpl. rewrite Hty, Henabled. simpl.
      m_unfold. rewrite Hdue. by eexists _, _. }
    by exists e. }
  split; [by exists e|].
  destruct (run_jobs_raised tk w e He) as (_ & Htr & Haj & Htrace).
  rewrite Htrace. done.
Qed.

End ValidatedSettings.

(** ** The ledger: the remaining queries of [job_execution_tracker.py] *)

Module LedgerMore.

(** The query [status eq 'running'] *)
Definition get_active_jobs_from_db (w : world) : list (row_key * entity) :=
  match _job_executions_table w with
  | None => []
  | Some t => filter (fun kv => e_status kv.2 = "running") (map_to_list t)
  end.

End LedgerMore.

Section RecoveryComplete.
Import LedgerMore.

Lemma updated_entity_status now status error_message e :
  e_status (updated_entity now status error_message e) = status.
Proof. apply (updated_entity_spec now status error_message e). Qed.

Lemma recovered_entity_status env ex k e :
  e_status (recovered_entity env ex k e) = "completed"
  \/ e_status (recovered_entity env ex k e) = "failed".
Proof.
  unfold recovered_entity.
  destruct (is_stuck (s_china_now env) e).
  { right. by rewrite updated_entity_status. }
  destruct (ex !! e_job_id e) as [[f name]|]; simpl.
  - destruct (f k.1 ∅); [by left|by right].
  - by right.
Qed.

Lemma not_missed_when_finished now e :
  e_status e = "completed" \/ e_status e = "failed" -> is_missed now e = false.
Proof.
  intros Hs. unfold is_missed.
  rewrite bool_decide_eq_false_2; [done|].
  intros [Hp|Hr]; destruct Hs as [Hs|Hs]; rewrite Hs in *; discriminate.
Qed.

(** X6. Start-up recovery is complete.  In the production environment,
    when records of the current day exist, the state [lifespan] leaves
    behind holds no missed job any more: [get_missed_jobs], asked for the
    same instant, returns the empty list.  Every record that was not a
    missed job is left as it was, and a record that [get_active_jobs_from_db]
    still reports as running is such an untouched record. *)
Theorem startup_recovery_leaves_nothing_missed (env : startup)
    (ex : gmap string (callable * string)) :
  s_production env = true ->
  check_job_records_exist_for_date (s_china_now env)
    (initialize_job_executions_table (s_storage env) (fresh_process ex)) = true ->
  let w' := lifespan_startup env (fresh_process ex) in
  get_missed_jobs (s_missed_now env) w' = []
  /\ (forall k e,
        s_storage env !! k = Some e ->
        is_missed (s_missed_now env) e = false ->
        (_job_executions_table w' ≫= fun t => t !! k) = Some e)
  /\ (forall k e,
        (k, e) ∈ get_active_jobs_from_db w' ->
        s_storage env !! k = Some e /\ is_missed (s_missed_now env) e = false).
Proof.
  intros Hprod Hexist. simpl.
  unfold lifespan_startup. rewrite Hprod.
  unfold fresh_process, initialize_job_executions_table in *. simpl in *.
  unfold check_job_records_exist_for_date in *. simpl in *.
  rewrite Hexist. simpl.
  set (w2 := set_active_jobs (set_table (mk_world None ex ∅ None []) (Some (s_storage env)))
               (Some ∅)).
  destruct (get_missed_jobs_spec (s_missed_now env) w2 (s_storage env) eq_refl)
    as [Hnd Hmem].
  destruct (recover_all env (get_missed_jobs (s_missed_now env) w2) w2 (s_storage env)
              eq_refl Hnd) as (t' & Ht' & Hother & Hrows & _).
  { intros [k0 e0] Hkv. by apply Hmem in Hkv as [? _]. }
  set (w' := fold_left (recover env) (get_missed_jobs (s_missed_now env) w2) w2) in *.
  assert (forall k e', t' !! k = Some e' ->
            is_missed (s_missed_now env) e' = false
            /\ (e_status e' = "running" -> s_storage env !! k = Some e')) as Hrow.
  { intros k e' Hk.
    destruct (decide (k ∈ (get_missed_jobs (s_missed_now env) w2).*1)) as [Hin|Hnin].
    - apply list_elem_of_fmap in Hin as ([k0 e0] & -> & Hin).
      rewrite (Hrows _ Hin) in Hk. injection Hk as <-.
      pose proof (recovered_entity_status env ex k0 e0) as Hst.
      split; [by apply not_missed_when_finished|].
      intros Hrun. destruct Hst as [Hst|Hst]; rewrite Hst in Hrun; discriminate.
    - rewrite (Hother _ Hnin) in Hk. split; [|done].
      destruct (is_missed (s_missed_now env) e') eqn:Hm; [|done].
      exfalso. apply Hnin. apply list_elem_of_fmap.
      exists (k, e'). split; [done|]. by apply Hmem. }
  split; [|split].
  - unfold get_missed_jobs. rewrite Ht'.
    apply elem_of_nil_inv. intros [k e'] Hin.
    apply list_elem_of_filter in Hin as [Hm Hin]. simpl in Hm.
    apply elem_of_map_to_list in Hin.
    destruct (Hrow k e' Hin) as [Hnot _]. congruence.
  - intros k e Hk Hm. rewrite Ht'. simpl. rewrite Hother; [done|].
    intros Hin. apply list_elem_of_fmap in Hin as ([k0 e0] & -> & Hin).
    apply Hmem in Hin as [Hk0 Hm0]. simpl in *. congruence.
  - intros k e Hin. unfold get_active_jobs_from_db in Hin. rewrite Ht' in Hin.
    apply list_elem_of_filter in Hin as [Hrun Hin]. simpl in Hrun.
    apply elem_of_map_to_list in Hin.
    destruct (Hrow k e Hin) as [Hnot Hkeep]. split; [by apply Hkeep|done].
Qed.

End RecoveryComplete.

(** ** The calendar *)

Section Calendar.

(** The dates a [datetime] object can hold. *)
Definition valid_date (t : datetime) : Prop :=
  1 <= month t <= 12 /\ 1 <= day t <= days_in_month (year t) (month t).

(** The times of day a [datetime] object can hold. *)
Definition valid_time (t : datetime) : Prop :=
  0 <= hour t <= 23 /\ 0 <= minute t <= 59
  /\ 0 <= second t <= 59 /\ 0 <= microsecond t <= 999999.

Lemma days_before_year_succ (y : Z) :
  days_before_year (y + 1) = days_before_year y + 365 + (if is_leap y then 1 else 0).
Proof.
  unfold days_before_year, is_leap.
  replace (y + 1 - 1) with y by lia.
  pose proof (Z.div_mod y 4 ltac:(lia)). pose proof (Z.mod_pos_bound y 4 ltac:(lia)).
  pose proof (Z.div_mod (y - 1) 4 ltac:(lia)). pose proof (Z.mod_pos_bound (y - 1) 4 ltac:(lia)).
  pose proof (Z.div_mod y 100 ltac:(lia)). pose proof (Z.mod_pos_bound y 100 ltac:(lia)).
  pose proof (Z.div_mod (y - 1) 100 ltac:(lia)). pose proof (Z.mod_pos_bound (y - 1) 100 ltac:(lia)).
  pose proof (Z.div_mod y 400 ltac:(lia)). pose proof (Z.mod_pos_bound y 400 ltac:(lia)).
  pose proof (Z.div_mod (y - 1) 400 ltac:(lia)). pose proof (Z.mod_pos_bound (y - 1) 400 ltac:(lia)).
  destruct (Z.eqb_spec (y mod 4) 0), (Z.eqb_spec (y mod 100) 0),
    (Z.eqb_spec (y mod 400) 0); simpl; lia.
Qed.

Lemma month_cases (m : Z) :
  1 <= m <= 12 ->
  m = 1 \/ m = 2 \/ m = 3 \/ m = 4 \/ m = 5 \/ m = 6
  \/ m = 7 \/ m = 8 \/ m = 9 \/ m = 10 \/ m = 11 \/ m = 12.
Proof. lia. Qed.

(** [t + timedelta(days=1)] is the day after [t]. *)
Lemma toordinal_plus_one_day (t : datetime) :
  valid_date t -> toordinal (plus_one_day t) = toordinal t + 1.
Proof.
  intros [Hm Hd]. unfold plus_one_day.
  destruct (Z.ltb_spec (day t) (days_in_month (year t) (month t))) as [Hlt|Hge].
  { unfold toordinal. simpl. lia. }
  assert (day t = days_in_month (year t) (month t)) as Hday by lia.
  destruct (Z.ltb_spec (month t) 12) as [Hm12|Hm12].
  - unfold toordinal. simpl. rewrite Hday.
    unfold days_in_month, days_before_month.
    destruct (month_cases _ Hm) as [H|[H|[H|[H|[H|[H|[H|[H|[H|[H|[H|H]]]]]]]]]]];
      rewrite H; destruct (is_leap (year t)); simpl; lia.
  - assert (month t = 12) as H12 by lia.
    unfold toordinal. simpl. rewrite days_before_year_succ, Hday, H12.
    unfold days_in_month, days_before_month.
    destruct (is_leap (year t)); simpl; lia.
Qed.

Lemma timestamp_fields (t : datetime) :
  timestamp t
  = toordinal t * 86400000000 + hour t * 3600000000 + minute t * 60000000
    + second t * 1000000 + microsecond t.
Proof. unfold timestamp. lia. Qed.

(** The date on which a valid instant falls is the day its ordinal names. *)
Lemma timestamp_day_bounds (t : datetime) :
  valid_time t ->
  toordinal t * 86400000000 <= timestamp t < (toordinal t + 1) * 86400000000.
Proof. intros (Hh & Hm & Hs & Hus). rewrite timestamp_fields. lia. Qed.

Lemma toordinal_midnight (t : datetime) : toordinal (midnight t) = toordinal t.
Proof. reflexivity. Qed.

Lemma timestamp_midnight (t : datetime) :
  timestamp (midnight t) = toordinal t * 86400000000.
Proof. rewrite timestamp_fields. unfold midnight, toordinal. simpl. lia. Qed.

End Calendar.

(** ** The start-of-day job ([initialize_daily_job_records_job]) *)

Module SchedulerJobs.

(** [initialize_daily_job_records_job] of [job_scheduler.py], scheduled for
    00:00; [china_now] is its own reading of the clock, [init_now] the one
    [initialize_daily_job_records] takes, and [job_scheduler_available]
    tells whether the module [main] holds a scheduler. *)
Definition initialize_daily_job_records_job (job_scheduler_available : bool)
    (users : list (string * user_settings_data))
    (china_now init_now : datetime) (w : world) : world :=
  let w1 := cleanup_old_job_records china_now (Some (midnight china_now)) w in
  if job_scheduler_available
  then initialize_daily_job_records users init_now (Some china_now) w1
  else w1.

End SchedulerJobs.

Section StartOfDay.
Import SchedulerJobs.

(** From [w] to [w'] the table has only gained rows, each of them with the
    property [P], and nothing else has changed. *)
Definition grown (P : entity -> Prop) (w w' : world) : Prop :=
  same_but_table w w'
  /\ forall t, _job_executions_table w = Some t ->
       exists t',
         _job_executions_table w' = Some t'
         /\ (forall k e, t !! k = Some e -> t' !! k = Some e)
         /\ (forall k e, t' !! k = Some e -> t !! k = Some e \/ P e).

Lemma same_but_table_reflexive w : same_but_table w w.
Proof. by repeat split. Qed.

Lemma same_but_table_transitive w1 w2 w3 :
  same_but_table w1 w2 -> same_but_table w2 w3 -> same_but_table w1 w3.
Proof.
  intros (H1 & H2 & H3 & H4) (H5 & H6 & H7 & H8). repeat split; congruence.
Qed.

Lemma grown_refl P w : grown P w w.
Proof.
  split; [apply same_but_table_reflexive|]. intros t Ht. exists t. auto.
Qed.

Lemma grown_trans P w1 w2 w3 :
  grown P w1 w2 -> grown P w2 w3 -> grown P w1 w3.
Proof.
  intros [Hf1 H1] [Hf2 H2]. split; [by eapply same_but_table_transitive|].
  intros t Ht. destruct (H1 t Ht) as (t2 & Ht2 & Hk2 & Hn2).
  destruct (H2 t2 Ht2) as (t3 & Ht3 & Hk3 & Hn3).
  exists t3. split; [done|]. split; [auto|].
  intros k e Hk. destruct (Hn3 k e Hk) as [Hold|Hnew]; auto.
Qed.

Lemma for_each_grown {A} P (body : A -> M unit) (l : list A) :
  (forall x w, grown P w (body x w).2) ->
  forall w, grown P w (for_each l body w).2.
Proof.
  intros Hbody. induction l as [|x l IH]; intros w; simpl.
  { apply grown_refl. }
  m_unfold. pose proof (Hbody x w) as Hx.
  destruct (body x w) as [[[]|e] w1]; simpl in *; [|done].
  eapply grown_trans; [exact Hx|apply IH].
Qed.

Lemma not_before_midnight (target st : datetime) :
  0 <= hour st -> 0 <= minute st -> 0 <= second st -> 0 <= microsecond st ->
  toordinal target <= toordinal st ->
  ltb st (midnight target) = false.
Proof.
  intros Hh Hm Hs Hus Hord. unfold ltb.
  rewrite timestamp_midnight, (timestamp_fields st). lia.
Qed.

Lemma replace_not_before (base target : datetime) (h m : Z) (st : datetime) :
  toordinal target <= toordinal base ->
  replace base (Some h) (Some m) (Some 0) (Some 0) = Returned st ->
  ltb st (midnight target) = false.
Proof.
  intros Hord Hst. apply replace_returned in Hst as (-> & Hh & Hm). simpl in *.
  apply not_before_midnight; simpl; try lia. exact Hord.
Qed.

Lemma day_entity_scheduled_time china_now job_id job_type st :
  e_scheduled_time (day_entity china_now job_id job_type st) = Some st.
Proof. unfold day_entity. by destruct (ltb st china_now). Qed.

(** No row the initialization plans is scheduled before the target day. *)
Lemma planned_row_not_before china_now target_date job row :
  valid_date target_date ->
  planned_row china_now target_date job = Returned (Some row) ->
  scheduled_before (midnight target_date) row.2 = false.
Proof.
  intros Hvalid. unfold planned_row.
  destruct (negb (enabled job.2)); [done|].
  destruct (eq_str (get job.2 "type") "daily").
  { destruct (int (get_or job.2 "hour" (PInt 0))) as [h|]; simpl; [|done].
    destruct (int (get_or job.2 "minute" (PInt 0))) as [m|]; simpl; [|done].
    destruct (replace target_date _ _ _ _) as [st|] eqn:Hst; simpl; [|done].
    intros [= <-]. simpl. unfold scheduled_before.
    rewrite day_entity_scheduled_time.
    by apply (replace_not_before target_date target_date h m). }
  destruct (eq_str (get job.2 "type") "hourly").
  { destruct (int (get_or job.2 "minute" (PInt 0))) as [m|]; simpl; [|done].
    destruct (if m <=? minute china_now then _ else _) as [st|] eqn:Hst; simpl; [|done].
    intros [= <-]. simpl. unfold scheduled_before. simpl.
    destruct (m <=? minute china_now).
    - destruct (24 <=? hour china_now + 1).
      + apply (replace_not_before (plus_one_day target_date) target_date 0 m); [|done].
        rewrite toordinal_plus_one_day by done. lia.
      + by apply (replace_not_before target_date target_date (hour china_now + 1) m).
    - by apply (replace_not_before target_date target_date (hour china_now) m). }
  destruct (eq_str (get job.2 "type") "weekly"); [|done].
  destruct (int (get_or job.2 "day_of_week" (PInt 0))) as [d|]; simpl; [|done].
  destruct (int (get_or job.2 "hour" (PInt 0))) as [h|]; simpl; [|done].
  destruct (int (get_or job.2 "minute" (PInt 0))) as [m|]; simpl; [|done].
  case_bool_decide; [|done].
  destruct (replace target_date _ _ _ _) as [st|] eqn:Hst; simpl; [|done].
  intros [= <-]. simpl. unfold scheduled_before.
  rewrite day_entity_scheduled_time.
  by apply (replace_not_before target_date target_date h m).
Qed.

Lemma set_table_same_but_table w t : same_but_table w (set_table w t).
Proof. by repeat split. Qed.

Lemma init_job_grown (P : entity -> Prop) china_now target_date username job w :
  (forall row, planned_row china_now target_date job = Returned (Some row) -> P row.2) ->
  grown P w (init_job china_now target_date username job w).2.
Proof.
  intros Hplanned.
  destruct (_job_executions_table w) as [t|] eqn:Ht.
  - rewrite (init_job_planned _ _ _ _ _ t Ht).
    destruct (planned_row china_now target_date job) as [[row|]|e] eqn:Hrow;
      simpl; try apply grown_refl.
    split; [apply set_table_same_but_table|].
    intros t0 Ht0. rewrite Ht in Ht0. injection Ht0 as <-.
    eexists. split; [done|]. unfold put_new.
    destruct (t !! (username, row.1)) eqn:Hk; [auto|].
    split.
    + intros k e Hke. rewrite lookup_insert_ne; [done|]. congruence.
    + intros k e Hke. destruct (decide (k = (username, row.1))) as [->|Hne].
      * rewrite lookup_insert_eq in Hke. injection Hke as <-. right.
        by apply Hplanned.
      * rewrite lookup_insert_ne in Hke by done. by left.
  - split; [|intros t Ht'; congruence].
    destruct job as [job_id job_config]. unfold init_job.
    destruct (negb (enabled job_config)); [done|].
    assert (forall e, same_but_table w (create_unless_exists username
                                           (generate_execution_id job_id e.1) e.2 w).2)
      as Hcreate.
    { intros e. unfold create_unless_exists, record_exists, upsert_entity.
      rewrite Ht. done. }
    destruct (eq_str (get job_config "type") "daily").
    { unfold init_daily. m_unfold.
      destruct (int (get_or job_config "hour" (PInt 0))); simpl; [|done].
      destruct (int (get_or job_config "minute" (PInt 0))); simpl; [|done].
      destruct (replace target_date _ _ _ _) as [st|]; simpl; [|done].
      apply (Hcreate (st, _)). }
    destruct (eq_str (get job_config "type") "hourly").
    { unfold init_hourly. m_unfold.
      destruct (int (get_or job_config "minute" (PInt 0))); simpl; [|done].
      destruct (if _ <=? minute china_now then _ else _) as [st|]; simpl; [|done].
      apply (Hcreate (st, _)). }
    destruct (eq_str (get job_config "type") "weekly"); [|done].
    unfold init_weekly. m_unfold.
    destruct (int (get_or job_config "day_of_week" (PInt 0))); simpl; [|done].
    destruct (int (get_or job_config "hour" (PInt 0))); simpl; [|done].
    destruct (int (get_or job_config "minute" (PInt 0))); simpl; [|done].
    case_bool_decide; [|done].
    destruct (replace target_date _ _ _ _) as [st|]; simpl; [|done].
    apply (Hcreate (st, _)).
Qed.

Lemma init_user_grown (P : entity -> Prop) china_now target_date user w :
  (forall job row,
     planned_row china_now target_date job = Returned (Some row) -> P row.2) ->
  grown P w (init_user china_now target_date user w).2.
Proof.
  intros Hplanned. destruct user as [username usd]. unfold init_user.
  destruct (is_admin usd); [apply grown_refl|].
  destruct (negb (scheduling_enabled usd)); [apply grown_refl|].
  apply for_each_grown. intros job w0. apply init_job_grown. apply Hplanned.
Qed.

(** The initialization, from the state its clean-up leaves. *)
Lemma initialize_grown (P : entity -> Prop) users china_now target_date w :
  (forall job row,
     planned_row china_now target_date job = Returned (Some row) -> P row.2) ->
  grown P (cleanup_old_job_records china_now (Some (midnight target_date)) w)
    (initialize_daily_job_records users china_now (Some target_date) w).
Proof.
  intros Hplanned. unfold initialize_daily_job_records.
  destruct (_job_executions_table w) as [t|] eqn:Ht; simpl.
  2:{ unfold cleanup_old_job_records. rewrite Ht. apply grown_refl. }
  set (w1 := cleanup_old_job_records china_now (Some (midnight target_date)) w).
  m_unfold.
  pose proof (for_each_grown P (init_user china_now target_date) users
                (fun user w0 => init_user_grown P china_now target_date user w0 Hplanned)
                w1) as Hloop.
  destruct (for_each users (init_user china_now target_date) w1) as [[[]|e] w2];
    simpl in *; done.
Qed.

(** Cleaning up twice is cleaning up once. *)
Lemma cleanup_old_job_records_idem now now' before_date w :
  cleanup_old_job_records now' (Some before_date)
    (cleanup_old_job_records now (Some before_date) w)
  = cleanup_old_job_records now (Some before_date) w.
Proof.
  unfold cleanup_old_job_records.
  destruct (_job_executions_table w) as [t|] eqn:Ht; simpl; [|by rewrite Ht].
  unfold set_table. simpl. f_equal. f_equal.
  apply map_eq. intros k. rewrite !map_lookup_filter.
  destruct (t !! k) as [e|]; simpl; [|done].
  case_guard as Hg; simpl; [|done]. by rewrite option_guard_True.
Qed.

(** X7. The job run at 00:00 never raises, calls no executor and leaves no
    stale record: afterwards no record of the table is scheduled before the
    midnight that begins the job's day, also when the initialization loop
    stops at an unreadable setting.  The records that were not scheduled
    before that midnight are all still there, unchanged.  The job's own
    clean-up is redundant: with a scheduler available the job leaves the
    state [initialize_daily_job_records] alone leaves. *)
Theorem start_of_day_job_leaves_no_stale_record (job_scheduler_available : bool)
    (users : list (string * user_settings_data))
    (china_now init_now : datetime) (w : world) (t : rows) :
  _job_executions_table w = Some t ->
  valid_date china_now ->
  let w' := initialize_daily_job_records_job job_scheduler_available users
              china_now init_now w in
  (job_scheduler_available = true ->
   w' = initialize_daily_job_records users init_now (Some china_now) w)
  /\ same_but_table w w'
  /\ exists t',
       _job_executions_table w' = Some t'
       /\ (forall k e, t' !! k = Some e ->
             scheduled_before (midnight china_now) e = false)
       /\ (forall k e, t !! k = Some e ->
             scheduled_before (midnight china_now) e = false ->
             t' !! k = Some e).
Proof.
  intros Ht Hvalid. simpl. unfold initialize_daily_job_records_job.
  set (w1 := cleanup_old_job_records china_now (Some (midnight china_now)) w).
  set (t1 := filter (fun kv : row_key * entity =>
                       scheduled_before (midnight china_now) kv.2 = false) t).
  assert (_job_executions_table w1 = Some t1) as Ht1.
  { unfold w1, cleanup_old_job_records. rewrite Ht. done. }
  assert (same_but_table w w1) as Hf1.
  { unfold w1, cleanup_old_job_records. rewrite Ht. apply set_table_same_but_table. }
  assert (forall k e, t1 !! k = Some e
                      <-> t !! k = Some e
                          /\ scheduled_before (midnight china_now) e = false) as Hlk.
  { intros k e. unfold t1. by rewrite map_lookup_filter_Some. }
  split.
  { intros ->. unfold initialize_daily_job_records. rewrite Ht1, Ht. simpl.
    unfold w1. by rewrite (cleanup_old_job_records_idem china_now init_now). }
  assert (grown (fun e => scheduled_before (midnight china_now) e = false) w1
            (if job_scheduler_available
             then initialize_daily_job_records users init_now (Some china_now) w1
             else w1)) as [Hf2 Hg].
  { destruct job_scheduler_available; [|apply grown_refl].
    pose proof (initialize_grown
                  (fun e => scheduled_before (midnight china_now) e = false)
                  users init_now china_now w1) as Hg.
    unfold w1 in Hg at 1.
    rewrite (cleanup_old_job_records_idem china_now init_now) in Hg.
    apply Hg. intros job row. by apply planned_row_not_before. }
  split; [by eapply same_but_table_transitive|].
  destruct (Hg t1 Ht1) as (t' & Ht' & Hkeep & Hnew).
  exists t'. split; [done|]. split.
  - intros k e Hk. destruct (Hnew k e Hk) as [Hold|Hfresh]; [|done].
    by apply Hlk in Hold as [_ ?].
  - intros k e Hk Hfresh. apply Hkeep. by apply Hlk.
Qed.

End StartOfDay.

(** ** Start-up on a day without records *)

Section StartupInitialization.

Lemma day_entity_not_missed now job_id job_type st :
  is_missed now (day_entity now job_id job_type st) = false.
Proof.
  unfold day_entity, is_missed. destruct (ltb st now) eqn:Hlt; simpl; [done|].
  by rewrite Hlt.
Qed.

Lemma replace_timestamp base h m st :
  replace base (Some h) (Some m) (Some 0) (Some 0) = Returned st ->
  timestamp st = toordinal base * 86400000000 + h * 3600000000 + m * 60000000
  /\ 0 <= h <= 23 /\ 0 <= m <= 59.
Proof.
  intros Hst. apply replace_returned in Hst as (-> & Hh & Hm). simpl in *.
  split; [|done]. rewrite timestamp_fields. unfold toordinal. simpl. lia.
Qed.

(** No row the initialization plans is a missed job at the time of the
    initialization, when the target day is not before the day of that
    time. *)
Lemma planned_row_not_missed china_now target_date job row :
  valid_date target_date -> valid_time china_now ->
  toordinal china_now <= toordinal target_date ->
  planned_row china_now target_date job = Returned (Some row) ->
  is_missed china_now row.2 = false.
Proof.
  intros Hvalid (Hh & Hmi & Hs & Hus) Hord. unfold planned_row.
  destruct (negb (enabled job.2)); [done|].
  destruct (eq_str (get job.2 "type") "daily").
  { destruct (int (get_or job.2 "hour" (PInt 0))) as [h|]; simpl; [|done].
    destruct (int (get_or job.2 "minute" (PInt 0))) as [m|]; simpl; [|done].
    destruct (replace target_date _ _ _ _) as [st|]; simpl; [|done].
    intros [= <-]. apply day_entity_not_missed. }
  destruct (eq_str (get job.2 "type") "hourly").
  { destruct (int (get_or job.2 "minute" (PInt 0))) as [m|]; simpl; [|done].
    destruct (if m <=? minute china_now then _ else _) as [st|] eqn:Hst; simpl; [|done].
    intros [= <-]. unfold is_missed. simpl. unfold ltb.
    apply Z.ltb_ge. rewrite (timestamp_fields china_now).
    destruct (Z.leb_spec m (minute china_now)) as [Hm|Hm].
    - destruct (Z.leb_spec 24 (hour china_now + 1)) as [H24|H24];
        apply replace_timestamp in Hst as (-> & _ & Hmr).
      + rewrite toordinal_plus_one_day by done. lia.
      + lia.
    - apply replace_timestamp in Hst as (-> & _ & Hmr). lia. }
  destruct (eq_str (get job.2 "type") "weekly"); [|done].
  destruct (int (get_or job.2 "day_of_week" (PInt 0))) as [d|]; simpl; [|done].
  destruct (int (get_or job.2 "hour" (PInt 0))) as [h|]; simpl; [|done].
  destruct (int (get_or job.2 "minute" (PInt 0))) as [m|]; simpl; [|done].
  case_bool_decide; [|done].
  destruct (replace target_date _ _ _ _) as [st|]; simpl; [|done].
  intros [= <-]. apply day_entity_not_missed.
Qed.

Lemma existsb_false {A} (f : A -> bool) (l : list A) x :
  existsb f l = false -> x ∈ l -> f x = false.
Proof.
  induction l as [|y l IH]; simpl; intros Hf Hin.
  { by apply elem_of_nil in Hin. }
  apply orb_false_iff in Hf as [Hy Hl].
  apply elem_of_cons in Hin as [->|Hin]; auto.
Qed.

Lemma timestamp_next_midnight (t : datetime) :
  valid_date t ->
  timestamp (plus_one_day (midnight t)) = (toordinal t + 1) * 86400000000.
Proof.
  intros Hv. rewrite timestamp_fields.
  rewrite (toordinal_plus_one_day (midnight t)) by exact Hv.
  rewrite toordinal_midnight.
  assert (hour (plus_one_day (midnight t)) = 0
          /\ minute (plus_one_day (midnight t)) = 0
          /\ second (plus_one_day (midnight t)) = 0
          /\ microsecond (plus_one_day (midnight t)) = 0) as (-> & -> & -> & ->).
  { unfold plus_one_day. simpl.
    destruct (day t <? days_in_month (year t) (month t)); [done|].
    destruct (month t <? 12); done. }
  lia.
Qed.

(** X17. Start-up on a day without records leaves nothing to recover.  In
    the production environment, when no record of the current day exists,
    [lifespan] initializes the day instead of recovering: no executor is
    called, no record scheduled before the midnight that begins the day
    is left, and, the initialization reading the clock on that same day,
    [get_missed_jobs] for the time of the initialization returns the
    empty list in the state that is left. *)
Theorem startup_initialization_leaves_nothing_missed (env : startup)
    (ex : gmap string (callable * string)) :
  s_production env = true ->
  check_job_records_exist_for_date (s_china_now env)
    (initialize_job_executions_table (s_storage env) (fresh_process ex)) = false ->
  valid_date (s_china_now env) ->
  valid_time (s_init_now env) ->
  (year (s_init_now env), month (s_init_now env), day (s_init_now env))
  = (year (s_china_now env), month (s_china_now env), day (s_china_now env)) ->
  let w' := lifespan_startup env (fresh_process ex) in
  get_missed_jobs (s_init_now env) w' = []
  /\ trace w' = []
  /\ (forall k e,
        (_job_executions_table w' ≫= fun t => t !! k) = Some e ->
        scheduled_before (midnight (s_china_now env)) e = false).
Proof.
  intros Hprod Hnone Hvalid Hinit Hday. simpl.
  assert (toordinal (s_init_now env) = toordinal (s_china_now env)) as Hord.
  { injection Hday as Hy Hm Hd. unfold toordinal. by rewrite Hy, Hm, Hd. }
  unfold lifespan_startup. rewrite Hprod.
  unfold fresh_process, initialize_job_executions_table in *. simpl in *.
  unfold check_job_records_exist_for_date in *. simpl in *.
  rewrite Hnone. simpl.
  set (w2 := set_active_jobs (set_table (mk_world None ex ∅ None []) (Some (s_storage env)))
               (Some ∅)).
  set (w' := initialize_daily_job_records (s_users env) (s_init_now env)
               (Some (s_china_now env)) w2).
  set (t1 := filter (fun kv : row_key * entity =>
                       scheduled_before (midnight (s_china_now env)) kv.2 = false)
               (s_storage env)).
  pose proof (initialize_grown
                (fun e => is_missed (s_init_now env) e = false
                          /\ scheduled_before (midnight (s_china_now env)) e = false)
                (s_users env) (s_init_now env) (s_china_now env) w2) as [Hframe Hg].
  { intros job row Hrow. split.
    - revert Hrow. apply planned_row_not_missed; [done|done|lia].
    - revert Hrow. by apply planned_row_not_before. }
  fold w' in Hframe, Hg.
  destruct (Hg t1 eq_refl) as (t' & Ht' & Hkeep & Hnew).
  assert (forall k e, t1 !! k = Some e -> is_missed (s_init_now env) e = false) as Hold.
  { intros k e Hk. apply map_lookup_filter_Some in Hk as [Hk Hnb]. simpl in Hnb.
    pose proof (existsb_false _ _ (k, e) Hnone) as Hon.
    rewrite elem_of_map_to_list in Hon. specialize (Hon Hk). simpl in Hon.
    unfold is_missed, scheduled_before, scheduled_on in *.
    destruct (e_scheduled_time e) as [st|]; [|apply andb_false_r].
    rewrite Hnb in Hon. simpl in Hon.
    apply andb_false_intro2. unfold ltb in *.
    apply Z.ltb_ge. apply Z.ltb_ge in Hon.
    rewrite timestamp_next_midnight in Hon by done.
    destruct (timestamp_day_bounds (s_init_now env) Hinit) as [_ Hlt]. lia. }
  split; [|split].
  - unfold get_missed_jobs. rewrite Ht'.
    apply elem_of_nil_inv. intros [k e] Hin.
    apply list_elem_of_filter in Hin as [Hm Hin]. simpl in Hm.
    apply elem_of_map_to_list in Hin.
    destruct (Hnew k e Hin) as [Hk|[Hk _]]; [apply Hold in Hk|]; congruence.
  - destruct Hframe as (_ & _ & _ & Htr). rewrite Htr. done.
  - intros k e. rewrite Ht'. simpl. intros Hk.
    destruct (Hnew k e Hk) as [Hk1|[_ Hnb]]; [|done].
    by apply map_lookup_filter_Some in Hk1 as [_ ?].
Qed.

End StartupInitialization.

(** ** Execution ids and the keys of the per-day tracker *)

Section IdsAndKeys.

(** The dates whose year [strftime('%Y')] writes with four digits. *)
Definition calendar_date (t : datetime) : Prop :=
  1000 <= year t <= 9999 /\ 1 <= month t <= 12 /\ 1 <= day t <= 31.

Lemma pad4_inj (a b : Z) :
  0 <= a < 10000 -> 0 <= b < 10000 -> pad4 a = pad4 b -> a = b.
Proof.
  intros Ha Hb H. unfold pad4, pad2 in H. injection H as H1 H2 H3 H4.
  apply digit_inj in H1, H2, H3, H4.
  pose proof (Z.div_mod a 10 ltac:(lia)). pose proof (Z.mod_pos_bound a 10 ltac:(lia)).
  pose proof (Z.div_mod b 10 ltac:(lia)). pose proof (Z.mod_pos_bound b 10 ltac:(lia)).
  pose proof (Z.div_mod (a / 10) 10 ltac:(lia)).
  pose proof (Z.mod_pos_bound (a / 10) 10 ltac:(lia)).
  pose proof (Z.div_mod (b / 10) 10 ltac:(lia)).
  pose proof (Z.mod_pos_bound (b / 10) 10 ltac:(lia)).
  pose proof (Z.div_mod (a / 100) 10 ltac:(lia)).
  pose proof (Z.mod_pos_bound (a / 100) 10 ltac:(lia)).
  pose proof (Z.div_mod (b / 100) 10 ltac:(lia)).
  pose proof (Z.mod_pos_bound (b / 100) 10 ltac:(lia)).
  pose proof (Z.div_mod (a / 1000) 10 ltac:(lia)).
  pose proof (Z.mod_pos_bound (a / 1000) 10 ltac:(lia)).
  pose proof (Z.div_mod (b / 1000) 10 ltac:(lia)).
  pose proof (Z.mod_pos_bound (b / 1000) 10 ltac:(lia)).
  assert (a / 100 = a / 10 / 10) by (rewrite Z.div_div by lia; done).
  assert (b / 100 = b / 10 / 10) by (rewrite Z.div_div by lia; done).
  assert (a / 1000 = a / 100 / 10) by (rewrite Z.div_div by lia; done).
  assert (b / 1000 = b / 100 / 10) by (rewrite Z.div_div by lia; done).
  assert (a / 1000 / 10 = 0) by (rewrite Z.div_div by lia; apply Z.div_small; lia).
  assert (b / 1000 / 10 = 0) by (rewrite Z.div_div by lia; apply Z.div_small; lia).
  lia.
Qed.

Lemma date_str_inj (a b : datetime) :
  calendar_date a -> calendar_date b ->
  date_str a = date_str b ->
  year a = year b /\ month a = month b /\ day a = day b.
Proof.
  intros (Hya & Hma & Hda) (Hyb & Hmb & Hdb) H.
  lazy [date_str String.append pad4 pad2] in H.
  injection H as Hy1 Hy2 Hy3 Hy4 Hm1 Hm2 Hd1 Hd2.
  split; [|split].
  - apply pad4_inj; [lia|lia|]. unfold pad4, pad2. congruence.
  - apply pad2_inj; [lia|lia|]. unfold pad2. congruence.
  - apply pad2_inj; [lia|lia|]. unfold pad2. congruence.
Qed.

(** X8. The per-day tracker remembers calendar days.  After
    [_record_job_execution] for (username, job_id) at an instant,
    [_has_job_executed_today] answers True for that user and job at every
    instant of the same calendar day, whatever the time of day, and
    answers as it did before for every other user, job or day. *)
Theorem tracker_remembers_calendar_day (w : world)
    (username job_id : string) (at_time : datetime)
    (username' job_id' : string) (asked_at : datetime) :
  calendar_date at_time -> calendar_date asked_at ->
  _has_job_executed_today (_record_job_execution username job_id at_time w)
    username' job_id' asked_at
  = _has_job_executed_today w username' job_id' asked_at
    || bool_decide (username' = username /\ job_id' = job_id
                    /\ year asked_at = year at_time
                    /\ month asked_at = month at_time
                    /\ day asked_at = day at_time).
Proof.
  intros Ha Hb. unfold _has_job_executed_today, _record_job_execution, tracker_key.
  simpl.
  destruct (decide ((username, job_id, date_str at_time)
                    = (username', job_id', date_str asked_at))) as [Heq|Hne].
  - rewrite Heq, lookup_insert_eq.
    apply pair_equal_spec in Heq as [Heq Hd].
    apply pair_equal_spec in Heq as [-> ->].
    apply date_str_inj in Hd as (Hy & Hm & Hday); [|done|done].
    rewrite (bool_decide_eq_true_2 (is_Some (Some at_time))) by eauto.
    rewrite (bool_decide_eq_true_2 (_ /\ _)) by (repeat split; congruence).
    by rewrite orb_true_r.
  - rewrite lookup_insert_ne by done.
    rewrite (bool_decide_eq_false_2 (_ /\ _)); [by rewrite orb_false_r|].
    intros (-> & -> & Hy & Hm & Hday). apply Hne.
    unfold date_str. by rewrite Hy, Hm, Hday.
Qed.

(** X9. An execution id names one job and one scheduled second: for
    scheduled times with a four-digit year, two ids are equal exactly when
    the job ids are equal and the scheduled times agree in year, month,
    day, hour, minute and second.  Microseconds do not enter the id. *)
Theorem execution_id_names_job_and_second (job_id job_id' : string) (a b : datetime) :
  calendar_date a -> calendar_date b ->
  valid_time a -> valid_time b ->
  generate_execution_id job_id a = generate_execution_id job_id' b
  <-> job_id = job_id'
      /\ year a = year b /\ month a = month b /\ day a = day b
      /\ hour a = hour b /\ minute a = minute b /\ second a = second b.
Proof.
  intros (Hya & Hma & Hda) (Hyb & Hmb & Hdb) (Hha & Hmia & Hsa & _) (Hhb & Hmib & Hsb & _).
  split.
  - intros Heq. unfold generate_execution_id in Heq.
    apply string_app_inj_suffix in Heq as [-> Heq];
      [|by rewrite !execution_id_suffix_length].
    split; [done|].
    lazy [String.append date_str time_str pad4 pad2] in Heq.
    injection Heq as Hy1 Hy2 Hy3 Hy4 Hm1 Hm2 Hd1 Hd2 Hh1 Hh2 Hmi1 Hmi2 Hs1 Hs2.
    split; [apply pad4_inj; [lia|lia|]; unfold pad4, pad2; congruence|].
    repeat split; (apply pad2_inj; [lia|lia|]; unfold pad2; congruence).
  - intros (-> & Hy & Hm & Hd & Hh & Hmi & Hs).
    unfold generate_execution_id, date_str, time_str.
    by rewrite Hy, Hm, Hd, Hh, Hmi, Hs.
Qed.

End IdsAndKeys.

(** ** The chain of hourly records *)

Section HourlyChain.

(** [later] lies in the clock hour that follows the one of [now]. *)
Definition next_clock_hour (now later : datetime) : Prop :=
  if 24 <=? hour now + 1 then
    year later = year (plus_one_day now) /\ month later = month (plus_one_day now)
    /\ day later = day (plus_one_day now) /\ hour later = 0
  else
    year later = year now /\ month later = month now /\ day later = day now
    /\ hour later = hour now + 1.

(** The clock hour after a valid instant begins 3600 seconds after the
    one of the instant. *)
Lemma next_clock_hour_ordinal (now later : datetime) :
  valid_date now -> 0 <= hour now <= 23 ->
  next_clock_hour now later ->
  toordinal later * 24 + hour later = toordinal now * 24 + hour now + 1.
Proof.
  intros Hv Hh. unfold next_clock_hour.
  destruct (Z.leb_spec 24 (hour now + 1)) as [H24|H24].
  - intros (Hy & Hm & Hd & Hh').
    assert (toordinal later = toordinal (plus_one_day now)) as ->.
    { unfold toordinal. by rewrite Hy, Hm, Hd. }
    rewrite toordinal_plus_one_day by done. lia.
  - intros (Hy & Hm & Hd & Hh').
    assert (toordinal later = toordinal now) as ->.
    { unfold toordinal. by rewrite Hy, Hm, Hd. }
    lia.
Qed.

(** X10. The follow-up record of an hourly job is the record of the next
    hour's pass.  When an hourly job with a minute in 0..59 has completed
    and filed its follow-up record, the scheduled time a pass computes for
    the job at any instant of the following clock hour, also across
    midnight and the end of a month or year, has the execution id of that
    record: the record is in the table, pending, scheduled at that time,
    and the pass takes it as it is and creates none. *)
Theorem hourly_follow_up_is_next_hours_record
    (username job_id : string) (job_config : job_config)
    (china_now later : datetime) (w : world) (t : rows) (m : Z) :
  _job_executions_table w = Some t ->
  0 <= hour china_now <= 23 ->
  int (get_or job_config "minute" (PStr "00")) = Returned m ->
  0 <= m <= 59 ->
  valid_time later ->
  next_clock_hour china_now later ->
  let filed := next_hourly_record username job_id JobType.HOURLY job_config china_now w in
  exists scheduled_time e,
    filed.1 = Returned tt
    /\ scheduled_time_of JobType.HOURLY job_config later = Returned scheduled_time
    /\ (_job_executions_table filed.2
          ≫= fun t' => t' !! (username, generate_execution_id job_id scheduled_time))
       = Some e
    /\ e_status e = "pending"
    /\ e_scheduled_time e = Some scheduled_time
    /\ e_job_id e = job_id
    /\ ensure_record username job_id JobType.HOURLY scheduled_time filed.2
       = (Returned (generate_execution_id job_id scheduled_time), filed.2).
Proof.
  intros Ht Hh Hm Hmr (Hlh & Hlm & Hls & Hlus) Hnext. simpl.
  set (st := mk_datetime (year later) (month later) (day later) (hour later) m 0 0).
  assert (scheduled_time_of JobType.HOURLY job_config later = Returned st) as Hst.
  { unfold scheduled_time_of. simpl. unfold replace at 2. simpl.
    assert ((0 <=? hour later) && (hour later <=? 23) = true) as -> by lia.
    assert ((0 <=? minute later) && (minute later <=? 59) = true) as -> by lia.
    simpl. rewrite Hm. simpl. unfold replace. simpl.
    assert ((0 <=? hour later) && (hour later <=? 23) = true) as -> by lia.
    assert ((0 <=? m) && (m <=? 59) = true) as -> by lia.
    done. }
  assert ((if 24 <=? hour china_now + 1
           then replace (plus_one_day china_now) (Some 0) (Some m) (Some 0) (Some 0)
           else replace china_now (Some (hour china_now + 1)) (Some m) (Some 0) (Some 0))
          = Returned st) as Hnst.
  { unfold next_clock_hour in Hnext.
    destruct (Z.leb_spec 24 (hour china_now + 1)) as [H24|H24];
      destruct Hnext as (Hy & Hmo & Hd & Hh').
    - rewrite replace_in_range by lia. unfold st. by rewrite Hy, Hmo, Hd, Hh'.
    - rewrite replace_in_range by lia. unfold st. by rewrite Hy, Hmo, Hd, Hh'. }
  set (row := merged (t !! (username, generate_execution_id job_id st))
                (mk_entity job_id JobType.HOURLY (Some st) None None "pending" None)).
  assert (next_hourly_record username job_id JobType.HOURLY job_config china_now w
          = (Returned tt,
             set_table w (Some (<[(username, generate_execution_id job_id st) := row]> t))))
    as Hfiled.
  { unfold next_hourly_record. m_unfold. rewrite Hm. simpl. rewrite Hnst. simpl.
    unfold create_job_execution_record. by rewrite Ht. }
  rewrite Hfiled. simpl.
  exists st, row. split; [done|]. split; [done|].
  split; [by rewrite lookup_insert_eq|].
  assert (e_status row = "pending" /\ e_scheduled_time row = Some st
          /\ e_job_id row = job_id) as (Hs & Hsch & Hj).
  { unfold row, merged. by destruct (t !! _). }
  split; [done|]. split; [done|]. split; [done|].
  unfold ensure_record, record_exists. simpl. rewrite lookup_insert_eq.
  by rewrite bool_decide_eq_true_2 by eauto.
Qed.

End HourlyChain.

(** ** The users of a pass ([JobScheduler.get_all_users_from_db]) *)

Module Users.

(** An entity of the table [herousers]: its keys and, of [dict(entity)],
    what the scheduler reads ([user_type], [job_scheduling_enabled] and
    [job_settings]). *)
Record user_entity := mk_user_entity {
  ue_partition_key : option string;
  ue_row_key : string;
  ue_data : user_settings_data
}.

(** [d[k] = v] on a dictionary kept in insertion order *)
Fixpoint dict_set {V} (d : list (string * V)) (k : string) (v : V) : list (string * V) :=
  match d with
  | [] => [(k, v)]
  | kv :: d' => if decide (kv.1 = k) then (k, v) :: d' else kv :: dict_set d' k v
  end.

(** [user_settings_table.get_entity(partition_key, row_key)] *)
Definition get_entity (table : list user_entity) (partition_key row_key : string)
    : option user_entity :=
  List.find (fun e => bool_decide (ue_partition_key e = Some partition_key
                                   /\ ue_row_key e = row_key)) table.

(** The body of the loop; [acc] is [(user_settings, admin_users)]. *)
Definition scan_entity (table : list user_entity)
    (acc : list (string * user_settings_data) * gset string) (entity : user_entity)
    : list (string * user_settings_data) * gset string :=
  match ue_partition_key entity with
  | None => acc
  | Some username =>
      if bool_decide (username ∈ acc.2) then acc
      else
        let user_type :=
          match user_type (ue_data entity) with
          | Some user_type => user_type
          | None =>
              match get_entity table username "0" with
              | Some user_entity => default "player" (user_type (ue_data user_entity))
              | None => "player"
              end
          end in
        if bool_decide (user_type = "admin") then (acc.1, {[username]} ∪ acc.2)
        else (dict_set acc.1 username (ue_data entity), acc.2)
  end.

(** [table] is what [list_entities()] yields, in its order. *)
Definition get_all_users_from_db (table : list user_entity)
    : list (string * user_settings_data) :=
  (fold_left (scan_entity table) table ([], ∅)).1.

End Users.

Section UsersOfAPass.
Import Users.

Lemma dict_set_keys {V} (d : list (string * V)) k v u :
  u ∈ (dict_set d k v).*1 <-> u = k \/ u ∈ d.*1.
Proof.
  induction d as [|[k' v'] d IH]; simpl.
  { rewrite list_elem_of_singleton. split; [auto|]. intros [?|H]; [done|].
    by apply elem_of_nil in H. }
  destruct (decide (k' = k)) as [->|Hne]; simpl.
  - rewrite !elem_of_cons. tauto.
  - rewrite !elem_of_cons, IH. tauto.
Qed.

Lemma dict_set_NoDup {V} (d : list (string * V)) k v :
  NoDup d.*1 -> NoDup (dict_set d k v).*1.
Proof.
  induction d as [|[k' v'] d IH]; simpl; intros Hnd.
  { apply NoDup_singleton. }
  apply NoDup_cons in Hnd as [Hk Hnd].
  destruct (decide (k' = k)) as [->|Hne]; simpl.
  - by apply NoDup_cons.
  - apply NoDup_cons. split; [|by apply IH].
    rewrite dict_set_keys. intros [?|?]; done.
Qed.

Lemma dict_set_elem {V} (d : list (string * V)) k v u x :
  (u, x) ∈ dict_set d k v -> (u, x) = (k, v) \/ (u, x) ∈ d.
Proof.
  induction d as [|[k' v'] d IH]; simpl.
  { rewrite list_elem_of_singleton. auto. }
  destruct (decide (k' = k)) as [->|Hne]; rewrite !elem_of_cons; [tauto|].
  intros [?|H]; [tauto|]. destruct (IH H); tauto.
Qed.

(** What holds of the dictionary while the loop runs over [table]. *)
Definition users_ok (table : list user_entity)
    (user_settings : list (string * user_settings_data)) : Prop :=
  NoDup user_settings.*1
  /\ forall username data,
       (username, data) ∈ user_settings ->
       is_admin data = false
       /\ exists entity,
            entity ∈ table /\ ue_partition_key entity = Some username
            /\ ue_data entity = data.

Lemma scan_entity_ok table acc entity :
  entity ∈ table ->
  users_ok table acc.1 -> users_ok table (scan_entity table acc entity).1.
Proof.
  intros Hin [Hnd Hall]. unfold scan_entity.
  destruct (ue_partition_key entity) as [username|] eqn:Hpk; [|done].
  case_bool_decide; [done|].
  case_bool_decide as Hadmin; [done|]. simpl.
  split; [by apply dict_set_NoDup|].
  intros u data Hu. apply dict_set_elem in Hu as [[= -> ->]|Hu]; [|by apply Hall].
  split; [|by exists entity].
  unfold is_admin. apply bool_decide_eq_false_2.
  destruct (user_type (ue_data entity)) as [ut|]; simpl; [done|]. discriminate.
Qed.

Lemma scan_all_ok table (l : list user_entity) acc :
  (forall entity, entity ∈ l -> entity ∈ table) ->
  users_ok table acc.1 -> users_ok table (fold_left (scan_entity table) l acc).1.
Proof.
  revert acc. induction l as [|entity l IH]; intros acc Hl Hok; simpl; [done|].
  apply IH.
  - intros e He. apply Hl. by right.
  - apply scan_entity_ok; [|done]. apply Hl. by left.
Qed.

(** Without an admin row nobody is left out. *)
Lemma scan_all_complete table (l : list user_entity) acc :
  (forall entity, entity ∈ table -> user_type (ue_data entity) <> Some "admin") ->
  (forall entity, entity ∈ l -> entity ∈ table) ->
  acc.2 = ∅ ->
  let r := fold_left (scan_entity table) l acc in
  r.2 = ∅
  /\ forall username,
       username ∈ acc.1.*1
       \/ (exists entity, entity ∈ l /\ ue_partition_key entity = Some username) ->
       username ∈ r.1.*1.
Proof.
  intros Hnoadmin. revert acc. induction l as [|entity l IH]; intros acc Hl Hempty; simpl.
  { split; [done|]. intros username [?|(e & He & _)]; [done|].
    by apply elem_of_nil in He. }
  assert ((scan_entity table acc entity).2 = ∅
          /\ (forall username, username ∈ acc.1.*1
                               \/ ue_partition_key entity = Some username ->
                               username ∈ (scan_entity table acc entity).1.*1))
    as [Hempty' Hkeys].
  { unfold scan_entity.
    destruct (ue_partition_key entity) as [u|] eqn:Hpk.
    2:{ split; [done|]. intros username [?|?]; done. }
    rewrite Hempty. rewrite bool_decide_eq_false_2 by apply not_elem_of_empty.
    assert (match user_type (ue_data entity) with
            | Some user_type => user_type
            | None =>
                match get_entity table u "0" with
                | Some user_entity => default "player" (user_type (ue_data user_entity))
                | None => "player"
                end
            end <> "admin") as Hna.
    { destruct (user_type (ue_data entity)) as [ut|] eqn:Hut.
      - intros ->. apply (Hnoadmin entity); [|done]. apply Hl. by left.
      - destruct (get_entity table u "0") as [e0|] eqn:He0; [|done].
        destruct (user_type (ue_data e0)) as [ut0|] eqn:Hut0; simpl; [|done].
        intros ->. apply (Hnoadmin e0); [|done].
        apply find_some in He0 as [He0 _]. by apply list_elem_of_In. }
    rewrite bool_decide_eq_false_2 by done. simpl. split; [done|].
    intros username Hu. rewrite dict_set_keys.
    destruct Hu as [?|[= ->]]; auto. }
  destruct (IH (scan_entity table acc entity)) as [Hr Hall]; [|done|].
  { intros e He. apply Hl. by right. }
  split; [done|]. intros username [Hacc|(e & He & Hpk)].
  - apply Hall. left. apply Hkeys. by left.
  - apply elem_of_cons in He as [->|He].
    + apply Hall. left. apply Hkeys. by right.
    + apply Hall. right. by exists e.
Qed.

(** X11. What [get_all_users_from_db] hands to a pass.  The user names of
    the dictionary are distinct; every entry holds the data of an entity
    of the table whose partition key is that user name; and no entry is
    typed as an admin, so the admin test that [run_jobs] and
    [initialize_daily_job_records] apply to each entry never skips one.
    When no entity of the table has the user type admin, every partition
    key of the table is a user of the dictionary. *)
Theorem get_all_users_from_db_spec (table : list user_entity) :
  let user_settings := get_all_users_from_db table in
  NoDup user_settings.*1
  /\ (forall username data,
        (username, data) ∈ user_settings ->
        is_admin data = false
        /\ exists entity,
             entity ∈ table /\ ue_partition_key entity = Some username
             /\ ue_data entity = data)
  /\ ((forall entity, entity ∈ table -> user_type (ue_data entity) <> Some "admin") ->
      forall entity username,
        entity ∈ table -> ue_partition_key entity = Some username ->
        username ∈ user_settings.*1).
Proof.
  simpl. unfold get_all_users_from_db.
  destruct (scan_all_ok table table ([], ∅)) as [Hnd Hall]; [done| |].
  { split; [constructor|]. intros u data Hu. by apply elem_of_nil in Hu. }
  split; [done|]. split; [done|].
  intros Hnoadmin entity username Hin Hpk.
  destruct (scan_all_complete table table ([], ∅) Hnoadmin) as [_ Hc]; [done|done|].
  apply Hc. right. by exists entity.
Qed.

End UsersOfAPass.

(** ** Requesting shutdown ([initiate_shutdown], [get_shutdown_status]) *)

Module Control.
Import Endpoints.

(** The objects [main.py] creates for the shutdown, and what the module
    globals of [job_scheduler.py] and [endpoints.py] hold of them.  The
    event, the locks and the dictionary of active jobs are objects that
    the three modules share once they are bound; [scheduler_paused] is a
    boolean, of which each module holds a value of its own. *)
Record control := mk_control {
  (** [main.shutdown_requested.is_set()] *)
  shutdown_event : bool;
  (** [main.scheduler_paused] *)
  main_scheduler_paused : bool;
  (** [set_shutdown_globals] has run *)
  scheduler_bound : bool;
  (** [job_scheduler.scheduler_paused], [None] read as false *)
  scheduler_paused_value : bool;
  (** [endpoints.set_globals] has run *)
  endpoints_bound : bool;
  (** [endpoints.scheduler_paused], [None] read as false *)
  endpoints_paused_value : bool;
  (** [main.active_jobs] *)
  active : gmap string active_job
}.

(** [set_shutdown_globals(shutdown_requested, scheduler_paused, ...)] as
    [lifespan] calls it *)
Definition set_shutdown_globals (c : control) : control :=
  mk_control (shutdown_event c) (main_scheduler_paused c)
    true (main_scheduler_paused c)
    (endpoints_bound c) (endpoints_paused_value c) (active c).

(** [endpoints.set_globals(...)] as [lifespan] calls it *)
Definition set_globals (c : control) : control :=
  mk_control (shutdown_event c) (main_scheduler_paused c)
    (scheduler_bound c) (scheduler_paused_value c)
    true (main_scheduler_paused c) (active c).

(** What [run_jobs] and [scheduler_worker] read. *)
Definition scheduler_flags (c : control) : flags :=
  mk_flags (scheduler_bound c && shutdown_event c)
           (scheduler_bound c && scheduler_paused_value c).

Inductive shutdown_reply :=
| ShutdownInitiated (active_jobs_count : nat)
| ShutdownAlreadyInProgress (active_jobs_count : nat).

(** [len(active_jobs)] under [if active_jobs_lock and active_jobs is not None] *)
Definition active_count (c : control) : nat :=
  if endpoints_bound c then size (active c) else O.

(** [initiate_shutdown]; [main_module_loaded] tells whether
    [sys.modules.get('main')] yields the module. *)
Definition initiate_shutdown (main_module_loaded : bool) (t : users_rows)
    (current_user : string) (c : control) : http shutdown_reply * control :=
  if negb (admin_in t current_user) then (HTTPException 403 AdminAccessRequired, c)
  else if negb (endpoints_bound c)
  then (HTTPException 500 (Failure "Shutdown system not initialized"), c)
  else if shutdown_event c then (Ok (ShutdownAlreadyInProgress (active_count c)), c)
  else
    let c' :=
      mk_control true
        (if main_module_loaded then true else main_scheduler_paused c)
        (scheduler_bound c) (scheduler_paused_value c)
        (endpoints_bound c) true (active c) in
    (Ok (ShutdownInitiated (active_count c')), c').

Record shutdown_status := mk_shutdown_status {
  ss_shutdown_requested : bool;
  ss_scheduler_paused : bool;
  ss_active_jobs_count : nat;
  ss_safe_to_restart : bool
}.

Definition get_shutdown_status (t : users_rows) (current_user : string)
    (c : control) : http shutdown_status :=
  if negb (admin_in t current_user) then HTTPException 403 AdminAccessRequired
  else
    let shutdown_status := endpoints_bound c && shutdown_event c in
    let paused_status := endpoints_bound c && endpoints_paused_value c in
    let active_count := active_count c in
    Ok (mk_shutdown_status shutdown_status paused_status active_count
          (shutdown_status && paused_status && bool_decide (active_count = O))).

End Control.

Section ShutdownRequest.
Import Endpoints Control SchedulerThread.

(** X12. A shutdown request and what the scheduler sees of it.  A caller
    who is not an admin gets 403 from both endpoints and changes nothing.
    For an admin, with the globals of both modules bound and no shutdown
    requested yet, [initiate_shutdown] sets the event the scheduler
    shares, so every later [run_jobs] returns at once without submitting
    and the scheduler thread ends at its next round; it reports the
    number of active jobs and leaves them alone.  The pause flag it sets
    is the one of [endpoints.py] (and of [main.py]): the value
    [job_scheduler.py] holds is not changed.  Afterwards
    [get_shutdown_status] reports shutdown and pause as set and
    [safe_to_restart] exactly when no job is active, and a second
    [initiate_shutdown] answers "already in progress" and changes
    nothing. *)
Theorem initiate_shutdown_stops_scheduler (main_module_loaded : bool)
    (t : users_rows) (current_user : string) (c : control) :
  (admin_in t current_user = false ->
   initiate_shutdown main_module_loaded t current_user c
   = (HTTPException 403 AdminAccessRequired, c)
   /\ get_shutdown_status t current_user c = HTTPException 403 AdminAccessRequired)
  /\ (admin_in t current_user = true ->
      endpoints_bound c = true -> scheduler_bound c = true ->
      shutdown_event c = false ->
      let r := initiate_shutdown main_module_loaded t current_user c in
      r.1 = Ok (ShutdownInitiated (size (active c)))
      /\ shutdown_set (scheduler_flags r.2) = true
      /\ paused (scheduler_flags r.2) = paused (scheduler_flags c)
      /\ active r.2 = active c
      /\ get_shutdown_status t current_user r.2
         = Ok (mk_shutdown_status true true (size (active c))
                 (bool_decide (size (active c) = O)))
      /\ initiate_shutdown main_module_loaded t current_user r.2
         = (Ok (ShutdownAlreadyInProgress (size (active c))), r.2)
      /\ (forall tk w, t_entry tk = scheduler_flags r.2 ->
                       run_jobs tk w = (Returned [], w))
      /\ (forall fuel observe run_pending w,
            observe O = scheduler_flags r.2 ->
            scheduler_worker (S fuel) observe run_pending 0 w = (w, true))).
Proof.
  split.
  - intros Hadm. unfold initiate_shutdown, get_shutdown_status. by rewrite Hadm.
  - intros Hadm Heb Hsb Hev. simpl.
    unfold initiate_shutdown, get_shutdown_status, active_count, scheduler_flags.
    rewrite Hadm, Heb, Hev. simpl. rewrite ?Hadm, ?Hsb, ?Heb. simpl.
    repeat split.
    + intros tk w Hentry. unfold run_jobs. rewrite Hentry. done.
    + intros fuel observe run_pending w Hobs. simpl. rewrite Hobs. done.
Qed.

End ShutdownRequest.

(** ** Running a job by hand ([execute_job_manually] of [endpoints.py]) *)

Module Manual.
Import Endpoints.

(** [ExecuteJobRequest] *)
Record execute_job_request := mk_execute_job_request {
  req_job_id : string;
  req_account_names : option (list string);
  req_target_username : option string
}.

(** How the request can fail besides the admin check. *)
Inductive failure :=
| Refused (d : detail)
| SchedulerNotAvailable
| JobNotFound (job_id : string)
| ExecutionFailed (error : string).

Definition status_code (f : failure) : Z :=
  match f with
  | Refused _ => 403
  | SchedulerNotAvailable => 500
  | JobNotFound _ => 404
  | ExecutionFailed _ => 500
  end.

(** [executor_manager.execute_job(job_id, username, job_config)]: the
    method of the executor table with [(username, job_config)] for [*args]. *)
Definition execute_job (executors : gmap string (callable * string)) (job_id : string)
    (username : string) (job_config : job_config) : outcome unit :=
  ExecutorManager.execute_job
    ((fun info : callable * string =>
        ((fun args : string * gmap string pyval => info.1 args.1 args.2), info.2))
       <$> executors)
    job_id (username, job_config).

(** [execute_job_manually].  [cached_accounts username] is what
    [get_cached_accounts(username)] yields, its keys in order;
    [job_scheduler] is the executor table of the scheduler, if there is
    one.  The value is the display name of the job on success, paired with
    the executor invocations made, as (username, job_config). *)
Definition execute_job_manually (t : users_rows)
    (cached_accounts : string -> outcome (list string))
    (job_scheduler : option (gmap string (callable * string)))
    (req : execute_job_request) (current_user : string)
    : (string + failure) * list (string * job_config) :=
  let target := default "" (req_target_username req) in
  if negb (bool_decide (target = "")) && negb (admin_in t current_user)
  then (inr (Refused AdminAccessRequired), [])
  else
    let username := if bool_decide (target = "") then current_user else target in
    let given := default [] (req_account_names req) in
    match (match given with
           | [] => cached_accounts username
           | _ => Returned given
           end) with
    | Raised e => (inr (ExecutionFailed e), [])
    | Returned account_names =>
        match job_scheduler with
        | None => (inr SchedulerNotAvailable, [])
        | Some executors =>
            match executors !! req_job_id req with
            | None => (inr (JobNotFound (req_job_id req)), [])
            | Some info =>
                let job_config : gmap string pyval :=
                  {["account_names" := PList account_names]} in
                (match execute_job executors (req_job_id req) username job_config with
                 | Returned _ => inl info.2
                 | Raised e => inr (ExecutionFailed e)
                 end,
                 [(username, job_config)])
            end
        end
    end.

End Manual.

Section ManualRuns.
Import Endpoints Manual.

Lemma execute_job_registered_call (executors : gmap string (callable * string))
    job_id username job_config (info : callable * string) :
  executors !! job_id = Some info ->
  execute_job executors job_id username job_config = info.1 username job_config.
Proof.
  intros Hl. unfold execute_job, ExecutorManager.execute_job.
  by rewrite lookup_fmap, Hl.
Qed.

(** X13. A job run by hand.  [execute_job_manually] calls an executor at
    most once, and only the one registered under the requested job id.
    The call is made in the name of the caller, or, when a target user is
    named, in the name of that user and only if the caller is an admin;
    a caller who is not an admin and names a target gets 403 and nothing
    is called.  The job configuration passed holds the account names of
    the request or, when the request names none, all cached accounts of
    the user.  The reply is the success message exactly when the executor
    was called and returned; when it raised, the reply is a 500 with the
    text of its exception.  Without a call the reply is never a success,
    and an unregistered job id is answered with 404, never with the
    "not found" error of [execute_job]. *)
Theorem execute_job_manually_spec (t : users_rows)
    (cached_accounts : string -> outcome (list string))
    (job_scheduler : option (gmap string (callable * string)))
    (req : execute_job_request) (current_user : string) :
  let r := execute_job_manually t cached_accounts job_scheduler req current_user in
  (forall username job_config,
     (username, job_config) ∈ r.2 ->
     r.2 = [(username, job_config)]
     /\ (username = current_user
         \/ (admin_in t current_user = true
             /\ req_target_username req = Some username))
     /\ exists executors info account_names,
          job_scheduler = Some executors
          /\ executors !! req_job_id req = Some info
          /\ job_config = {["account_names" := PList account_names]}
          /\ (account_names = default [] (req_account_names req)
              \/ (default [] (req_account_names req) = []
                  /\ cached_accounts username = Returned account_names))
          /\ r.1 = match info.1 username job_config with
                   | Returned _ => inl info.2
                   | Raised e => inr (ExecutionFailed e)
                   end)
  /\ (r.2 = [] -> forall name, r.1 <> inl name)
  /\ (forall target,
        req_target_username req = Some target -> target <> "" ->
        admin_in t current_user = false ->
        r = (inr (Refused AdminAccessRequired), []))
  /\ (forall executors account_names,
        job_scheduler = Some executors ->
        executors !! req_job_id req = None ->
        req_target_username req = None ->
        req_account_names req = Some account_names -> account_names <> [] ->
        r = (inr (JobNotFound (req_job_id req)), [])).
Proof.
  simpl. unfold execute_job_manually.
  set (target := default "" (req_target_username req)).
  split; [|split; [|split]].
  - intros username job_config.
    destruct (negb (bool_decide (target = "")) && negb (admin_in t current_user))
      eqn:Hauth; simpl.
    { intros H. by apply elem_of_nil in H. }
    set (user := if bool_decide (target = "") then current_user else target).
    set (given := default [] (req_account_names req)).
    destruct (match given with [] => cached_accounts user | _ => Returned given end)
      as [account_names|e] eqn:Hacc; simpl.
    2:{ intros H. by apply elem_of_nil in H. }
    destruct job_scheduler as [executors|]; simpl.
    2:{ intros H. by apply elem_of_nil in H. }
    destruct (executors !! req_job_id req) as [info|] eqn:Hinfo; simpl.
    2:{ intros H. by apply elem_of_nil in H. }
    intros H. apply list_elem_of_singleton in H. injection H as -> ->.
    split; [done|]. split.
    + unfold user. case_bool_decide as Ht; [by left|]. right.
      simpl in Hauth.
      split; [by destruct (admin_in t current_user)|].
      unfold target in *. destruct (req_target_username req); [done|].
      by simpl in Ht.
    + exists executors, info, account_names.
      split; [done|]. split; [done|]. split; [done|]. split.
      * destruct given eqn:Hg; [right|left]; [done|]. by injection Hacc as <-.
      * by rewrite (execute_job_registered_call _ _ _ _ info Hinfo).
  - destruct (negb (bool_decide (target = "")) && negb (admin_in t current_user));
      simpl; [done|].
    destruct (match default [] (req_account_names req) with
              | [] => _ | _ => _ end); simpl; [|done].
    destruct job_scheduler as [executors|]; simpl; [|done].
    destruct (executors !! req_job_id req); simpl; done.
  - intros tgt Htgt Hne Hadm. unfold target. rewrite Htgt. simpl.
    rewrite bool_decide_eq_false_2 by done. by rewrite Hadm.
  - intros executors account_names -> Hnone Htgt Hnames Hne.
    unfold target. rewrite Htgt, Hnames. simpl.
    destruct account_names; [done|]. simpl. by rewrite Hnone.
Qed.

End ManualRuns.

(** ** Recent executions ([get_recent_executions]) *)

Module Recent.

(** The sort key [x.get('scheduled_time', '')]: the empty string of a row
    without the property sorts before every time stamp. *)
Definition key_lt (a b : entity) : bool :=
  match e_scheduled_time a, e_scheduled_time b with
  | Some x, Some y => ltb x y
  | None, Some _ => true
  | _, None => false
  end.

(** [list.sort(key=..., reverse=True)]: descending, and rows with equal
    keys keep the order they had. *)
Fixpoint insert_desc (x : row_key * entity) (l : list (row_key * entity))
    : list (row_key * entity) :=
  match l with
  | [] => [x]
  | y :: l' => if key_lt x.2 y.2 then y :: insert_desc x l' else x :: l
  end.

Definition sort_desc (l : list (row_key * entity)) : list (row_key * entity) :=
  foldr insert_desc [] l.

(** [l[:limit]], also for a negative [limit] *)
Definition up_to {A} (l : list A) (limit : Z) : list A :=
  if 0 <=? limit then take (Z.to_nat limit) l
  else take (length l - Z.to_nat (- limit)) l.

(** The rows the query yields: those of the user when a user name is
    given (and not empty), all rows otherwise. *)
Definition queried (username : option string) (t : rows) : list (row_key * entity) :=
  match username with
  | Some u =>
      if bool_decide (u = "") then map_to_list t
      else filter (fun kv => kv.1.1 = u) (map_to_list t)
  | None => map_to_list t
  end.

Definition get_recent_executions (username : option string) (limit : Z) (w : world)
    : list (row_key * entity) :=
  match _job_executions_table w with
  | None => []
  | Some t => up_to (sort_desc (queried username t)) limit
  end.

End Recent.

Section RecentExecutions.
Import Recent.

(** [a] is scheduled no earlier than [b]. *)
Definition not_earlier (a b : row_key * entity) : Prop := key_lt a.2 b.2 = false.

Lemma key_lt_trans a b c : key_lt a b = true -> key_lt b c = true -> key_lt a c = true.
Proof.
  unfold key_lt, ltb.
  destruct (e_scheduled_time a), (e_scheduled_time b), (e_scheduled_time c);
    try done. lia.
Qed.

Lemma key_lt_asym a b : key_lt a b = true -> key_lt b a = false.
Proof.
  unfold key_lt, ltb.
  destruct (e_scheduled_time a), (e_scheduled_time b); try done. lia.
Qed.

Lemma not_earlier_trans a b c : not_earlier a b -> not_earlier b c -> not_earlier a c.
Proof.
  unfold not_earlier, key_lt, ltb.
  destruct (e_scheduled_time a.2), (e_scheduled_time b.2), (e_scheduled_time c.2);
    try done. lia.
Qed.

Lemma insert_desc_perm x l : insert_desc x l ≡ₚ x :: l.
Proof.
  induction l as [|y l IH]; simpl; [done|].
  destruct (key_lt x.2 y.2); [|done].
  rewrite IH. apply perm_swap.
Qed.

Lemma insert_desc_sorted x l :
  StronglySorted not_earlier l -> StronglySorted not_earlier (insert_desc x l).
Proof.
  induction l as [|y l IH]; simpl; intros Hs.
  { by repeat constructor. }
  apply StronglySorted_inv in Hs as [Hs Hall].
  destruct (key_lt x.2 y.2) eqn:Hxy.
  - constructor; [by apply IH|].
    rewrite insert_desc_perm. constructor; [|done].
    by apply key_lt_asym.
  - constructor; [by constructor|]. constructor; [done|].
    eapply Forall_impl; [exact Hall|]. intros z Hz.
    by apply (not_earlier_trans x y z).
Qed.

Lemma sort_desc_perm l : sort_desc l ≡ₚ l.
Proof.
  induction l as [|x l IH]; simpl; [done|]. by rewrite insert_desc_perm, IH.
Qed.

Lemma sort_desc_sorted l : StronglySorted not_earlier (sort_desc l).
Proof.
  induction l as [|x l IH]; simpl; [constructor|]. by apply insert_desc_sorted.
Qed.

(** X14. [get_recent_executions] returns the most recently scheduled
    records, newest first.  With the table bound, the rows it returns are
    a prefix of the queried rows (those of the user when a user name is
    given, all rows otherwise) put in descending order of scheduled time:
    each returned row is scheduled no earlier than the rows after it and
    than every queried row that is left out.  For a limit of zero or more
    it returns that many rows, or all queried rows if there are fewer;
    a negative limit leaves out that many of the oldest rows.  With the
    table not bound it returns the empty list. *)
Theorem get_recent_executions_newest_first (username : option string) (limit : Z)
    (w : world) :
  (_job_executions_table w = None -> get_recent_executions username limit w = [])
  /\ (forall t,
        _job_executions_table w = Some t ->
        let recent := get_recent_executions username limit w in
        exists left_out,
          recent ++ left_out ≡ₚ queried username t
          /\ StronglySorted not_earlier (recent ++ left_out)
          /\ (forall kv, kv ∈ recent ->
                         t !! kv.1 = Some kv.2
                         /\ forall u, username = Some u -> u <> "" -> kv.1.1 = u)
          /\ length recent
             = if 0 <=? limit
               then Nat.min (Z.to_nat limit) (length (queried username t))
               else (length (queried username t) - Z.to_nat (- limit))%nat).
Proof.
  split.
  { intros Ht. unfold get_recent_executions. by rewrite Ht. }
  intros t Ht. simpl. unfold get_recent_executions. rewrite Ht.
  set (sorted := sort_desc (queried username t)).
  assert (exists n, up_to sorted limit = take n sorted
                    /\ length (take n sorted)
                       = if 0 <=? limit
                         then Nat.min (Z.to_nat limit) (length (queried username t))
                         else (length (queried username t) - Z.to_nat (- limit))%nat)
    as (n & -> & Hlen).
  { assert (length sorted = length (queried username t)) as Hl
      by (unfold sorted; by rewrite sort_desc_perm).
    unfold up_to. destruct (0 <=? limit); eexists; (split; [done|]).
    - by rewrite length_take, Hl.
    - rewrite length_take, Hl. lia. }
  exists (drop n sorted). rewrite take_drop.
  split; [apply sort_desc_perm|]. split; [apply sort_desc_sorted|]. split; [|done].
  intros kv Hkv.
  assert (kv ∈ queried username t) as Hq.
  { rewrite <- (sort_desc_perm (queried username t)). fold sorted.
    rewrite <- (take_drop n sorted). apply elem_of_app. by left. }
  unfold queried in Hq. destruct kv as [k e]. simpl.
  destruct username as [u|].
  - case_bool_decide as Hu.
    + apply elem_of_map_to_list in Hq. split; [done|]. intros u' [= <-] Hne. done.
    + apply list_elem_of_filter in Hq as [Hk Hq]. apply elem_of_map_to_list in Hq.
      split; [done|]. intros u' [= <-] _. done.
  - apply elem_of_map_to_list in Hq. split; [done|]. intros u' Hu. done.
Qed.

End RecentExecutions.

(** ** The summary of a day ([get_daily_job_summary]) *)

Module Summary.

(** An entry of [summary['jobs_by_user']] *)
Record user_stats := mk_user_stats {
  us_total : nat;
  us_completed : nat;
  us_failed : nat;
  us_pending : nat;
  us_running : nat
}.

(** An item of [summary['jobs']] *)
Record job_info := mk_job_info {
  ji_username : string;
  ji_job_id : string;
  ji_job_type : string;
  ji_status : string;
  ji_scheduled_time : option datetime;
  ji_execution_start_time : option datetime;
  ji_execution_end_time : option datetime;
  ji_error_message : option string
}.

Record summary := mk_summary {
  sm_date : string;
  sm_total : nat;
  sm_pending : nat;
  sm_running : nat;
  sm_completed : nat;
  sm_failed : nat;
  sm_missed : nat;
  sm_jobs_by_status : gmap string nat;
  sm_jobs_by_user : gmap string user_stats;
  sm_jobs : list job_info
}.

(** [if status in stats: stats[status] += 1], the keys of [stats] being
    total, completed, failed, pending and running *)
Definition count_status (status : string) (s : user_stats) : user_stats :=
  if bool_decide (status = "total") then
    mk_user_stats (S (us_total s)) (us_completed s) (us_failed s) (us_pending s) (us_running s)
  else if bool_decide (status = "completed") then
    mk_user_stats (us_total s) (S (us_completed s)) (us_failed s) (us_pending s) (us_running s)
  else if bool_decide (status = "failed") then
    mk_user_stats (us_total s) (us_completed s) (S (us_failed s)) (us_pending s) (us_running s)
  else if bool_decide (status = "pending") then
    mk_user_stats (us_total s) (us_completed s) (us_failed s) (S (us_pending s)) (us_running s)
  else if bool_decide (status = "running") then
    mk_user_stats (us_total s) (us_completed s) (us_failed s) (us_pending s) (S (us_running s))
  else s.

(** The body of [for entity in entities]. *)
Definition add_entity (s : summary) (kv : row_key * entity) : summary :=
  let status := e_status kv.2 in
  let username := kv.1.1 in
  let stats := default (mk_user_stats 0 0 0 0 0) (sm_jobs_by_user s !! username) in
  let stats := mk_user_stats (S (us_total stats)) (us_completed stats) (us_failed stats)
                 (us_pending stats) (us_running stats) in
  mk_summary (sm_date s) (S (sm_total s))
    (if bool_decide (status = "pending") then S (sm_pending s) else sm_pending s)
    (if bool_decide (status = "running") then S (sm_running s) else sm_running s)
    (if bool_decide (status = "completed") then S (sm_completed s) else sm_completed s)
    (if bool_decide (status = "failed") then S (sm_failed s) else sm_failed s)
    (if bool_decide (status = "missed") then S (sm_missed s) else sm_missed s)
    (<[status := S (default O (sm_jobs_by_status s !! status))]> (sm_jobs_by_status s))
    (<[username := count_status status stats]> (sm_jobs_by_user s))
    (sm_jobs s
     ++ [mk_job_info username (e_job_id kv.2) (e_job_type kv.2) status
           (e_scheduled_time kv.2) (e_execution_start_time kv.2)
           (e_execution_end_time kv.2) (e_error_message kv.2)]).

(** The order of the sort keys [x.get('scheduled_time', '')].  Every row of
    a day has a scheduled time, so only the first case arises there. *)
Definition job_before (a b : job_info) : bool :=
  match ji_scheduled_time a, ji_scheduled_time b with
  | Some x, Some y => ltb x y
  | None, Some _ => true
  | _, None => false
  end.

(** [summary['jobs'].sort(key=...)]: ascending, equal keys in their order *)
Fixpoint insert_asc (x : job_info) (l : list job_info) : list job_info :=
  match l with
  | [] => [x]
  | y :: l' => if job_before y x then y :: insert_asc x l' else x :: l
  end.

Definition sort_asc (l : list job_info) : list job_info := foldr insert_asc [] l.

(** The rows the query of the day yields. *)
Definition of_the_day (target_date : datetime) (t : rows) : list (row_key * entity) :=
  filter (fun kv => scheduled_on target_date kv.2 = true) (map_to_list t).

(** [get_daily_job_summary(target_date)]; [None] is the empty dictionary
    returned when the table is not bound. *)
Definition get_daily_job_summary (now : datetime) (target_date : option datetime)
    (w : world) : option summary :=
  match _job_executions_table w with
  | None => None
  | Some t =>
      let target_date := default now target_date in
      let s := fold_left add_entity (of_the_day target_date t)
                 (mk_summary (date_str (midnight target_date)) 0 0 0 0 0 0 ∅ ∅ []) in
      Some (mk_summary (sm_date s) (sm_total s) (sm_pending s) (sm_running s)
              (sm_completed s) (sm_failed s) (sm_missed s)
              (sm_jobs_by_status s) (sm_jobs_by_user s) (sort_asc (sm_jobs s)))
  end.

End Summary.

Section DailySummary.
Import Summary.

(** The number of rows with a status, and of a user. *)
Definition with_status (status : string) (l : list (row_key * entity)) : nat :=
  length (filter (fun kv => e_status kv.2 = status) l).

Definition of_user (username : string) (l : list (row_key * entity)) : nat :=
  length (filter (fun kv => kv.1.1 = username) l).

(** What the accumulator holds once the rows [l] have been added. *)
Record summarizes (l : list (row_key * entity)) (s : summary) : Prop := {
  sz_total : sm_total s = length l;
  sz_pending : sm_pending s = with_status "pending" l;
  sz_running : sm_running s = with_status "running" l;
  sz_completed : sm_completed s = with_status "completed" l;
  sz_failed : sm_failed s = with_status "failed" l;
  sz_missed : sm_missed s = with_status "missed" l;
  sz_by_status :
    forall status,
      sm_jobs_by_status s !! status
      = if decide (with_status status l = O) then None
        else Some (with_status status l);
  sz_by_user :
    forall username,
      match sm_jobs_by_user s !! username with
      | None => of_user username l = O
      | Some stats =>
          of_user username l <> O
          /\ (with_status "total" l = O -> us_total stats = of_user username l)
          /\ (us_completed stats + us_failed stats + us_pending stats + us_running stats
              <= of_user username l)%nat
      end;
  sz_jobs : length (sm_jobs s) = length l
}.

Lemma with_status_snoc status l kv :
  with_status status (l ++ [kv])
  = (with_status status l + if decide (e_status kv.2 = status) then 1 else 0)%nat.
Proof.
  unfold with_status. rewrite filter_app, length_app. f_equal.
  destruct (decide (e_status kv.2 = status)).
  - by rewrite filter_cons_True.
  - by rewrite filter_cons_False.
Qed.

Lemma of_user_snoc username l kv :
  of_user username (l ++ [kv])
  = (of_user username l + if decide (kv.1.1 = username) then 1 else 0)%nat.
Proof.
  unfold of_user. rewrite filter_app, length_app. f_equal.
  destruct (decide (kv.1.1 = username)).
  - by rewrite filter_cons_True.
  - by rewrite filter_cons_False.
Qed.

Lemma counter_snoc (status : string) l kv (n : nat) :
  n = with_status status l ->
  (if bool_decide (e_status kv.2 = status) then S n else n)
  = with_status status (l ++ [kv]).
Proof.
  intros ->. rewrite with_status_snoc.
  case_bool_decide; [rewrite decide_True by done|rewrite decide_False by done]; lia.
Qed.

Lemma summarizes_add l s kv : summarizes l s -> summarizes (l ++ [kv]) (add_entity s kv).
Proof.
  intros [Ht Hp Hr Hc Hf Hm Hs Hu Hj]. split; simpl.
  - rewrite length_app. simpl. lia.
  - by apply counter_snoc.
  - by apply counter_snoc.
  - by apply counter_snoc.
  - by apply counter_snoc.
  - by apply counter_snoc.
  - intros status. rewrite with_status_snoc.
    destruct (decide (e_status kv.2 = status)) as [<-|Hne].
    + rewrite lookup_insert_eq, Hs.
      destruct (decide (with_status (e_status kv.2) l = O)) as [->|Hnz]; simpl.
      * done.
      * rewrite decide_False by lia. f_equal. lia.
    + rewrite lookup_insert_ne by done. rewrite Hs, Nat.add_0_r. done.
  - intros username. rewrite of_user_snoc.
    destruct (decide (kv.1.1 = username)) as [<-|Hne].
    + rewrite lookup_insert_eq. specialize (Hu kv.1.1).
      split; [lia|].
      assert (exists stats0,
                default (mk_user_stats 0 0 0 0 0) (sm_jobs_by_user s !! kv.1.1) = stats0
                /\ (with_status "total" l = O -> us_total stats0 = of_user kv.1.1 l)
                /\ (us_completed stats0 + us_failed stats0 + us_pending stats0
                    + us_running stats0 <= of_user kv.1.1 l)%nat)
        as (stats0 & -> & Htot & Hsum).
      { destruct (sm_jobs_by_user s !! kv.1.1) as [st|]; simpl.
        - exists st. tauto.
        - eexists. split; [done|]. simpl. split; lia. }
      split.
      * rewrite with_status_snoc. intros Hz.
        destruct (decide (e_status kv.2 = "total")) as [Heq|Hneq]; [lia|].
        unfold count_status. rewrite bool_decide_eq_false_2 by done.
        repeat case_bool_decide; simpl; rewrite Htot by lia; lia.
      * unfold count_status. repeat case_bool_decide; simpl; lia.
    + rewrite lookup_insert_ne by done. rewrite Nat.add_0_r.
      specialize (Hu username).
      destruct (sm_jobs_by_user s !! username) as [st|]; [|done].
      destruct Hu as (Hnz & Htot & Hsum). split; [done|]. split; [|done].
      rewrite with_status_snoc. intros Hz. apply Htot. lia.
  - rewrite !length_app. simpl. lia.
Qed.

Lemma summarizes_fold (l done_rows : list (row_key * entity)) s :
  summarizes done_rows s -> summarizes (done_rows ++ l) (fold_left add_entity l s).
Proof.
  revert done_rows s. induction l as [|kv l IH]; intros done_rows s Hs; simpl.
  { by rewrite app_nil_r. }
  replace (done_rows ++ kv :: l) with ((done_rows ++ [kv]) ++ l)
    by (by rewrite <- app_assoc).
  apply IH. by apply summarizes_add.
Qed.

Lemma with_status_cons status kv l :
  with_status status (kv :: l)
  = ((if decide (e_status kv.2 = status) then 1 else 0) + with_status status l)%nat.
Proof.
  unfold with_status. rewrite filter_cons. by destruct (decide _).
Qed.

Lemma known_statuses_bound l :
  (with_status "pending" l + with_status "running" l + with_status "completed" l
   + with_status "failed" l + with_status "missed" l <= length l)%nat.
Proof.
  induction l as [|kv l IH]; [done|].
  rewrite !with_status_cons. simpl length.
  destruct (decide (e_status kv.2 = "pending")) as [H1|H1];
    destruct (decide (e_status kv.2 = "running")) as [H2|H2];
    destruct (decide (e_status kv.2 = "completed")) as [H3|H3];
    destruct (decide (e_status kv.2 = "failed")) as [H4|H4];
    destruct (decide (e_status kv.2 = "missed")) as [H5|H5];
    try congruence; lia.
Qed.

Lemma none_of_the_day target (l : list (row_key * entity)) :
  existsb (fun kv => scheduled_on target kv.2) l = false
  <-> length (filter (fun kv => scheduled_on target kv.2 = true) l) = O.
Proof.
  induction l as [|kv l IH]; simpl; [done|].
  rewrite filter_cons. destruct (scheduled_on target kv.2) eqn:Hon; simpl.
  - split; [done|lia].
  - exact IH.
Qed.

Lemma insert_asc_length x l : length (insert_asc x l) = S (length l).
Proof.
  induction l as [|y l IH]; simpl; [done|].
  destruct (job_before y x); simpl; by rewrite ?IH.
Qed.

Lemma sort_asc_length l : length (sort_asc l) = length l.
Proof.
  induction l as [|x l IH]; simpl; [done|]. by rewrite insert_asc_length, IH.
Qed.

(** X15. The counts of [get_daily_job_summary] add up.  With the table
    bound, the summary of a day counts the records scheduled on that day:
    [total] is their number and the length of [jobs]; [pending],
    [running], [completed], [failed] and [missed] are the numbers of
    records with these statuses, so their sum is at most [total];
    [jobs_by_status] holds, for every status that occurs, the number of
    records with it and no other key; [jobs_by_user] holds an entry for
    exactly the users with a record, whose [total] is the number of the
    user's records unless some record has the status "total", and whose
    other four counters never sum to more.  [total] is zero exactly when
    [check_job_records_exist_for_date] answers False.  With the table not
    bound the summary is empty. *)
Theorem daily_summary_counts_add_up (now : datetime) (target_date : option datetime)
    (w : world) :
  (_job_executions_table w = None -> get_daily_job_summary now target_date w = None)
  /\ (forall t,
        _job_executions_table w = Some t ->
        exists s,
          get_daily_job_summary now target_date w = Some s
          /\ let day := of_the_day (default now target_date) t in
             sm_total s = length day
             /\ length (sm_jobs s) = sm_total s
             /\ sm_pending s = with_status "pending" day
             /\ sm_running s = with_status "running" day
             /\ sm_completed s = with_status "completed" day
             /\ sm_failed s = with_status "failed" day
             /\ sm_missed s = with_status "missed" day
             /\ (sm_pending s + sm_running s + sm_completed s + sm_failed s
                 + sm_missed s <= sm_total s)%nat
             /\ (forall status,
                   sm_jobs_by_status s !! status
                   = if decide (with_status status day = O) then None
                     else Some (with_status status day))
             /\ (forall username,
                   match sm_jobs_by_user s !! username with
                   | None => of_user username day = O
                   | Some stats =>
                       of_user username day <> O
                       /\ (with_status "total" day = O ->
                           us_total stats = of_user username day)
                       /\ (us_completed stats + us_failed stats + us_pending stats
                           + us_running stats <= of_user username day)%nat
                   end)
             /\ (check_job_records_exist_for_date (default now target_date) w = false
                 <-> sm_total s = O)).
Proof.
  split.
  { intros Ht. unfold get_daily_job_summary. by rewrite Ht. }
  intros t Ht. unfold get_daily_job_summary. rewrite Ht.
  set (target := default now target_date).
  set (day := of_the_day target t).
  eexists. split; [done|]. simpl.
  destruct (summarizes_fold day []
              (mk_summary (date_str (midnight target)) 0 0 0 0 0 0 ∅ ∅ []))
    as [Htot Hp Hr Hc Hf Hm Hs Hu Hj].
  { split; simpl; try done; intros ?; by rewrite lookup_empty. }
  simpl in *.
  split; [done|]. split; [by rewrite sort_asc_length, Hj, Htot|].
  split; [done|]. split; [done|]. split; [done|]. split; [done|]. split; [done|].
  split.
  { rewrite Hp, Hr, Hc, Hf, Hm, Htot. apply known_statuses_bound. }
  split; [done|]. split; [done|].
  rewrite Htot. unfold check_job_records_exist_for_date. rewrite Ht.
  apply none_of_the_day.
Qed.

End DailySummary.

(** ** Replacing the jobs configuration ([update_jobs_config] of [main.py]) *)

Module JobsConfig.

(** How [update_jobs_config] can fail, with the status code of the
    [HTTPException] it raises. *)
Inductive failure :=
| JobsConfigRequired
| InvalidType (job_id : string)
| SaveFailed
| Unexpected (error : string).

Definition status_code (f : failure) : Z :=
  match f with
  | JobsConfigRequired => 400
  | InvalidType _ => 400
  | SaveFailed => 500
  | Unexpected _ => 500
  end.

(** [job_config["type"] not in ["daily", "hourly", "custom"]] *)
Definition type_allowed (type : pyval) : bool :=
  eq_str type "daily" || eq_str type "hourly" || eq_str type "custom".

(** The validation loop: the first job with a type that is not allowed
    fails the request; a job without the key raises [KeyError]. *)
Fixpoint check_types (new_config : list (string * job_config)) : option failure :=
  match new_config with
  | [] => None
  | (job_id, job_config) :: rest =>
      match job_config !! "type" with
      | None => Some (Unexpected "KeyError")
      | Some type =>
          if type_allowed type then check_types rest else Some (InvalidType job_id)
      end
  end.

(** [update_jobs_config]; [jobs_config] is [data.get("jobs_config")] and
    [save_jobs_config] the outcome of saving, should it be tried.  The
    value is [jobs_count] on success, paired with the configuration
    handed to [save_jobs_config], if any. *)
Definition update_jobs_config (jobs_config : option (list (string * job_config)))
    (save_jobs_config : list (string * job_config) -> bool)
    : (nat + failure) * option (list (string * job_config)) :=
  match jobs_config with
  | None => (inr JobsConfigRequired, None)
  | Some [] => (inr JobsConfigRequired, None)
  | Some new_config =>
      match check_types new_config with
      | Some f => (inr f, None)
      | None =>
          if save_jobs_config new_config
          then (inl (length new_config), Some new_config)
          else (inr SaveFailed, Some new_config)
      end
  end.

End JobsConfig.

Section JobsConfigProperties.
Import JobsConfig.

Lemma check_types_passed new_config :
  check_types new_config = None
  <-> Forall (fun job => exists type, job.2 !! "type" = Some type
                                      /\ type_allowed type = true) new_config.
Proof.
  induction new_config as [|[job_id job_config] rest IH]; simpl.
  { split; [constructor|done]. }
  rewrite Forall_cons. simpl.
  destruct (job_config !! "type") as [type|].
  - destruct (type_allowed type) eqn:Hok.
    + rewrite IH. split; [|tauto]. intros Hrest. split; [eauto|done].
    + split; [done|]. intros [(type' & [= <-] & Hok') _]. congruence.
  - split; [done|]. by intros [(type' & ? & _) _].
Qed.

(** X16. What [update_jobs_config] accepts.  The configuration is handed
    to [save_jobs_config] only when it is not empty and every job in it
    has a type among daily, hourly and custom; the request succeeds, with
    the number of jobs as count, exactly when in addition the saving
    succeeds.  A configuration that holds a job of type weekly, the third
    type the scheduler runs, is never saved through this endpoint. *)
Theorem update_jobs_config_accepts (jobs_config : option (list (string * job_config)))
    (save_jobs_config : list (string * job_config) -> bool) :
  let r := update_jobs_config jobs_config save_jobs_config in
  (forall saved,
     r.2 = Some saved <->
     jobs_config = Some saved /\ saved <> []
     /\ Forall (fun job => exists type, job.2 !! "type" = Some type
                                        /\ type_allowed type = true) saved)
  /\ (forall count,
        r.1 = inl count <->
        exists saved, r.2 = Some saved /\ save_jobs_config saved = true
                      /\ count = length saved)
  /\ (forall new_config job_id job_config,
        jobs_config = Some new_config ->
        (job_id, job_config) ∈ new_config ->
        eq_str (get job_config "type") JobType.WEEKLY = true ->
        r.2 = None /\ exists f, r.1 = inr f).
Proof.
  simpl. unfold update_jobs_config.
  destruct jobs_config as [[|job rest]|].
  - split; [|split].
    + intros saved. split; [done|]. intros ([= <-] & Hne & _). done.
    + intros count. split; [done|]. by intros (saved & ? & _).
    + intros new_config job_id job_config [= <-] Hin. by apply elem_of_nil in Hin.
  - set (new_config := job :: rest).
    destruct (check_types new_config) as [f|] eqn:Hcheck.
    + split; [|split].
      * intros saved. split; [done|]. intros ([= <-] & _ & Hall).
        apply check_types_passed in Hall. congruence.
      * intros count. split; [done|]. by intros (saved & ? & _).
      * intros nc job_id job_config [= <-] Hin Hw. split; [done|]. by exists f.
    + pose proof (proj1 (check_types_passed new_config) Hcheck) as Hall.
      split; [|split].
      * intros saved. destruct (save_jobs_config new_config); simpl.
        -- split; [intros [= <-]; done|]. by intros ([= <-] & _).
        -- split; [intros [= <-]; done|]. by intros ([= <-] & _).
      * intros count. destruct (save_jobs_config new_config) eqn:Hsave; simpl.
        -- split; [intros [= <-]; by exists new_config|].
           intros (saved & [= <-] & _ & ->). done.
        -- split; [done|]. intros (saved & [= <-] & Hs & _). congruence.
      * intros nc job_id job_config [= <-] Hin Hw. exfalso.
        rewrite Forall_forall in Hall.
        destruct (Hall _ Hin) as (type & Hty & Hok). simpl in *.
        unfold get in Hw. rewrite Hty in Hw. simpl in Hw.
        unfold type_allowed, eq_str, JobType.WEEKLY in *.
        destruct type as [| | |s|]; try done.
        apply bool_decide_eq_true in Hw. subst s. done.
  - split; [|split].
    + intros saved. split; [done|]. by intros (? & _).
    + intros count. split; [done|]. by intros (saved & ? & _).
    + intros new_config job_id job_config ?. done.
Qed.

End JobsConfigProperties.

(** ** Hall combat sessions: the callers of the registry in [hall_utils.py] *)

Module Halls.
Import Requests RequestsMore.

(** An entry of [hall_combat_threads]: the number of threads registered
    and [active_count], which is absent until a thread has finished. *)
Record thread_info := mk_thread_info {
  ti_threads : nat;
  ti_active_count : option Z
}.

(** The dictionary [hall_combat_threads] together with the registry of
    requests; the lock [hall_combat_lock] is bound ([set_hall_globals] has
    run) and held by each of the operations below for its whole body. *)
Record sessions := mk_sessions {
  hall_combat_threads : gmap string thread_info;
  registry : globals
}.

Definition register_hall_combat_threads (username : string) (threads : nat)
    (s : sessions) : sessions :=
  mk_sessions (<[username := mk_thread_info threads None]> (hall_combat_threads s))
    (registry s).

(** [thread_info.get('active_count', 0)] *)
Definition active_count (info : thread_info) : Z := default 0 (ti_active_count info).

Definition is_hall_combat_running (username : string) (s : sessions)
    : outcome bool * sessions :=
  match hall_combat_threads s !! username with
  | None => (Returned false, s)
  | Some thread_info =>
      if active_count thread_info <=? 0 then
        let threads := delete username (hall_combat_threads s) in
        let cleared := clear_requests_for_user username (registry s) in
        (match cleared.1 with
         | Returned _ => Returned false
         | Raised e => Raised e
         end,
         mk_sessions threads cleared.2)
      else (Returned true, s)
  end.

Section Threads.
Variable py_hash : list string -> Z.

(** The [finally] block of [run_hall], run by a thread of the session of
    (username, session type, account names) when it ends. *)
Definition thread_finished (username session_type : string) (account_names : list string)
    (s : sessions) : outcome unit * sessions :=
  match hall_combat_threads s !! username with
  | None => (Returned tt, s)
  | Some thread_info =>
      let count :=
        match ti_active_count thread_info with
        | Some n => n
        | None => Z.of_nat (ti_threads thread_info)
        end - 1 in
      if count <=? 0 then
        let released :=
          mark_request_inactive py_hash username session_type (Many account_names)
            (registry s) in
        (released.1, mk_sessions (delete username (hall_combat_threads s)) released.2)
      else
        (Returned tt,
         mk_sessions
           (<[username := mk_thread_info (ti_threads thread_info) (Some count)]>
              (hall_combat_threads s))
           (registry s))
  end.

(** [k] threads of the session end, one after the other. *)
Fixpoint threads_finished (k : nat) (username session_type : string)
    (account_names : list string) (s : sessions) : sessions :=
  match k with
  | O => s
  | S k' =>
      threads_finished k' username session_type account_names
        (thread_finished username session_type account_names s).2
  end.

End Threads.

(** [s.split(sep)] for a separator of one character *)
Fixpoint split_on (sep : ascii) (s : string) : list string :=
  match s with
  | EmptyString => [EmptyString]
  | String c s' =>
      if bool_decide (c = sep) then EmptyString :: split_on sep s'
      else
        match split_on sep s' with
        | piece :: rest => String c piece :: rest
        | [] => [String c EmptyString]
        end
  end.

(** A cached account, as far as the set-up of a session reads it: the
    value under [combat_counts], if the key is there, whether the key
    [hall_settings] is there, and whether there is any other key. *)
Record account := mk_account {
  a_combat_counts : option pyval;
  a_has_hall_settings : bool;
  a_has_other_keys : bool
}.

(** [bool(cached_account)]: the dictionary is not empty. *)
Definition account_truthy (a : account) : bool :=
  bool_decide (is_Some (a_combat_counts a)) || a_has_hall_settings a || a_has_other_keys a.

(** [cached_accounts.get(acc_name)], when the value is truthy *)
Definition get_account (cached_accounts : gmap string account) (acc_name : string)
    : option account :=
  match cached_accounts !! acc_name with
  | Some a => if account_truthy a then Some a else None
  | None => None
  end.

(** The weekly quota is used up: [current_count >= total_count and
    current_count != 0] for a value of the form "current/total"; any
    other value leaves the account in. *)
Definition quota_completed (combat_counts : pyval) : bool :=
  match combat_counts with
  | PStr s =>
      match split_on "/" s with
      | [current; total] =>
          match int (PStr current), int (PStr total) with
          | Returned current_count, Returned total_count =>
              (total_count <=? current_count) && negb (current_count =? 0)
          | _, _ => false
          end
      | _ => false
      end
  | _ => false
  end.

Inductive setup_error :=
| AlreadyRunning                  (** 409 *)
| FailedToStart                   (** 500 *)
| AccountNotFound (name : string) (** 404 *)
| QuotaCompleted                  (** 400 *)
| NoValidAccounts                 (** 404 *)
| KeyError
| Error (e : string).

(** The loop over the account names. *)
Fixpoint select_accounts (cached_accounts : gmap string account)
    (skip_combat_count_check : bool) (account_names : list string)
    (selected_accs : list (string * account))
    : list (string * account) + setup_error :=
  match account_names with
  | [] => inl selected_accs
  | acc_name :: rest =>
      match get_account cached_accounts acc_name with
      | None => inr (AccountNotFound acc_name)
      | Some cached_account =>
          if negb skip_combat_count_check
             && quota_completed (default PNone (a_combat_counts cached_account))
          then select_accounts cached_accounts skip_combat_count_check rest selected_accs
          else if a_has_hall_settings cached_account
          then select_accounts cached_accounts skip_combat_count_check rest
                 (selected_accs ++ [(acc_name, cached_account)])
          else inr KeyError
      end
  end.

Section Setup.
Variable py_hash : list string -> Z.

(** [_setup_hall_combat_session]; [cached_accounts] is what
    [get_cached_accounts(username)] yields.  The value holds the selected
    accounts by name; the entity built for each is not modelled. *)
Definition _setup_hall_combat_session (now : datetime)
    (cached_accounts : gmap string account)
    (username : string) (account_names : list string) (session_type : string)
    (skip_combat_count_check : bool) (g : globals)
    : (list (string * account) + setup_error) * globals :=
  match is_request_active py_hash username session_type (Many account_names) g with
  | Raised e => (inr (Error e), g)
  | Returned true => (inr AlreadyRunning, g)
  | Returned false =>
      let marked :=
        mark_request_active py_hash now username session_type (Many account_names) g in
      match marked.1 with
      | Raised e => (inr (Error e), marked.2)
      | Returned false => (inr FailedToStart, marked.2)
      | Returned true =>
          match select_accounts cached_accounts skip_combat_count_check account_names [] with
          | inr e => (inr e, marked.2)
          | inl [] =>
              let released :=
                mark_request_inactive py_hash username session_type (Many account_names)
                  marked.2 in
              match released.1 with
              | Raised e => (inr (Error e), released.2)
              | Returned _ =>
                  if existsb (fun acc_name =>
                             bool_decide (is_Some (get_account cached_accounts acc_name)))
                       account_names
                  then (inr QuotaCompleted, released.2)
                  else (inr NoValidAccounts, released.2)
              end
          | inl selected_accs => (inl selected_accs, marked.2)
          end
      end
  end.

(** The lines of [hall_combat_stream] that come right before the set-up:
    a request found active is released as stale. *)
Definition clear_stale_request (username session_type : string)
    (account_names : list string) (g : globals) : outcome unit * globals :=
  match is_request_active py_hash username session_type (Many account_names) g with
  | Raised e => (Raised e, g)
  | Returned true =>
      mark_request_inactive py_hash username session_type (Many account_names) g
  | Returned false => (Returned tt, g)
  end.

End Setup.

End Halls.

Section HallSessions.
Import Requests RequestsMore Halls.
Variable py_hash : list string -> Z.

Implicit Types (s : sessions) (d : gmap string request_info) (g : globals).

(** The number of threads of a session that have not ended. *)
Definition remaining (info : thread_info) : Z :=
  match ti_active_count info with
  | Some n => n
  | None => Z.of_nat (ti_threads info)
  end.

Lemma thread_finished_running username session_type account_names s info :
  hall_combat_threads s !! username = Some info ->
  1 < remaining info ->
  thread_finished py_hash username session_type account_names s
  = (Returned tt,
     mk_sessions
       (<[username := mk_thread_info (ti_threads info) (Some (remaining info - 1))]>
          (hall_combat_threads s))
       (registry s)).
Proof.
  intros Hinfo Hrem. unfold thread_finished. rewrite Hinfo.
  fold (remaining info).
  destruct (Z.leb_spec (remaining info - 1) 0); [lia|done].
Qed.

Lemma thread_finished_last username session_type account_names s info :
  hall_combat_threads s !! username = Some info ->
  remaining info <= 1 ->
  thread_finished py_hash username session_type account_names s
  = ((mark_request_inactive py_hash username session_type (Many account_names)
        (registry s)).1,
     mk_sessions (delete username (hall_combat_threads s))
       (mark_request_inactive py_hash username session_type (Many account_names)
          (registry s)).2).
Proof.
  intros Hinfo Hrem. unfold thread_finished. rewrite Hinfo.
  fold (remaining info).
  destruct (Z.leb_spec (remaining info - 1) 0); [done|lia].
Qed.

Lemma threads_finished_running (k : nat) username session_type account_names s info :
  hall_combat_threads s !! username = Some info ->
  Z.of_nat k < remaining info ->
  (0 < k)%nat ->
  threads_finished py_hash k username session_type account_names s
  = mk_sessions
      (<[username := mk_thread_info (ti_threads info)
                       (Some (remaining info - Z.of_nat k))]>
         (hall_combat_threads s))
      (registry s).
Proof.
  revert s info. induction k as [|k IH]; intros s info Hinfo Hrem Hk; [lia|].
  simpl. rewrite (thread_finished_running _ _ _ s info Hinfo) by lia. simpl.
  destruct k as [|k'].
  { simpl. done. }
  rewrite (IH _ (mk_thread_info (ti_threads info) (Some (remaining info - 1)))).
  - simpl. rewrite insert_insert_eq. unfold remaining at 1. simpl.
    replace (remaining info - 1 - Z.of_nat (S k')) with (remaining info - Z.of_nat (S (S k'))) by lia.
    done.
  - simpl. by rewrite lookup_insert_eq.
  - unfold remaining at 1. simpl. lia.
  - lia.
Qed.

Lemma released_registry username session_type account_names g d :
  initialized g d ->
  let released :=
    mark_request_inactive py_hash username session_type account_names g in
  released.1 = Returned tt
  /\ initialized released.2
       (delete (get_request_key py_hash username session_type account_names) d).
Proof.
  intros Hinit. simpl.
  destruct (d !! get_request_key py_hash username session_type account_names) eqn:Hk.
  - rewrite (mark_inactive_present py_hash _ _ _ g d Hinit) by eauto. done.
  - rewrite (mark_inactive_absent py_hash _ _ _ g d Hinit Hk).
    rewrite delete_id by done. done.
Qed.

(** X18. The book-keeping of a hall combat session counts the threads that
    end.  After [register_hall_combat_threads] for [n] threads, the entry
    of the user stays while fewer than [n] threads have ended, holding
    the number of threads still to end, and [is_hall_combat_running]
    answers True; when the [n]-th thread ends the entry is removed and
    the request of the session is released from the registry.  The count
    starts when the first thread ends after the registration: if one of
    the [n] threads has ended before the registration, the ends of the
    other [n - 1] leave the entry in place with a count of one, the
    request stays in the registry, and [is_hall_combat_running] goes on
    answering True. *)
Theorem session_ends_with_its_last_thread (username session_type : string)
    (account_names : list string) (n : nat) s d :
  initialized (registry s) d ->
  (2 <= n)%nat ->
  let key := get_request_key py_hash username session_type (Many account_names) in
  let registered := register_hall_combat_threads username n s in
  (forall k, (1 <= k < n)%nat ->
     let now := threads_finished py_hash k username session_type account_names registered in
     hall_combat_threads now !! username
     = Some (mk_thread_info n (Some (Z.of_nat n - Z.of_nat k)))
     /\ registry now = registry s
     /\ is_hall_combat_running username now = (Returned true, now))
  /\ (let ended := threads_finished py_hash n username session_type account_names registered in
      hall_combat_threads ended !! username = None
      /\ active_requests (registry ended) = Some (delete key d)
      /\ is_hall_combat_running username ended = (Returned false, ended))
  /\ (hall_combat_threads s !! username = None ->
      let early := (thread_finished py_hash username session_type account_names s).2 in
      let late :=
        threads_finished py_hash (n - 1) username session_type account_names
          (register_hall_combat_threads username n early) in
      hall_combat_threads late !! username = Some (mk_thread_info n (Some 1))
      /\ registry late = registry s
      /\ is_hall_combat_running username late = (Returned true, late)).
Proof.
  intros Hinit Hn. simpl.
  set (registered := register_hall_combat_threads username n s).
  assert (hall_combat_threads registered !! username = Some (mk_thread_info n None))
    as Hreg by (unfold registered; simpl; by rewrite lookup_insert_eq).
  assert (remaining (mk_thread_info n None) = Z.of_nat n) as Hrem by done.
  assert (forall k, (1 <= k < n)%nat ->
            threads_finished py_hash k username session_type account_names registered
            = mk_sessions
                (<[username := mk_thread_info n (Some (Z.of_nat n - Z.of_nat k))]>
                   (hall_combat_threads registered))
                (registry s)) as Hrun.
  { intros k Hk.
    rewrite (threads_finished_running k _ _ _ registered _ Hreg) by (rewrite ?Hrem; lia).
    done. }
  split; [|split].
  - intros k Hk. rewrite (Hrun k Hk). simpl.
    rewrite lookup_insert_eq. split; [done|]. split; [done|].
    unfold is_hall_combat_running. simpl. rewrite lookup_insert_eq.
    unfold active_count. simpl.
    destruct (Z.leb_spec (Z.of_nat n - Z.of_nat k) 0); [lia|done].
  - assert (forall k s0,
              threads_finished py_hash (S k) username session_type account_names s0
              = (thread_finished py_hash username session_type account_names
                   (threads_finished py_hash k username session_type
                      account_names s0)).2) as Hsnoc.
    { intros k. induction k as [|k IH]; intros s0; [done|].
      change (threads_finished py_hash (S (S k)) username session_type account_names s0)
        with (threads_finished py_hash (S k) username session_type account_names
                (thread_finished py_hash username session_type account_names s0).2).
      rewrite IH. done. }
    assert (threads_finished py_hash n username session_type account_names registered
            = mk_sessions (delete username (hall_combat_threads registered))
                (mark_request_inactive py_hash username session_type
                   (Many account_names) (registry s)).2) as ->.
    { replace n with (S (n - 1)) at 1 by lia.
      rewrite Hsnoc, (Hrun (n - 1)%nat) by lia.
      rewrite (thread_finished_last _ _ _ _
                 (mk_thread_info n (Some (Z.of_nat n - Z.of_nat (n - 1))))).
      - simpl. by rewrite delete_insert_eq.
      - simpl. by rewrite lookup_insert_eq.
      - unfold remaining. simpl. lia. }
    simpl.
    destruct (released_registry username session_type (Many account_names)
                (registry s) d Hinit) as [_ [_ Hd]].
    rewrite lookup_delete_eq. split; [done|]. split; [done|].
    unfold is_hall_combat_running. simpl. by rewrite lookup_delete_eq.
  - intros Hnone.
    assert (thread_finished py_hash username session_type account_names s = (Returned tt, s))
      as -> by (unfold thread_finished; by rewrite Hnone).
    simpl. fold registered.
    rewrite (Hrun (n - 1)%nat) by lia. simpl.
    replace (Z.of_nat n - Z.of_nat (n - 1)) with 1 by lia.
    rewrite lookup_insert_eq. split; [done|]. split; [done|].
    unfold is_hall_combat_running. simpl. by rewrite lookup_insert_eq.
Qed.

(** X19. Asked before any thread of a session has ended,
    [is_hall_combat_running] does not report the session: for a session
    just registered it answers False, removes the entry of the user and
    clears every request of the user from the registry, the one of the
    session included; requests of other users stay.  The threads that
    end afterwards find no entry and change nothing. *)
Theorem session_not_reported_before_a_thread_ends (username session_type : string)
    (account_names : list string) (n : nat) s d :
  initialized (registry s) d ->
  let asked := is_hall_combat_running username (register_hall_combat_threads username n s) in
  asked.1 = Returned false
  /\ hall_combat_threads asked.2 !! username = None
  /\ (exists d',
        initialized (registry asked.2) d'
        /\ forall key info,
             d' !! key = Some info <-> d !! key = Some info /\ r_username info <> username)
  /\ thread_finished py_hash username session_type account_names asked.2
     = (Returned tt, asked.2).
Proof.
  intros Hinit. simpl. unfold is_hall_combat_running, register_hall_combat_threads.
  simpl. rewrite lookup_insert_eq. unfold active_count. simpl.
  destruct (clear_requests_for_user_initialized username (registry s) d Hinit)
    as (d' & Hr & Hlk).
  rewrite Hr. simpl.
  rewrite lookup_delete_eq. split; [done|]. split; [done|]. split.
  - exists d'. split; [done|]. exact Hlk.
  - unfold thread_finished. simpl. by rewrite lookup_delete_eq.
Qed.

End HallSessions.

Section HallSetup.
Import Requests RequestsMore Halls.
Variable py_hash : list string -> Z.

Implicit Types (d : gmap string request_info) (g : globals).

Lemma select_accounts_spec cached_accounts skip account_names selected_accs :
  match select_accounts cached_accounts skip account_names selected_accs with
  | inl selected =>
      exists more,
        selected = selected_accs ++ more
        /\ Forall (fun p => p.1 ∈ account_names /\ get_account cached_accounts p.1 = Some p.2) more
  | inr (AccountNotFound name) =>
      name ∈ account_names /\ get_account cached_accounts name = None
  | inr KeyError =>
      exists name a, name ∈ account_names /\ get_account cached_accounts name = Some a
                     /\ a_has_hall_settings a = false
  | inr _ => False
  end.
Proof.
  revert selected_accs.
  induction account_names as [|acc_name rest IH]; intros selected_accs; simpl.
  { exists []. by rewrite app_nil_r. }
  destruct (get_account cached_accounts acc_name) as [a|] eqn:Ha.
  2:{ split; [by left|done]. }
  destruct (negb skip && quota_completed (default PNone (a_combat_counts a))).
  { specialize (IH selected_accs).
    destruct (select_accounts cached_accounts skip rest selected_accs) as [sel|[]];
      try done.
    - destruct IH as (more & -> & Hall). exists more. split; [done|].
      eapply Forall_impl; [exact Hall|]. intros p [Hin Hp]. split; [by right|done].
    - destruct IH as [Hin Hn]. split; [by right|done].
    - destruct IH as (name & a' & Hin & Hn & Hh). exists name, a'.
      split; [by right|done]. }
  destruct (a_has_hall_settings a) eqn:Hhs.
  2:{ exists acc_name, a. split; [by left|done]. }
  specialize (IH (selected_accs ++ [(acc_name, a)])).
  destruct (select_accounts cached_accounts skip rest (selected_accs ++ [(acc_name, a)]))
    as [sel|[]]; try done.
  - destruct IH as (more & -> & Hall). exists ((acc_name, a) :: more).
    split; [by rewrite <- app_assoc|].
    constructor; [split; [by left|done]|].
    eapply Forall_impl; [exact Hall|]. intros p [Hin Hp]. split; [by right|done].
  - destruct IH as [Hin Hn]. split; [by right|done].
  - destruct IH as (name & a' & Hin & Hn & Hh). exists name, a'.
    split; [by right|done].
Qed.

(** X20. The set-up of a hall combat session and the registry.  On an
    initialized registry, [_setup_hall_combat_session] answers 409 and
    changes nothing when the request is already marked active.
    Otherwise it marks the request, and the mark is still there when it
    returns the selected accounts (a list that is not empty, of cached
    accounts among the names given) and also when it fails on an account
    that is not cached or has no hall settings; the mark is taken back
    only when no account was selected (the 400 and 404 answers).  In
    [hall_combat_stream] the 409 is never given: the lines before the
    set-up release a request found active, so the set-up finds none. *)
Theorem hall_setup_and_the_registry (now : datetime)
    (cached_accounts : gmap string account)
    (username : string) (account_names : list string) (session_type : string)
    (skip_combat_count_check : bool) g d :
  initialized g d ->
  let key := get_request_key py_hash username session_type (Many account_names) in
  let marked :=
    <[key := mk_request_info username session_type (Many account_names) now]> d in
  let r := _setup_hall_combat_session py_hash now cached_accounts username account_names
             session_type skip_combat_count_check g in
  (is_Some (d !! key) -> r = (inr AlreadyRunning, g))
  /\ (d !! key = None ->
      match r.1 with
      | inl selected_accs =>
          selected_accs <> []
          /\ Forall (fun p => p.1 ∈ account_names /\ get_account cached_accounts p.1 = Some p.2)
               selected_accs
          /\ active_requests r.2 = Some marked
      | inr (AccountNotFound name) =>
          name ∈ account_names /\ get_account cached_accounts name = None
          /\ active_requests r.2 = Some marked
      | inr KeyError => active_requests r.2 = Some marked
      | inr QuotaCompleted => active_requests r.2 = Some d
      | inr NoValidAccounts => active_requests r.2 = Some d
      | inr _ => False
      end)
  /\ (let cleared := clear_stale_request py_hash username session_type account_names g in
      cleared.1 = Returned tt
      /\ (_setup_hall_combat_session py_hash now cached_accounts username account_names
            session_type skip_combat_count_check cleared.2).1
         <> inr AlreadyRunning).
Proof.
  intros Hinit. simpl.
  set (key := get_request_key py_hash username session_type (Many account_names)).
  assert (forall g0 d0, initialized g0 d0 ->
            is_request_active py_hash username session_type (Many account_names) g0
            = Returned (bool_decide (is_Some (d0 !! key)))) as Hactive.
  { intros g0 d0 [Hl Hd]. unfold is_request_active, contains. by rewrite Hl, Hd. }
  assert (forall g0 d0, initialized g0 d0 -> d0 !! key = None ->
            match (_setup_hall_combat_session py_hash now cached_accounts username
                     account_names session_type skip_combat_count_check g0).1 with
            | inl selected_accs =>
                selected_accs <> []
                /\ Forall (fun p => p.1 ∈ account_names
                                    /\ get_account cached_accounts p.1 = Some p.2) selected_accs
                /\ active_requests
                     (_setup_hall_combat_session py_hash now cached_accounts username
                        account_names session_type skip_combat_count_check g0).2
                   = Some (<[key := mk_request_info username session_type
                                      (Many account_names) now]> d0)
            | inr (AccountNotFound name) =>
                name ∈ account_names /\ get_account cached_accounts name = None
                /\ active_requests
                     (_setup_hall_combat_session py_hash now cached_accounts username
                        account_names session_type skip_combat_count_check g0).2
                   = Some (<[key := mk_request_info username session_type
                                      (Many account_names) now]> d0)
            | inr KeyError =>
                active_requests
                  (_setup_hall_combat_session py_hash now cached_accounts username
                     account_names session_type skip_combat_count_check g0).2
                = Some (<[key := mk_request_info username session_type
                                   (Many account_names) now]> d0)
            | inr QuotaCompleted | inr NoValidAccounts =>
                active_requests
                  (_setup_hall_combat_session py_hash now cached_accounts username
                     account_names session_type skip_combat_count_check g0).2
                = Some d0
            | inr _ => False
            end) as Hfree.
  { intros g0 d0 Hinit0 Hk. unfold _setup_hall_combat_session.
    rewrite (Hactive g0 d0 Hinit0), Hk.
    rewrite bool_decide_eq_false_2 by (by intros [? ?]).
    rewrite (mark_active_fresh py_hash now username session_type (Many account_names)
               g0 d0 Hinit0 Hk). simpl. fold key.
    pose proof (select_accounts_spec cached_accounts skip_combat_count_check
                  account_names []) as Hsel.
    destruct (select_accounts cached_accounts skip_combat_count_check account_names [])
      as [[|p sel]|err]; simpl.
    - set (d1 := <[key := mk_request_info username session_type (Many account_names) now]> d0).
      assert (initialized (mk_globals (Some d1) true) d1) as Hinit1 by done.
      destruct (released_registry py_hash username session_type (Many account_names)
                  _ d1 Hinit1) as [Hr [_ Hd]].
      rewrite Hr. fold key in Hd.
      unfold d1 in Hd. rewrite delete_insert_eq, delete_id in Hd by done.
      destruct (existsb _ account_names); simpl; exact Hd.
    - destruct Hsel as (more & Heq & Hall). simpl in Heq. subst more. done.
    - destruct err; try done. destruct Hsel as [Hin Hn]. done. }
  split; [|split].
  - intros Hk. unfold _setup_hall_combat_session.
    rewrite (Hactive g d Hinit). by rewrite bool_decide_eq_true_2.
  - intros Hk. apply (Hfree g d Hinit Hk).
  - unfold clear_stale_request. rewrite (Hactive g d Hinit).
    destruct (d !! key) eqn:Hk.
    + rewrite bool_decide_eq_true_2 by eauto.
      destruct (released_registry py_hash username session_type (Many account_names)
                  g d Hinit) as [Hr Hinit'].
      split; [done|]. fold key in Hinit'.
      pose proof (Hfree _ _ Hinit' (lookup_delete_eq d key)) as Hres.
      intros Heq. rewrite Heq in Hres. done.
    + rewrite bool_decide_eq_false_2 by (by intros [? ?]). simpl.
      split; [done|]. pose proof (Hfree g d Hinit Hk) as Hres.
      intros Heq. rewrite Heq in Hres. done.
Qed.

End HallSetup.
(** ** Which jobs a pass submits and runs *)

Section Eligibility.

(** X21. Which jobs a pass submits and runs.  Every job [run_jobs] submits
    is held by a user of the pass who is not an admin and whose
    scheduling is enabled, is itself enabled and is of the type of the
    pass; when the (user, job) pairs of the settings are distinct, none
    is submitted twice.  The executor calls of the pass are those of the
    submitted jobs that have a registered executor, one call each: a pass
    calls no executor for any other job. *)
Theorem pass_runs_only_eligible_jobs (tk : tick) (w : world) (submitted : list queued) :
  (run_jobs tk w).1 = Returned submitted ->
  Forall (eligible (t_users tk) (t_job_type tk)) submitted
  /\ (NoDup (all_jobs (t_users tk)) -> NoDup (job_of <$> submitted))
  /\ exists added,
       calls (trace (run_jobs tk w).2) = calls (trace w) ++ added
       /\ added
          ≡ₚ call_of tk
               <$> filter (fun item => is_Some (executors w !! q_job_id item)) submitted.
Proof.
  intros Hres.
  apply run_jobs_returned in Hres
    as [(_ & -> & ->)|(_ & _ & job_queue & w1 & Hc & -> & ->)].
  { split; [constructor|]. split; [intros _; constructor|].
    exists []. simpl. by rewrite app_nil_r. }
  pose proof (submit_loop_prefix (length job_queue) (t_observe tk) 0 job_queue) as Hpre.
  pose proof (drain_perm (length job_queue) job_queue (le_n _)) as Hperm.
  set (submitted := submit_loop (length job_queue) (t_observe tk) 0 job_queue) in *.
  assert (Forall (eligible (t_users tk) (t_job_type tk)) job_queue) as Hel.
  { destruct Hc as [n Hc].
    apply (fold_m_invariant
             (fun acc => Forall (eligible (t_users tk) (t_job_type tk)) acc.1)
             (collect_user (t_job_type tk) (t_china_now tk)) (t_users tk))
      with (s := (@nil queued, O)) (w := w) (s' := (job_queue, n)) (w' := w1);
      [|constructor|exact Hc].
    intros user acc w0 acc' w0' Huser Hacc Hstep.
    by apply (collect_user_eligible _ _ (t_china_now tk) acc user w0 acc' w0'). }
  apply collected_spec in Hc as (Hfr & _ & _ & Hsub).
  split; [|split].
  - rewrite Forall_forall in Hel |- *. intros item Hi. apply Hel.
    rewrite <- Hperm. eapply elem_of_sublist; [exact Hi|]. by apply prefix_sublist.
  - intros Hnd.
    apply (sublist_NoDup _ (job_of <$> drain (length job_queue) job_queue)).
    + rewrite Hperm. eapply sublist_NoDup; [exact Hnd|]. by rewrite <- map_fmap.
    + rewrite <- !map_fmap. by apply sublist_map, prefix_sublist.
  - destruct (run_workers_calls tk submitted w1) as [_ ->].
    destruct Hfr as (Hex & _ & _ & Htr). rewrite Hex, Htr. by eexists.
Qed.

End Eligibility.
(** ** What a worker leaves alone *)

Section WorkerFrame.
Variables (username job_id job_type execution_id : string) (china_now : datetime).

(** A key under which the follow-up record of the job can be filed: one
    of the user, formed from the job id, and only for an hourly job. *)
Definition follow_up_key (k : row_key) : Prop :=
  job_type = JobType.HOURLY
  /\ exists scheduled_time, k = (username, generate_execution_id job_id scheduled_time).

(** From [w] to [w'] the executor table is the same, the tracker is the
    same but for the key of the job, and the table of records is the same
    but for the record of the run and a follow-up record; no record has
    gone. *)
Definition confined (w w' : world) : Prop :=
  executors w' = executors w
  /\ (forall key, key <> tracker_key username job_id china_now ->
        job_execution_tracker w' !! key = job_execution_tracker w !! key)
  /\ forall t, _job_executions_table w = Some t ->
       exists t',
         _job_executions_table w' = Some t'
         /\ (forall k, k <> (username, execution_id) -> ~ follow_up_key k ->
               t' !! k = t !! k)
         /\ (forall k, is_Some (t !! k) -> is_Some (t' !! k))
         /\ (is_Some (t' !! (username, execution_id)) ->
             is_Some (t !! (username, execution_id))
             \/ follow_up_key (username, execution_id)).

Lemma confined_refl w : confined w w.
Proof.
  split; [done|]. split; [done|]. intros t Ht. exists t. auto.
Qed.

Lemma confined_trans w1 w2 w3 : confined w1 w2 -> confined w2 w3 -> confined w1 w3.
Proof.
  intros (He1 & Htr1 & Ht1) (He2 & Htr2 & Ht2).
  split; [congruence|]. split.
  { intros key Hkey. rewrite Htr2, Htr1; done. }
  intros t Ht. destruct (Ht1 t Ht) as (t2 & Ht2' & Ha1 & Hb1 & Hc1).
  destruct (Ht2 t2 Ht2') as (t3 & Ht3 & Ha2 & Hb2 & Hc2).
  exists t3. split; [done|]. split; [|split].
  - intros k Hk Hf. rewrite Ha2, Ha1; done.
  - auto.
  - intros Hs. destruct (Hc2 Hs) as [Hs2|Hf]; [|by right]. by apply Hc1.
Qed.

Lemma confined_same_table w w' :
  executors w' = executors w ->
  job_execution_tracker w' = job_execution_tracker w ->
  _job_executions_table w' = _job_executions_table w ->
  confined w w'.
Proof.
  intros He Htr Ht. split; [done|]. split; [by rewrite Htr|].
  intros t Hw. exists t. rewrite Ht. auto.
Qed.

Lemma confined_update_status now status error_message w :
  confined w (update_job_execution_status now username execution_id status error_message w).
Proof.
  unfold update_job_execution_status.
  destruct (_job_executions_table w) as [t|] eqn:Ht; [|apply confined_refl].
  destruct (t !! (username, execution_id)) as [e|] eqn:He; [|apply confined_refl].
  split; [done|]. split; [done|].
  intros t0 Ht0. rewrite Ht in Ht0. injection Ht0 as <-.
  eexists. split; [done|]. split; [|split].
  - intros k Hk _. by rewrite lookup_insert_ne.
  - intros k Hs. destruct (decide (k = (username, execution_id))) as [->|Hne].
    + rewrite lookup_insert_eq. eauto.
    + by rewrite lookup_insert_ne.
  - intros _. left. eauto.
Qed.

Lemma confined_active_add a w : confined w (active_add execution_id a w).
Proof.
  unfold active_add. destruct (active_jobs w); [|apply confined_refl].
  by apply confined_same_table.
Qed.

Lemma confined_active_pop w : confined w (active_pop execution_id w).
Proof.
  unfold active_pop. destruct (active_jobs w); [|apply confined_refl].
  by apply confined_same_table.
Qed.

Lemma confined_record_job_execution w :
  confined w (_record_job_execution username job_id china_now w).
Proof.
  split; [done|]. split.
  - intros key Hkey. simpl. by rewrite lookup_insert_ne.
  - intros t Ht. exists t. auto.
Qed.

Lemma confined_next_hourly_record job_config w :
  job_type = JobType.HOURLY ->
  confined w (next_hourly_record username job_id job_type job_config china_now w).2.
Proof.
  intros Hty. unfold next_hourly_record. m_unfold.
  destruct (int _); simpl; [|apply confined_refl].
  destruct (if 24 <=? hour china_now + 1 then _ else _) as [st|]; simpl;
    [|apply confined_refl].
  unfold create_job_execution_record.
  destruct (_job_executions_table w) as [t|] eqn:Ht; [|apply confined_refl].
  simpl. split; [done|]. split; [done|].
  intros t0 Ht0. rewrite Ht in Ht0. injection Ht0 as <-.
  eexists. split; [done|].
  assert (follow_up_key (username, generate_execution_id job_id st)) as Hf.
  { split; [done|]. by exists st. }
  split; [|split].
  - intros k _ Hk. rewrite lookup_insert_ne; [done|]. by intros <-.
  - intros k Hs. destruct (decide (k = (username, generate_execution_id job_id st)))
      as [->|Hne].
    + rewrite lookup_insert_eq. eauto.
    + by rewrite lookup_insert_ne.
  - intros Hs.
    destruct (decide ((username, execution_id)
                      = (username, generate_execution_id job_id st))) as [Heq|Hne].
    + right. by rewrite Heq.
    + left. by rewrite lookup_insert_ne in Hs.
Qed.

Lemma worker_confined t_run t_end usd job_config w :
  confined w (_execute_single_job t_run t_end username usd job_id job_config
                job_type china_now execution_id w).
Proof.
  unfold _execute_single_job.
  set (body := try_except _ _).
  eapply confined_trans; [|apply confined_active_pop].
  unfold body, worker_body. m_unfold.
  pose proof (confined_update_status t_run "running" None w) as C1.
  set (w1 := update_job_execution_status t_run username execution_id "running" None w) in *.
  pose proof (confined_active_add (mk_active_job username job_id t_run) w1) as C2.
  set (w2 := active_add execution_id (mk_active_job username job_id t_run) w1) in *.
  eapply confined_trans; [exact C1|]. eapply confined_trans; [exact C2|].
  destruct (executors w2 !! job_id) as [[f name]|]; simpl;
    [|apply confined_update_status].
  set (w3 := (if per_day job_type
              then _record_job_execution username job_id china_now
              else fun w => w) w2).
  assert (confined w2 w3) as C3.
  { unfold w3. destruct (per_day job_type);
      [apply confined_record_job_execution|apply confined_refl]. }
  eapply confined_trans; [exact C3|]. unfold invoke.
  set (w4 := emit w3 _).
  assert (confined w3 w4) as C4 by (by apply confined_same_table).
  eapply confined_trans; [exact C4|].
  destruct (f username job_config) as [[]|msg]; simpl;
    [|apply confined_update_status].
  pose proof (confined_update_status t_end "completed" None w4) as C5.
  set (w5 := update_job_execution_status t_end username execution_id "completed" None w4) in *.
  eapply confined_trans; [exact C5|].
  case_bool_decide as Hty; [|apply confined_refl].
  pose proof (confined_next_hourly_record job_config w5 Hty) as C6.
  destruct (next_hourly_record username job_id job_type job_config china_now w5)
    as [[[]|msg] w6]; simpl in *; [done|].
  eapply confined_trans; [exact C6|]. apply confined_update_status.
Qed.

(** X22. A worker is confined to its own records.  Whatever the executor
    does through its return value, [_execute_single_job] removes no
    record and changes no record but the one of its run and, for an
    hourly job, a follow-up record of the same user and job: the records
    of other users, and those of the user under other keys, are as they
    were.  A job that is not hourly adds no record.  The executor table
    is unchanged, and in the per-day tracker only the key of the user,
    the job and the day can change. *)
Theorem worker_confined_to_its_records (t_run t_end : datetime)
    (usd : user_settings_data) (job_config : job_config) (w : world) (t : rows) :
  _job_executions_table w = Some t ->
  let w' := _execute_single_job t_run t_end username usd job_id job_config
              job_type china_now execution_id w in
  executors w' = executors w
  /\ (forall key, key <> tracker_key username job_id china_now ->
        job_execution_tracker w' !! key = job_execution_tracker w !! key)
  /\ exists t',
       _job_executions_table w' = Some t'
       /\ (forall k, k <> (username, execution_id) -> ~ follow_up_key k ->
             t' !! k = t !! k)
       /\ (forall k, k.1 <> username -> t' !! k = t !! k)
       /\ (forall k, is_Some (t !! k) -> is_Some (t' !! k))
       /\ (job_type <> JobType.HOURLY ->
           forall k, is_Some (t' !! k) -> is_Some (t !! k)).
Proof.
  intros Ht. simpl.
  destruct (worker_confined t_run t_end usd job_config w) as (Hex & Htr & Htab).
  split; [done|]. split; [done|].
  destruct (Htab t Ht) as (t' & Ht' & Ha & Hb & Hc).
  exists t'. split; [done|]. split; [done|]. split; [|split; [done|]].
  - intros k Hk. apply Ha.
    + intros ->. done.
    + intros [_ [st ->]]. done.
  - intros Hty k Hs.
    destruct (decide (k = (username, execution_id))) as [->|Hne].
    + destruct (Hc Hs) as [?|[? _]]; done.
    + rewrite <- Ha; [done|done|]. by intros [? _].
Qed.

End WorkerFrame.
(** ** The further properties at the scenario *)

Module Cases.
Import Requests.

(** Alice's hall combat session on two accounts is marked active. *)
Definition alice_session : request_info :=
  mk_request_info "alice" "hall_combat" (Many ["beta"; "alpha"]) Scenario.at_0200.

Definition alice_key : string :=
  get_request_key Instances.toy_hash "alice" "hall_combat" (Many ["beta"; "alpha"]).

Definition one_request : gmap string request_info := {[alice_key := alice_session]}.

Definition registry_in_use : globals := mk_globals (Some one_request) true.

(** Bob's daily job has an hour that [int()] cannot read. *)
Definition unreadable : job_config :=
  list_to_map [("type", PStr "daily"); ("enabled", PBool true); ("hour", PStr "two")].

Definition bob : user_settings_data := mk_user_settings None None [("broken", unreadable)].

Definition pass_with_bob : tick :=
  mk_tick JobType.DAILY Scenario.calm Scenario.at_0200
    (Scenario.users ++ [("bob", bob)]) (fun _ => Scenario.calm)
    (fun _ _ => (Scenario.at_0200, Scenario.at_0200)).

(** The last hour of the year and an instant of the hour after it. *)
Definition new_years_eve : datetime := mk_datetime 2026 12 31 23 5 30 0.
Definition new_year : datetime := mk_datetime 2027 1 1 0 5 10 0.

(** No hall combat session yet, the registry bound and empty. *)
Definition no_sessions : Halls.sessions := Halls.mk_sessions ∅ Instances.registry_ready.

Definition cached : gmap string Halls.account :=
  {["alpha" := Halls.mk_account (Some (PStr "3/10")) true true]}.

End Cases.

Lemma request_key_ignores_order_witness :
  Requests.is_request_active Instances.toy_hash "alice" "hall_combat"
    (Requests.Many ["alpha"; "beta"])
    (Requests.mark_request_active Instances.toy_hash Scenario.at_0200 "alice"
       "hall_combat" (Requests.Many ["beta"; "alpha"]) Instances.registry_ready).2
  = Returned true.
Proof.
  refine (proj1 (proj2 (proj2 (proj2
            (request_key_ignores_order Instances.toy_hash Scenario.at_0200
               Scenario.at_0201 "alice" "hall_combat" ["beta"; "alpha"]
               ["alpha"; "beta"] "alpha" Instances.registry_ready ∅ _ _ _))))).
  - apply perm_swap.
  - split; reflexivity.
  - reflexivity.
Defined.

Lemma requests_of_different_users_independent_witness :
  Requests.get_request_key Instances.toy_hash "alice" "hall_combat" (Requests.One "alpha")
  <> Requests.get_request_key Instances.toy_hash "bob" "hall_combat" (Requests.One "alpha").
Proof.
  refine (proj1 (requests_of_different_users_independent Instances.toy_hash
                   Scenario.at_0200 Scenario.at_0201
                   "alice" "hall_combat" (Requests.One "alpha")
                   "bob" "hall_combat" (Requests.One "alpha")
                   Instances.registry_ready ∅ _ _ _ _ _ _ _ _)).
  - reflexivity.
  - reflexivity.
  - reflexivity.
  - reflexivity.
  - intros H. discriminate H.
  - split; reflexivity.
  - reflexivity.
  - reflexivity.
Defined.

Lemma clear_requests_for_user_removes_exactly_witness :
  exists d',
    RequestsMore.clear_requests_for_user "alice" Cases.registry_in_use
    = (Returned tt, Requests.mk_globals (Some d') true)
    /\ RequestsMore.get_active_requests_for_user (fun _ => Scenario.at_0201) "alice"
         (Requests.mk_globals (Some d') true)
       = Returned [].
Proof.
  destruct (clear_requests_for_user_removes_exactly (fun _ => Scenario.at_0201) "alice"
              Cases.registry_in_use Cases.one_request)
    as (d' & Hr & _ & Hnone & _).
  - split; reflexivity.
  - exists d'. split; [exact Hr|]. rewrite Hr in Hnone. exact Hnone.
Defined.

Lemma validated_settings_never_abort_daily_pass_witness :
  exists submitted,
    (run_jobs (Scenario.pass_at Scenario.at_0200) Scenario.started).1 = Returned submitted.
Proof.
  refine (proj1 (validated_settings_never_abort_daily_pass
                   (Scenario.pass_at Scenario.at_0200) Scenario.started _ _ _ _ _)).
  - reflexivity.
  - simpl. lia.
  - simpl. lia.
  - simpl. lia.
  - repeat constructor.
Defined.

Lemma unreadable_setting_aborts_pass_witness :
  (exists e, (run_jobs Cases.pass_with_bob Scenario.started).1 = Raised e)
  /\ calls (trace (run_jobs Cases.pass_with_bob Scenario.started).2) = [].
Proof.
  destruct (unreadable_setting_aborts_pass Cases.pass_with_bob Scenario.started
              "bob" Cases.bob "broken" Cases.unreadable "ValueError")
    as (Hraised & Hcalls & _).
  - reflexivity.
  - reflexivity.
  - right. left.
  - reflexivity.
  - reflexivity.
  - left.
  - reflexivity.
  - reflexivity.
  - reflexivity.
  - split; [exact Hraised|exact Hcalls].
Defined.

Lemma startup_recovery_leaves_nothing_missed_witness :
  get_missed_jobs (s_missed_now Restart.same_day)
    (lifespan_startup Restart.same_day (fresh_process Restart.registry)) = [].
Proof.
  refine (proj1 (startup_recovery_leaves_nothing_missed Restart.same_day
                   Restart.registry _ _)).
  - reflexivity.
  - reflexivity.
Defined.

Lemma start_of_day_job_leaves_no_stale_record_witness :
  same_but_table Instances.one_pending
    (SchedulerJobs.initialize_daily_job_records_job true Scenario.users
       Instances.at_0230 Instances.at_0230 Instances.one_pending).
Proof.
  refine (proj1 (proj2 (start_of_day_job_leaves_no_stale_record true Scenario.users
                          Instances.at_0230 Instances.at_0230 Instances.one_pending
                          {[("alice", Scenario.record_id) := Restart.pending_today]}
                          _ _))).
  - reflexivity.
  - unfold valid_date. simpl. change (days_in_month 2026 11) with 30. lia.
Defined.

Lemma startup_initialization_leaves_nothing_missed_witness :
  get_missed_jobs (s_init_now Restart.overnight)
    (lifespan_startup Restart.overnight (fresh_process Restart.registry)) = [].
Proof.
  refine (proj1 (startup_initialization_leaves_nothing_missed Restart.overnight
                   Restart.registry _ _ _ _ _)).
  - reflexivity.
  - reflexivity.
  - unfold valid_date. simpl. change (days_in_month 2026 11) with 30. lia.
  - unfold valid_time. simpl. lia.
  - reflexivity.
Defined.

Lemma tracker_remembers_calendar_day_witness :
  _has_job_executed_today
    (_record_job_execution "alice" "auto_challenge" Scenario.at_0200 Scenario.started)
    "alice" "auto_challenge" Instances.at_0230
  = _has_job_executed_today Scenario.started "alice" "auto_challenge" Instances.at_0230
    || bool_decide ("alice" = "alice" /\ "auto_challenge" = "auto_challenge"
                    /\ year Instances.at_0230 = year Scenario.at_0200
                    /\ month Instances.at_0230 = month Scenario.at_0200
                    /\ day Instances.at_0230 = day Scenario.at_0200).
Proof.
  apply (tracker_remembers_calendar_day Scenario.started "alice" "auto_challenge"
           Scenario.at_0200 "alice" "auto_challenge" Instances.at_0230).
  - unfold calendar_date. simpl. lia.
  - unfold calendar_date. simpl. lia.
Defined.

Lemma execution_id_names_job_and_second_witness :
  generate_execution_id "auto_challenge" Scenario.at_0200
  = generate_execution_id "auto_challenge" (mk_datetime 2026 11 4 2 0 17 0).
Proof.
  apply (execution_id_names_job_and_second "auto_challenge" "auto_challenge"
           Scenario.at_0200 (mk_datetime 2026 11 4 2 0 17 0)).
  - unfold calendar_date. simpl. lia.
  - unfold calendar_date. simpl. lia.
  - unfold valid_time. simpl. lia.
  - unfold valid_time. simpl. lia.
  - repeat split.
Defined.

Lemma hourly_follow_up_is_next_hours_record_witness :
  exists scheduled_time,
    scheduled_time_of JobType.HOURLY Scenario.hourly_at_five Cases.new_year
    = Returned scheduled_time
    /\ is_Some
         (_job_executions_table
            (next_hourly_record "alice" "patrol" JobType.HOURLY Scenario.hourly_at_five
               Cases.new_years_eve Scenario.started).2
          ≫= fun t' => t' !! ("alice", generate_execution_id "patrol" scheduled_time)).
Proof.
  destruct (hourly_follow_up_is_next_hours_record "alice" "patrol"
              Scenario.hourly_at_five Cases.new_years_eve Cases.new_year
              Scenario.started ∅ 5)
    as (scheduled_time & e & _ & Hst & He & _).
  - reflexivity.
  - simpl. lia.
  - reflexivity.
  - lia.
  - unfold valid_time. simpl. lia.
  - unfold next_clock_hour. simpl. repeat split.
  - exists scheduled_time. split; [exact Hst|]. rewrite He. by eexists.
Defined.

Lemma session_ends_with_its_last_thread_witness :
  Halls.hall_combat_threads
    (Halls.threads_finished Instances.toy_hash 2 "alice" "hall_combat" ["alpha"]
       (Halls.register_hall_combat_threads "alice" 2 Cases.no_sessions))
  !! "alice" = None.
Proof.
  refine (proj1 (proj1 (proj2
            (session_ends_with_its_last_thread Instances.toy_hash "alice" "hall_combat"
               ["alpha"] 2 Cases.no_sessions ∅ _ _)))).
  - split; reflexivity.
  - lia.
Defined.

Lemma session_not_reported_before_a_thread_ends_witness :
  (Halls.is_hall_combat_running "alice"
     (Halls.register_hall_combat_threads "alice" 2 Cases.no_sessions)).1
  = Returned false.
Proof.
  refine (proj1 (session_not_reported_before_a_thread_ends Instances.toy_hash
                   "alice" "hall_combat" ["alpha"] 2 Cases.no_sessions ∅ _)).
  split; reflexivity.
Defined.

Lemma hall_setup_and_the_registry_witness :
  (Halls._setup_hall_combat_session Instances.toy_hash Scenario.at_0200 Cases.cached
     "alice" ["alpha"] "hall_combat" false
     (Halls.clear_stale_request Instances.toy_hash "alice" "hall_combat" ["alpha"]
        Instances.registry_ready).2).1
  <> inr Halls.AlreadyRunning.
Proof.
  refine (proj2 (proj2 (proj2
            (hall_setup_and_the_registry Instances.toy_hash Scenario.at_0200
               Cases.cached "alice" ["alpha"] "hall_combat" false
               Instances.registry_ready ∅ _)))).
  split; reflexivity.
Defined.

Lemma pass_runs_only_eligible_jobs_witness :
  Forall (eligible Scenario.users JobType.DAILY)
    (match (run_jobs (Scenario.pass_at Scenario.at_0200) Scenario.started).1 with
     | Returned submitted => submitted
     | Raised _ => []
     end).
Proof.
  refine (proj1 (pass_runs_only_eligible_jobs (Scenario.pass_at Scenario.at_0200)
                   Scenario.started _ _)).
  vm_compute. reflexivity.
Defined.

Lemma worker_confined_to_its_records_witness :
  executors
    (_execute_single_job Scenario.at_0200 Scenario.at_0201 "alice" Scenario.alice
       "auto_challenge" Scenario.daily_at_two JobType.DAILY Scenario.at_0200
       Scenario.record_id Instances.one_pending)
  = executors Instances.one_pending.
Proof.
  refine (proj1 (worker_confined_to_its_records "alice" "auto_challenge" JobType.DAILY
                   Scenario.record_id Scenario.at_0200 Scenario.at_0200 Scenario.at_0201
                   Scenario.alice Scenario.daily_at_two Instances.one_pending
                   {[("alice", Scenario.record_id) := Restart.pending_today]} _)).
  reflexivity.
Defined.
